(** * anuj.pro: the résumé loader and renderer of [assets/app.js]

    A shallow embedding of the browser script that fetches a résumé data
    file from a list of candidate paths, parses it, and renders it under
    one of three themes, together with the earlier copy of the same script
    (src/unnamed/part_000).

    Conventions.
    - A JavaScript string is a list of UTF-16 code units ([jsstring]).
    - A JavaScript value that comes out of [JSON.parse] is a [value].
    - Code that can throw lives in [result]; code that also touches the
      network or the page lives in the state-and-exception monad [M].
    - [JSON.parse], [window.jsyaml], [fetch] and the query string belong to
      the browser, not to the repository: they are Section variables. *)

From Stdlib Require Import List String Ascii ZArith NArith Bool Lia DecimalString.
Import ListNotations.
Open Scope Z_scope.
Set Warnings "-register-all".


(* ================================================================== *)
(** ** Strings *)

Definition jsstring := list N.

(** An ASCII literal of the source, as code units. *)
Definition lit (s : string) : jsstring :=
  map N_of_ascii (list_ascii_of_string s).

(** U+2022, the bullet of ['•'] and [' • ']. *)
Definition bullet : jsstring := [8226%N].
(** U+2014, the dash of [' — ']. *)
Definition emdash : jsstring := [8212%N].

Fixpoint jseqb (a b : jsstring) : bool :=
  match a, b with
  | [], [] => true
  | x :: a', y :: b' => N.eqb x y && jseqb a' b'
  | _, _ => false
  end.

(** [String.prototype.startsWith] *)
Fixpoint startsWith (s pre : jsstring) : bool :=
  match pre, s with
  | [], _ => true
  | c :: pre', d :: s' => N.eqb c d && startsWith s' pre'
  | _ :: _, [] => false
  end.

(** [String.prototype.endsWith] *)
Definition endsWith (s suf : jsstring) : bool :=
  startsWith (rev s) (rev suf).

(** The code units matched by [\s] and stripped by [trim]:
    WhiteSpace and LineTerminator of ECMAScript. *)
Definition is_ws (c : N) : bool :=
  ((9 <=? c) && (c <=? 13) || (c =? 32) || (c =? 160) || (c =? 5760)
   || (8192 <=? c) && (c <=? 8202) || (c =? 8232) || (c =? 8233)
   || (c =? 8239) || (c =? 8287) || (c =? 12288) || (c =? 65279))%N.

Fixpoint trimStart (s : jsstring) : jsstring :=
  match s with
  | c :: s' => if is_ws c then trimStart s' else s
  | [] => []
  end.

(** [String.prototype.trim] *)
Definition trim (s : jsstring) : jsstring :=
  rev (trimStart (rev (trimStart s))).

(** [s.replace(/\s+/g, '')] *)
Definition strip_ws (s : jsstring) : jsstring :=
  filter (fun c => negb (is_ws c)) s.

(* ================================================================== *)
(** ** Values and exceptions *)

Inductive value : Type :=
| VUndef
| VNull
| VBool (b : bool)
| VNum (n : Z)                         (* an integral Number *)
| VStr (s : jsstring)
| VArr (items : list value)
| VObj (props : list (jsstring * value)). (* own properties, one per name *)

Inductive exn : Type :=
| TypeError
| SyntaxError
| NetworkError
| YAMLException.

Inductive result (A : Type) : Type :=
| Ok (a : A)
| Throw (e : exn).
Arguments Ok {A} a.
Arguments Throw {A} e.

Definition rbind {A B} (r : result A) (k : A -> result B) : result B :=
  match r with
  | Ok a => k a
  | Throw e => Throw e
  end.

Declare Scope res_scope.
Delimit Scope res_scope with res.
Notation "x <- e ;; k" := (rbind e (fun x => k))
  (at level 61, e at next level, right associativity) : res_scope.

(** ToBoolean *)
Definition truthy (v : value) : bool :=
  match v with
  | VUndef | VNull => false
  | VBool b => b
  | VNum n => negb (n =? 0)
  | VStr s => match s with [] => false | _ => true end
  | VArr _ | VObj _ => true
  end.

Fixpoint lookup (k : jsstring) (props : list (jsstring * value)) : option value :=
  match props with
  | [] => None
  | (k', v) :: rest => if jseqb k k' then Some v else lookup k rest
  end.

(** Property read [v.k] for the property names the script uses (name,
    title, links, url, items, theme, ...): none of them is defined on a
    prototype, so only own properties of objects answer; reading from
    [null] or [undefined] throws. *)
Definition get (v : value) (k : string) : result value :=
  match v with
  | VUndef | VNull => Throw TypeError
  | VObj props => Ok match lookup (lit k) props with Some x => x | None => VUndef end
  | _ => Ok VUndef
  end.

Definition isArray (v : value) : bool :=
  match v with VArr _ => true | _ => false end.

Definition string_of_Z (n : Z) : jsstring :=
  lit (NilZero.string_of_int (Z.to_int n)).

Definition comma : jsstring := lit ",".

Section Join.
Context {A : Type} (show : A -> result jsstring).

(** The loop of [Array.prototype.join]: the separator goes before every
    element but the first. *)
Fixpoint join_from (sep acc : jsstring) (l : list A) : result jsstring :=
  match l with
  | [] => Ok acc
  | x :: l' =>
      match show x with
      | Ok s => join_from sep (acc ++ sep ++ s) l'
      | Throw e => Throw e
      end
  end.

Definition join_with (sep : jsstring) (l : list A) : result jsstring :=
  match l with
  | [] => Ok []
  | x :: l' =>
      match show x with
      | Ok s => join_from sep s l'
      | Throw e => Throw e
      end
  end.
End Join.

(** ToString.  An object answers ["[object Object]"] through
    [Object.prototype.toString] unless an own property named [toString]
    shadows it with something that cannot be called, in which case the
    conversion throws.  An array joins its elements with [","], [null] and
    [undefined] elements giving the empty string. *)
Fixpoint to_string (v : value) : result jsstring :=
  match v with
  | VUndef => Ok (lit "undefined")
  | VNull => Ok (lit "null")
  | VBool true => Ok (lit "true")
  | VBool false => Ok (lit "false")
  | VNum n => Ok (string_of_Z n)
  | VStr s => Ok s
  | VArr l =>
      join_with (fun x => match x with
                          | VUndef | VNull => Ok []
                          | _ => to_string x
                          end) comma l
  | VObj props =>
      match lookup (lit "toString") props with
      | Some _ => Throw TypeError
      | None => Ok (lit "[object Object]")
      end
  end.

(** The element conversion of [Array.prototype.join]. *)
Definition join_item (v : value) : result jsstring :=
  match v with
  | VUndef | VNull => Ok []
  | _ => to_string v
  end.

(** [arr.join(sep)] *)
Definition join (sep : jsstring) (l : list value) : result jsstring :=
  join_with join_item sep l.

(** [a || b] on already evaluated operands. *)
Definition or_else (a b : value) : value := if truthy a then a else b.

(** [===] against a string literal. *)
Definition strict_eq_lit (v : value) (s : string) : bool :=
  match v with
  | VStr t => jseqb t (lit s)
  | _ => false
  end.

Definition str (s : string) : value := VStr (lit s).

(* ================================================================== *)
(** ** DOM nodes

    [Html s] stands for the nodes the browser's HTML parser makes of [s]
    when [s] is assigned to [innerHTML]; the parser itself is not
    modelled. *)

Inductive node : Type :=
| Elem (tag : string) (className : jsstring)
       (attrs : list (string * jsstring)) (kids : list node)
| Text (s : jsstring)
| Html (s : jsstring).

(** What an array handed to [make] may hold: nodes and data values. *)
Inductive item : Type :=
| INode (n : node)
| IVal (v : value).

(** The third argument of [make]. *)
Inductive content : Type :=
| NoContent                 (* argument left out: [undefined] *)
| Items (l : list item)     (* an array built by the script *)
| Child (n : node)          (* a single node *)
| Data (v : value).         (* a string or a value of the record *)

Local Open Scope res_scope.

(** [c && el.append(c)] *)
Definition append_item (c : item) : result (list node) :=
  match c with
  | INode n => Ok [n]
  | IVal v => if truthy v then s <- to_string v ;; Ok [Text s] else Ok []
  end.

Fixpoint append_items (l : list item) : result (list node) :=
  match l with
  | [] => Ok []
  | c :: l' =>
      k <- append_item c ;;
      ks <- append_items l' ;;
      Ok (k ++ ks)
  end.

(** [el.innerHTML = v] on a fresh element; [null] counts as [""]. *)
Definition set_innerHTML (v : value) : result (list node) :=
  s <- match v with VNull => Ok [] | _ => to_string v end ;;
  Ok match s with [] => [] | _ => [Html s] end.

(** [el.textContent = v] on a fresh element. *)
Definition set_textContent (v : value) : result (list node) :=
  s <- match v with VNull => Ok [] | _ => to_string v end ;;
  Ok match s with [] => [] | _ => [Text s] end.

Definition make (tag : string) (cls : option string) (c : content) : result node :=
  let className := match cls with Some s => lit s | None => [] end in
  kids <- match c with
          | NoContent | Data VUndef => Ok []
          | Items l => append_items l
          | Data (VArr l) => append_items (map IVal l)
          | Child n => Ok [n]
          | Data v => set_innerHTML v
          end ;;
  Ok (Elem tag className [] kids).

(** [el.append(...)] *)
Definition append (el : node) (new : list node) : node :=
  match el with
  | Elem t c a kids => Elem t c a (kids ++ new)
  | _ => el
  end.

Definition setAttribute (el : node) (k : string) (v : jsstring) : node :=
  match el with
  | Elem t c a kids => Elem t c (a ++ [(k, v)]) kids
  | _ => el
  end.

Definition linkify (url label : value) : result (option node) :=
  if negb (truthy url) then Ok None
  else
    href <- to_string url ;;
    txt <- set_textContent (or_else label url) ;;
    Ok (Some (Elem "a" []
                [("href"%string, href); ("target"%string, lit "_blank");
                 ("rel"%string, lit "noopener")] txt)).

(** [arr.filter(Boolean)] on an array of nodes and [null]s. *)
Fixpoint somes {A} (l : list (option A)) : list A :=
  match l with
  | [] => []
  | Some a :: l' => a :: somes l'
  | None :: l' => somes l'
  end.

Definition opt_list {A} (o : option A) : list A :=
  match o with Some a => [a] | None => [] end.

(** [arr.forEach(f)] where [f] pushes or appends what it answers. *)
Fixpoint forEach {A B} (f : A -> result (list B)) (l : list A) : result (list B) :=
  match l with
  | [] => Ok []
  | x :: l' =>
      k <- f x ;;
      ks <- forEach f l' ;;
      Ok (k ++ ks)
  end.

(** A literal with ['] standing for the double quote. *)
Definition litq (s : string) : jsstring :=
  map (fun c => if (c =? 39)%N then 34%N else c) (lit s).

Definition deco_svg : jsstring :=
  litq "<svg width='49' height='49' viewBox='0 0 49 49' fill='none' xmlns='http://www.w3.org/2000/svg'><path fill='currentColor' d='M17 0h15v15H17zM34 17h15v15H34z'></path><path opacity='.2' fill='currentColor' d='M34 34h15v15H34zM17 17h15v15H17zM0 0h15v15H0z'></path><path fill='currentColor' d='M34 0h15v15H34z'></path></svg>".

(* ================================================================== *)
(** ** Section builders (app.js 137-246, part_000 73-182) *)

(** [bits.forEach((b,i) => { if(i>0) contacts.append(dot); contacts.append(b) })] *)
Fixpoint contacts_loop (i : nat) (bits : list node) : result (list node) :=
  match bits with
  | [] => Ok []
  | b :: rest =>
      sep <- (if (0 <? i)%nat
              then dot <- make "span" (Some "dot"%string) (Data (VStr bullet)) ;; Ok [dot]
              else Ok []) ;;
      more <- contacts_loop (S i) rest ;;
      Ok (sep ++ [b] ++ more)
  end.

(** [d.links.forEach(l => { const a = linkify(l.url, l.label); if(a) bits.push(a) })] *)
Definition push_link (l : value) : result (list node) :=
  url <- get l "url" ;;
  label <- get l "label" ;;
  a <- linkify url label ;;
  Ok (opt_list a).

Definition renderHeader (d : value) : result node :=
  name <- get d "name" ;;
  h1 <- make "h1" None (Data (or_else name (str "Your Name"))) ;;
  title <- get d "title" ;;
  titleEl <- (if truthy title
              then t <- make "div" (Some "title"%string) (Data title) ;; Ok (Some t)
              else Ok None) ;;
  who <- make "div" (Some "who"%string) (Items (map INode (somes [Some h1; titleEl]))) ;;
  contacts <- make "div" (Some "contacts-line"%string) NoContent ;;
  location <- get d "location" ;;
  bits1 <- (if truthy location
            then sp <- make "span" (Some ""%string) (Data location) ;; Ok [sp]
            else Ok []) ;;
  phone <- get d "phone" ;;
  bits2 <- (if truthy phone
            then
              p <- to_string phone ;;
              a <- linkify (VStr (lit "tel:" ++ strip_ws p)) phone ;;
              Ok (bits1 ++ opt_list a)
            else Ok bits1) ;;
  email <- get d "email" ;;
  bits3 <- (if truthy email
            then
              e <- to_string email ;;
              a <- linkify (VStr (lit "mailto:" ++ e)) email ;;
              Ok (bits2 ++ opt_list a)
            else Ok bits2) ;;
  links <- get d "links" ;;
  bits4 <- match links with
           | VArr ls => more <- forEach push_link ls ;; Ok (bits3 ++ more)
           | _ => Ok bits3
           end ;;
  line <- contacts_loop 0 bits4 ;;
  header <- make "div" (Some "hdr"%string) (Items [INode who; INode (append contacts line)]) ;;
  deco <- make "div" (Some "deco"%string) (Data (VStr deco_svg)) ;;
  Ok (append header [setAttribute deco "aria-hidden" (lit "true")]).

(** SameValueZero, the equality of [Set].  Arrays and objects are compared
    by identity, and every array or object inside a parsed record is a
    distinct one. *)
Definition same_value_zero (a b : value) : bool :=
  match a, b with
  | VUndef, VUndef | VNull, VNull => true
  | VBool x, VBool y => Bool.eqb x y
  | VNum x, VNum y => x =? y
  | VStr x, VStr y => jseqb x y
  | _, _ => false
  end.

(** [[...new Set(all)]]: values in insertion order, a value being inserted
    when no equal one is there yet. *)
Definition set_add (acc : list value) (x : value) : list value :=
  if existsb (same_value_zero x) acc then acc else acc ++ [x].

Definition new_Set (all : list value) : list value :=
  fold_left set_add all [].

(** [if(s && Array.isArray(s.items)) s.items.forEach(it => all.push(it))] *)
Definition skill_items (s : value) : result (list value) :=
  if truthy s then
    items <- get s "items" ;;
    Ok match items with VArr its => its | _ => [] end
  else Ok [].

Definition renderSkills (skills : value) : result (option node) :=
  match skills with
  | VArr ((_ :: _) as l) =>
      sec <- make "section" (Some "sec"%string) NoContent ;;
      h2 <- make "h2" None (Data (str "Skills")) ;;
      all <- forEach skill_items l ;;
      list <- join (lit ", ") (new_Set all) ;;
      body <- make "div" (Some "muted"%string) (Data (VStr list)) ;;
      Ok (Some (append (append sec [h2]) [body]))
  | _ => Ok None
  end.

(** [j.highlights.forEach(h => ul.append(make('li',null,h)))] *)
Definition highlight (h : value) : result (list node) :=
  li <- make "li" None (Data h) ;; Ok [li].

Definition highlights_of (j : value) : result (list node) :=
  hs <- get j "highlights" ;;
  match hs with
  | VArr ((_ :: _) as l) =>
      ul <- make "ul" (Some "tight muted"%string) NoContent ;;
      lis <- forEach highlight l ;;
      Ok [append ul lis]
  | _ => Ok []
  end.

(** [if(x) item.append(make('div', cls, x))] for a string [x]. *)
Definition div_if (cls : string) (x : jsstring) : result (list node) :=
  match x with
  | [] => Ok []
  | _ => n <- make "div" (Some cls) (Data (VStr x)) ;; Ok [n]
  end.

Definition experience_item (j : value) : result (list node) :=
  if negb (truthy j) then Ok []
  else
    item <- make "div" (Some "item"%string) NoContent ;;
    role <- get j "role" ;;
    company <- get j "company" ;;
    head <- join (lit ", ") (filter truthy [role; company]) ;;
    roleEl <- make "div" (Some "role"%string) (Data (VStr head)) ;;
    start <- get j "start" ;;
    end_ <- get j "end" ;;
    dur <- join (lit " - ") (filter truthy [start; end_]) ;;
    location <- get j "location" ;;
    meta <- join (lit " " ++ bullet ++ lit " ") (filter truthy [VStr dur; location]) ;;
    metaEl <- div_if "meta" meta ;;
    ul <- highlights_of j ;;
    Ok [append item ([roleEl] ++ metaEl ++ ul)].

Definition renderExperience (exp : value) : result (option node) :=
  match exp with
  | VArr ((_ :: _) as l) =>
      sec <- make "section" (Some "sec"%string) NoContent ;;
      h2 <- make "h2" None (Data (str "Employment history")) ;;
      items <- forEach experience_item l ;;
      Ok (Some (append (append sec [h2]) items))
  | _ => Ok None
  end.

(** [if(e.note) item.append(make('div','', e.note))] *)
Definition note_of (e : value) : result (list node) :=
  note <- get e "note" ;;
  if truthy note
  then n <- make "div" (Some ""%string) (Data note) ;; Ok [n]
  else Ok [].

Definition education_item (e : value) : result (list node) :=
  item <- make "div" (Some "item"%string) NoContent ;;
  degree <- get e "degree" ;;
  school <- get e "school" ;;
  head <- join (lit " " ++ emdash ++ lit " ") (filter truthy [degree; school]) ;;
  roleEl <- make "div" (Some "role"%string) (Data (VStr head)) ;;
  year <- get e "year" ;;
  location <- get e "location" ;;
  meta <- join (lit " " ++ bullet ++ lit " ") (filter truthy [year; location]) ;;
  metaEl <- div_if "meta" meta ;;
  noteEl <- note_of e ;;
  Ok [append item ([roleEl] ++ metaEl ++ noteEl)].

Definition renderEducation (ed : value) : result (option node) :=
  match ed with
  | VArr ((_ :: _) as l) =>
      sec <- make "section" (Some "sec"%string) NoContent ;;
      h2 <- make "h2" None (Data (str "Education")) ;;
      items <- forEach education_item l ;;
      Ok (Some (append (append sec [h2]) items))
  | _ => Ok None
  end.

Definition renderSummary (txt : value) : result (option node) :=
  if negb (truthy txt) then Ok None
  else
    sec <- make "section" (Some "sec"%string) NoContent ;;
    h2 <- make "h2" None (Data (str "Professional summary")) ;;
    body <- make "div" (Some "muted"%string) (Data txt) ;;
    Ok (Some (append (append sec [h2]) [body])).

Definition cert_item (c : value) : result (list node) :=
  item <- make "div" (Some "item"%string) NoContent ;;
  name <- get c "name" ;;
  roleEl <- make "div" (Some "role"%string) (Data (or_else name (VStr []))) ;;
  issuer <- get c "issuer" ;;
  year <- get c "year" ;;
  meta <- join (lit " " ++ bullet ++ lit " ") (filter truthy [issuer; year]) ;;
  metaEl <- div_if "meta" meta ;;
  Ok [append item ([roleEl] ++ metaEl)].

Definition renderCerts (list : value) : result (option node) :=
  match list with
  | VArr ((_ :: _) as l) =>
      sec <- make "section" (Some "sec"%string) NoContent ;;
      h2 <- make "h2" None (Data (str "Certifications")) ;;
      items <- forEach cert_item l ;;
      Ok (Some (append (append sec [h2]) items))
  | _ => Ok None
  end.

(** [skills.forEach(s => ... s.items.forEach(it => wrap.append(make('span','pill', it))))] *)
Definition pill (it : value) : result (list node) :=
  n <- make "span" (Some "pill"%string) (Data it) ;; Ok [n].

Definition skill_pills (s : value) : result (list node) :=
  its <- skill_items s ;;
  forEach pill its.

Definition renderSkillsPills (skills : value) : result (option node) :=
  match skills with
  | VArr ((_ :: _) as l) =>
      sec <- make "section" (Some "sec skills-pills"%string) NoContent ;;
      h2 <- make "h2" None (Data (str "Skills")) ;;
      wrap <- make "div" (Some ""%string) NoContent ;;
      pills <- forEach skill_pills l ;;
      Ok (Some (append (append sec [h2]) [append wrap pills]))
  | _ => Ok None
  end.

Definition renderHeaderT3 (d : value) : result node :=
  name <- get d "name" ;;
  h1 <- make "h1" None (Data (or_else name (str "Your Name"))) ;;
  location <- get d "location" ;;
  phone <- get d "phone" ;;
  email <- get d "email" ;;
  line <- join (lit ", ") (filter truthy [location; phone; email]) ;;
  subline <- make "div" (Some "subline"%string) (Items [IVal (VStr line)]) ;;
  who <- make "div" (Some "who"%string) (Items [INode h1; INode subline]) ;;
  make "div" (Some "hdr"%string) (Items [INode who]).

Definition experience_itemT3 (j : value) : result (list node) :=
  if negb (truthy j) then Ok []
  else
    item <- make "div" (Some "item"%string) NoContent ;;
    start <- get j "start" ;;
    end_ <- get j "end" ;;
    dur <- join (lit " - ") (filter truthy [start; end_]) ;;
    role <- get j "role" ;;
    roleLine <- join (lit ", ") (filter truthy [role; VStr dur]) ;;
    roleEl <- div_if "role" roleLine ;;
    company <- get j "company" ;;
    location <- get j "location" ;;
    sub <- join (lit ", ") (filter truthy [company; location]) ;;
    subEl <- div_if "submeta" sub ;;
    ul <- highlights_of j ;;
    Ok [append item (roleEl ++ subEl ++ ul)].

Definition renderExperienceT3 (exp : value) : result (option node) :=
  match exp with
  | VArr ((_ :: _) as l) =>
      sec <- make "section" (Some "sec"%string) NoContent ;;
      h2 <- make "h2" None (Data (str "Employment history")) ;;
      items <- forEach experience_itemT3 l ;;
      Ok (Some (append (append sec [h2]) items))
  | _ => Ok None
  end.

Definition education_itemT3 (e : value) : result (list node) :=
  item <- make "div" (Some "item"%string) NoContent ;;
  degree <- get e "degree" ;;
  year <- get e "year" ;;
  head <- join (lit ", ") (filter truthy [degree; year]) ;;
  headEl <- div_if "role" head ;;
  school <- get e "school" ;;
  location <- get e "location" ;;
  sub <- join (lit ", ") (filter truthy [school; location]) ;;
  subEl <- div_if "submeta" sub ;;
  noteEl <- note_of e ;;
  Ok [append item (headEl ++ subEl ++ noteEl)].

Definition renderEducationT3 (ed : value) : result (option node) :=
  match ed with
  | VArr ((_ :: _) as l) =>
      sec <- make "section" (Some "sec"%string) NoContent ;;
      h2 <- make "h2" None (Data (str "Education")) ;;
      items <- forEach education_itemT3 l ;;
      Ok (Some (append (append sec [h2]) items))
  | _ => Ok None
  end.

(* ================================================================== *)
(** ** The page and the network: state and exceptions

    [requests] is the log of the paths handed to [fetch], oldest first.
    [className] and [children] are those of [#resume] ([resumeRoot]);
    [devNote] is the [hidden] flag of [#dev-note], [None] when the page has
    no such element. *)

Record world : Type := World {
  requests : list jsstring;
  className : jsstring;
  children : list node;
  devNote : option bool
}.

Definition M (A : Type) : Type := world -> result A * world.

Definition ret {A} (a : A) : M A := fun w => (Ok a, w).
Definition throw {A} (e : exn) : M A := fun w => (Throw e, w).
Definition lift {A} (r : result A) : M A := fun w => (r, w).

Definition mbind {A B} (m : M A) (k : A -> M B) : M B :=
  fun w => match m w with
           | (Ok a, w') => k a w'
           | (Throw e, w') => (Throw e, w')
           end.

(** [try { body } catch (e) { handler }]: the state reached when the
    exception was thrown is the one the handler starts from. *)
Definition try_catch {A} (body : M A) (handler : exn -> M A) : M A :=
  fun w => match body w with
           | (Ok a, w') => (Ok a, w')
           | (Throw e, w') => handler e w'
           end.

Declare Scope m_scope.
Delimit Scope m_scope with M.
Notation "x <-- e ;; k" := (mbind e (fun x => k))
  (at level 61, e at next level, right associativity) : m_scope.
Notation "e ;;; k" := (mbind e (fun _ : unit => k))
  (at level 61, right associativity) : m_scope.
Local Open Scope m_scope.

(** [resumeRoot.innerHTML = ''] *)
Definition clear_root : M unit :=
  fun w => (Ok tt, World (requests w) (className w) [] (devNote w)).

(** [resumeRoot.append(n)] *)
Definition root_append (n : node) : M unit :=
  fun w => (Ok tt, World (requests w) (className w) (children w ++ [n]) (devNote w)).

(** [resumeRoot.className = c] *)
Definition set_root_className (c : jsstring) : M unit :=
  fun w => (Ok tt, World (requests w) c (children w) (devNote w)).

Fixpoint root_append_all (l : list node) : M unit :=
  match l with
  | [] => ret tt
  | n :: l' => root_append n ;;; root_append_all l'
  end.

(* ================================================================== *)
(** ** Themes (app.js 248-385, part_000 184-318) *)

Definition renderResumeTheme1 (d : value) : M unit :=
  clear_root ;;;
  header <-- lift (renderHeader d) ;;
  root_append header ;;;
  sections <-- lift (
    s1 <- rbind (get d "summary") renderSummary ;;
    s2 <- rbind (get d "skills") renderSkills ;;
    s3 <- rbind (get d "experience") renderExperience ;;
    s4 <- rbind (get d "education") renderEducation ;;
    s5 <- rbind (get d "certifications") renderCerts ;;
    Ok (somes [s1; s2; s3; s4; s5])) ;;
  root_append_all sections.

Definition renderResumeTheme2 (d : value) : M unit :=
  clear_root ;;;
  header <-- lift (renderHeader d) ;;
  root_append header ;;;
  body <-- lift (
    body <- make "section" (Some "sec"%string) NoContent ;;
    cols <- make "div" (Some "columns"%string) NoContent ;;
    aside <- make "aside" (Some "aside"%string) NoContent ;;
    l1 <- rbind (get d "skills") renderSkillsPills ;;
    let leftBlocks := somes [l1] in
    main <- make "div" (Some "main"%string) NoContent ;;
    r1 <- rbind (get d "summary") renderSummary ;;
    r2 <- rbind (get d "experience") renderExperience ;;
    r3 <- rbind (get d "education") renderEducation ;;
    r4 <- rbind (get d "certifications") renderCerts ;;
    let rightBlocks := somes [r1; r2; r3; r4] in
    Ok (append body [append cols [append aside leftBlocks; append main rightBlocks]])) ;;
  root_append body.

Definition renderResumeTheme3 (d : value) : M unit :=
  clear_root ;;;
  header <-- lift (renderHeaderT3 d) ;;
  root_append header ;;;
  sections <-- lift (
    s1 <- rbind (get d "summary") renderSummary ;;
    s2 <- rbind (get d "skills") renderSkills ;;
    s3 <- rbind (get d "experience") renderExperienceT3 ;;
    s4 <- rbind (get d "education") renderEducationT3 ;;
    s5 <- rbind (get d "certifications") renderCerts ;;
    Ok (somes [s1; s2; s3; s4; s5])) ;;
  root_append_all sections.

(** [new URLSearchParams(location.search)], already split into pairs. *)
Definition URLSearchParams := list (jsstring * jsstring).

(** [urlParams.get(k)]: the first value of [k], else [null]. *)
Fixpoint params_get (qs : URLSearchParams) (k : jsstring) : value :=
  match qs with
  | [] => VNull
  | (k', v) :: rest => if jseqb k k' then VStr v else params_get rest k
  end.

Section Renderer.
Variable urlParams : URLSearchParams.

(** The constant [th] of [renderResume]:
    [(d && d.theme) || urlParams.get('theme') || 't1']. *)
Definition th (d : value) : result value :=
  (own <- (if truthy d then get d "theme" else Ok d) ;;
   Ok (or_else (or_else own (params_get urlParams (lit "theme"))) (str "t1")))%res.

(** The constant [norm] of [renderResume]. *)
Definition norm (d : value) : result value :=
  (t <- th d ;;
   Ok (if negb (truthy t) then str "t1" else t))%res.

Definition renderResume (d : value) : M unit :=
  n <-- lift (norm d) ;;
  c <-- lift (to_string n) ;;
  set_root_className (lit "resume theme-" ++ c) ;;;
  if strict_eq_lit n "t2" then renderResumeTheme2 d
  else if strict_eq_lit n "t3" then renderResumeTheme3 d
  else renderResumeTheme1 d.
End Renderer.

(* ================================================================== *)
(** ** The loader *)

(** A [Response]: [res.ok] holds for the statuses 200 to 299; reading the
    body with [res.text()] can fail. *)
Record response : Type := Response {
  status : Z;
  res_text : result jsstring
}.

Definition ok (res : response) : bool :=
  (200 <=? status res) && (status res <=? 299).

(** What [tryFetch] answers on success: [{ path, text }]. *)
Record file : Type := File {
  path : jsstring;
  text : jsstring
}.

(** [await fetch(p, {cache:'no-store'})]: the request is logged, a network
    failure rejects. *)
Definition do_fetch (fetch : jsstring -> result response) (p : jsstring) : M response :=
  fun w => (fetch p, World (requests w ++ [p]) (className w) (children w) (devNote w)).

(** [if (devNote) devNote.hidden = b] *)
Definition set_hidden_if_present (b : bool) : M unit :=
  fun w => (Ok tt,
            match devNote w with
            | Some _ => World (requests w) (className w) (children w) (Some b)
            | None => w
            end).

(** [devNote.hidden = b] *)
Definition set_hidden (b : bool) : M unit :=
  fun w => match devNote w with
           | Some _ => (Ok tt, World (requests w) (className w) (children w) (Some b))
           | None => (Throw TypeError, w)
           end.

(** src/assets/app.js.  The calls to [LOG] are left out: [LOG.out] swallows
    whatever its console call throws and nothing reads what it prints. *)
Module App.
Section Script.
Variable fetch : jsstring -> result response.
Variable JSON_parse : jsstring -> result value.
(** [window.jsyaml.load] when js-yaml is on the page. *)
Variable jsyaml : option (jsstring -> result value).
Variable urlParams : URLSearchParams.

Definition tryFetch (p : jsstring) : M (option file) :=
  try_catch
    (res <-- do_fetch fetch p ;;
     if negb (ok res) then ret None
     else
       t <-- lift (res_text res) ;;
       ret (Some (File p t)))
    (fun _ => ret None).

Definition parseMaybeJSON (txt : jsstring) : result value :=
  let t := trim txt in
  if startsWith t (lit "{") || startsWith t (lit "[")
  then JSON_parse t
  else Ok VNull.

(** The [try] block of the loop: [Some v] is [return v], [None] is
    [continue]. *)
Definition parse_file (p : jsstring) (f : file) : result (option value) :=
  (if endsWith p (lit ".json") then
     obj <- JSON_parse (text f) ;;
     Ok (Some obj)
   else
     maybe <- parseMaybeJSON (text f) ;;
     if truthy maybe then Ok (Some maybe)
     else match jsyaml with
          | Some load => y <- load (text f) ;; Ok (Some y)
          | None => Ok None
          end)%res.

(** [for (const p of candidates) { ... }] followed by [return null]. *)
Fixpoint loop (cands : list jsstring) : M value :=
  match cands with
  | [] => ret VNull
  | p :: rest =>
      f <-- tryFetch p ;;
      match f with
      | None => loop rest
      | Some f =>
          r <-- try_catch (lift (parse_file p f)) (fun _ => ret None) ;;
          match r with
          | Some v => ret v
          | None => loop rest
          end
      end
  end.

Definition candidates : list jsstring :=
  [lit "resume.json"; lit "/resume.json";
   lit "resume.yaml"; lit "/resume.yaml";
   lit "resume.yml"; lit "/resume.yml"].

Definition loadResumeData : M value := loop candidates.

Definition bootstrap : M unit :=
  try_catch
    (data <-- loadResumeData ;;
     if truthy data then
       renderResume urlParams data ;;;
       set_hidden_if_present true
     else set_hidden_if_present false)
    (fun _ => set_hidden_if_present false).
End Script.
End App.

(** src/unnamed/part_000, the copy without logging. *)
Module Part000.
Section Script.
Variable fetch : jsstring -> result response.
Variable JSON_parse : jsstring -> result value.
Variable jsyaml : option (jsstring -> result value).
Variable urlParams : URLSearchParams.

Definition tryFetch (p : jsstring) : M (option file) :=
  try_catch
    (res <-- do_fetch fetch p ;;
     if negb (ok res) then ret None
     else
       t <-- lift (res_text res) ;;
       ret (Some (File p t)))
    (fun _ => ret None).

Definition parseMaybeJSON (txt : jsstring) : result value :=
  let t := trim txt in
  if startsWith t (lit "{") || startsWith t (lit "[")
  then JSON_parse t
  else Ok VNull.

Definition parse_file (p : jsstring) (f : file) : result (option value) :=
  (if endsWith p (lit ".json") then
     v <- JSON_parse (text f) ;;
     Ok (Some v)
   else
     maybe <- parseMaybeJSON (text f) ;;
     if truthy maybe then Ok (Some maybe)
     else match jsyaml with
          | Some load => y <- load (text f) ;; Ok (Some y)
          | None => Ok None
          end)%res.

Fixpoint loop (cands : list jsstring) : M value :=
  match cands with
  | [] => ret VNull
  | p :: rest =>
      f <-- tryFetch p ;;
      match f with
      | None => loop rest
      | Some f =>
          r <-- try_catch (lift (parse_file p f)) (fun _ => ret None) ;;
          match r with
          | Some v => ret v
          | None => loop rest
          end
      end
  end.

Definition candidates : list jsstring :=
  [lit "resume.yaml"; lit "resume.yml"; lit "resume.json"].

Definition loadResumeData : M value := loop candidates.

Definition bootstrap : M unit :=
  data <-- loadResumeData ;;
  if truthy data then
    renderResume urlParams data ;;;
    set_hidden true
  else set_hidden false.
End Script.
End Part000.

(* ================================================================== *)
(** ** A JSON reader for concrete pages

    The theorems below hold for every [JSON_parse].  To run the script on
    concrete files, [JSON_parse_int] reads the JSON texts whose numbers are
    integer literals (no fraction, no exponent), as [JSON.parse] does, and
    throws on everything else. *)

Module JSONText.

Definition json_ws (c : N) : bool :=
  ((c =? 32) || (c =? 9) || (c =? 10) || (c =? 13))%N.

Fixpoint skip (cs : list N) : list N :=
  match cs with
  | c :: r => if json_ws c then skip r else cs
  | [] => []
  end.

Definition hex (c : N) : option N :=
  (if (48 <=? c) && (c <=? 57) then Some (c - 48)
   else if (65 <=? c) && (c <=? 70) then Some (c - 55)
   else if (97 <=? c) && (c <=? 102) then Some (c - 87)
   else None)%N.

Definition hex4 (a b c d : N) : option N :=
  match hex a, hex b, hex c, hex d with
  | Some x, Some y, Some z, Some w => Some (((x * 16 + y) * 16 + z) * 16 + w)%N
  | _, _, _, _ => None
  end.

Definition escape (c : N) : option N :=
  (if c =? 34 then Some 34 else if c =? 92 then Some 92
   else if c =? 47 then Some 47 else if c =? 98 then Some 8
   else if c =? 102 then Some 12 else if c =? 110 then Some 10
   else if c =? 114 then Some 13 else if c =? 116 then Some 9
   else None)%N.

(** The characters of a string after its opening quote. *)
Fixpoint chars (cs : list N) (acc : jsstring) : option (jsstring * list N) :=
  match cs with
  | [] => None
  | c :: r =>
      if (c =? 34)%N then Some (acc, r)
      else if (c =? 92)%N then
        match r with
        | e :: r1 =>
            if (e =? 117)%N then
              match r1 with
              | a :: b :: x :: y :: r2 =>
                  match hex4 a b x y with
                  | Some u => chars r2 (acc ++ [u])
                  | None => None
                  end
              | _ => None
              end
            else match escape e with
                 | Some u => chars r1 (acc ++ [u])
                 | None => None
                 end
        | [] => None
        end
      else if (c <? 32)%N then None
      else chars r (acc ++ [c])
  end.

Definition is_digit (c : N) : bool := ((48 <=? c) && (c <=? 57))%N.

Fixpoint digits (cs : list N) (acc : Z) : Z * list N :=
  match cs with
  | c :: r => if is_digit c then digits r (acc * 10 + Z.of_N (c - 48)) else (acc, cs)
  | [] => (acc, [])
  end.

(** [0] or a digit [1]-[9] followed by digits; a fraction or an exponent
    is outside what is read here. *)
Definition natural (cs : list N) : option (Z * list N) :=
  match cs with
  | c :: r =>
      if negb (is_digit c) then None
      else
        let '(n, r') := if (c =? 48)%N then (0, r) else digits cs 0 in
        match r' with
        | x :: _ => if ((x =? 46) || (x =? 101) || (x =? 69))%N then None else Some (n, r')
        | [] => Some (n, r')
        end
  | [] => None
  end.

Definition number (cs : list N) : option (value * list N) :=
  match cs with
  | 45%N :: r => match natural r with
                | Some (n, r') => Some (VNum (- n), r')
                | None => None
                end
  | _ => match natural cs with
         | Some (n, r') => Some (VNum n, r')
         | None => None
         end
  end.

(** A later member of the same name replaces the earlier one. *)
Fixpoint obj_set (props : list (jsstring * value)) (k : jsstring) (v : value)
  : list (jsstring * value) :=
  match props with
  | [] => [(k, v)]
  | (k', v') :: rest =>
      if jseqb k k' then (k', v) :: rest else (k', v') :: obj_set rest k v
  end.

Fixpoint parse_value (fuel : nat) (cs : list N) {struct fuel} : option (value * list N) :=
  match fuel with
  | O => None
  | S fuel' =>
      match skip cs with
      | 123%N :: r =>
          match skip r with
          | 125%N :: r' => Some (VObj [], r')
          | r' => parse_members fuel' r' []
          end
      | 91%N :: r =>
          match skip r with
          | 93%N :: r' => Some (VArr [], r')
          | r' => parse_elements fuel' r' []
          end
      | 34%N :: r =>
          match chars r [] with
          | Some (s, r') => Some (VStr s, r')
          | None => None
          end
      | 116%N :: 114%N :: 117%N :: 101%N :: r => Some (VBool true, r)
      | 102%N :: 97%N :: 108%N :: 115%N :: 101%N :: r => Some (VBool false, r)
      | 110%N :: 117%N :: 108%N :: 108%N :: r => Some (VNull, r)
      | cs' => number cs'
      end
  end
with parse_elements (fuel : nat) (cs : list N) (acc : list value) {struct fuel}
  : option (value * list N) :=
  match fuel with
  | O => None
  | S fuel' =>
      match parse_value fuel' cs with
      | Some (v, r) =>
          match skip r with
          | 44%N :: r' => parse_elements fuel' r' (acc ++ [v])
          | 93%N :: r' => Some (VArr (acc ++ [v]), r')
          | _ => None
          end
      | None => None
      end
  end
with parse_members (fuel : nat) (cs : list N) (acc : list (jsstring * value)) {struct fuel}
  : option (value * list N) :=
  match fuel with
  | O => None
  | S fuel' =>
      match skip cs with
      | 34%N :: r =>
          match chars r [] with
          | Some (k, r1) =>
              match skip r1 with
              | 58%N :: r2 =>
                  match parse_value fuel' r2 with
                  | Some (v, r3) =>
                      match skip r3 with
                      | 44%N :: r4 => parse_members fuel' r4 (obj_set acc k v)
                      | 125%N :: r4 => Some (VObj (obj_set acc k v), r4)
                      | _ => None
                      end
                  | None => None
                  end
              | _ => None
              end
          | None => None
          end
      | _ => None
      end
  end.

Definition JSON_parse_int (s : jsstring) : result value :=
  match parse_value (2 * List.length s + 2) s with
  | Some (v, r) => match skip r with [] => Ok v | _ => Throw SyntaxError end
  | None => Throw SyntaxError
  end.

End JSONText.

(** A static file server: the listed paths answer 200 with their text,
    every other path answers 404. *)
Fixpoint serve (files : list (jsstring * jsstring)) (p : jsstring) : result response :=
  match files with
  | [] => Ok (Response 404 (Ok (lit "Not Found")))
  | (q, body) :: rest =>
      if jseqb p q then Ok (Response 200 (Ok body)) else serve rest p
  end.

(** A page before the script runs: nothing requested, [#resume] empty,
    [#dev-note] present and hidden. *)
Definition blank : world := World [] [] [] (Some true).

(* ================================================================== *)
(** ** Vocabulary of the statements *)

(** The state after [p] has been requested. *)
Definition logged (ps : list jsstring) (w : world) : world :=
  World (requests w ++ ps) (className w) (children w) (devNote w).

Section Candidates.
Variable fetch : jsstring -> result response.
Variable JSON_parse : jsstring -> result value.
Variable jsyaml : option (jsstring -> result value).

(** The ways one candidate can fail: the request fails, the status is
    not a success, the body cannot be read, parsing throws, or the file
    needs js-yaml and js-yaml is not on the page. *)
Inductive fails (p : jsstring) : Prop :=
| network_error e :
    fetch p = Throw e -> fails p
| non_success res :
    fetch p = Ok res -> ok res = false -> fails p
| body_error res e :
    fetch p = Ok res -> ok res = true -> res_text res = Throw e -> fails p
| parse_error res t e :
    fetch p = Ok res -> ok res = true -> res_text res = Ok t ->
    App.parse_file JSON_parse jsyaml p (File p t) = Throw e -> fails p
| parser_missing res t :
    fetch p = Ok res -> ok res = true -> res_text res = Ok t ->
    App.parse_file JSON_parse jsyaml p (File p t) = Ok None -> fails p.

(** A candidate that is fetched and parsed, with what it parsed to. *)
Definition yields (p : jsstring) (v : value) : Prop :=
  exists res t,
    fetch p = Ok res /\ ok res = true /\ res_text res = Ok t /\
    App.parse_file JSON_parse jsyaml p (File p t) = Ok (Some v).

(** One turn of the loop, as a function: what the candidate makes the
    loader return, if anything. *)
Definition outcome (p : jsstring) : option value :=
  match fetch p with
  | Ok res =>
      if ok res then
        match res_text res with
        | Ok t =>
            match App.parse_file JSON_parse jsyaml p (File p t) with
            | Ok r => r
            | Throw _ => None
            end
        | Throw _ => None
        end
      else None
  | Throw _ => None
  end.

(** The first candidate with an outcome decides; [attempted] is the part
    of the list that gets requested. *)
Fixpoint first_outcome (cands : list jsstring) : value :=
  match cands with
  | [] => VNull
  | p :: rest => match outcome p with Some v => v | None => first_outcome rest end
  end.

Fixpoint attempted (cands : list jsstring) : list jsstring :=
  match cands with
  | [] => []
  | p :: rest => p :: match outcome p with Some _ => [] | None => attempted rest end
  end.
End Candidates.

(** The text looks like JSON to [parseMaybeJSON]. *)
Definition looks_like_json (t : jsstring) : bool :=
  startsWith (trim t) (lit "{") || startsWith (trim t) (lit "[").

(** Every [h2] heading below a node, in document order. *)
Fixpoint headings (n : node) : list jsstring :=
  match n with
  | Elem tag _ _ kids =>
      let below := (fix go (l : list node) : list jsstring :=
                      match l with
                      | [] => []
                      | k :: l' => headings k ++ go l'
                      end) kids in
      if String.eqb tag "h2"
      then match kids with [Html s] => [s] | _ => [] end ++ below
      else below
  | _ => []
  end.

Definition headings_of (l : list node) : list jsstring :=
  flat_map headings l.

(** The nodes handed to [make] as content have no heading. *)
Definition quiet (c : content) : Prop :=
  match c with
  | Items l => forall m, In (INode m) l -> headings m = []
  | Child n => headings n = []
  | _ => True
  end.

(** What a section builder answers: nothing, or a section under its own
    title, and then only for a list that is not empty. *)
Definition titled (T : string) (v : value) (o : option node) : Prop :=
  match o with
  | Some sec => headings sec = [lit T] /\ exists x l, v = VArr (x :: l)
  | None => True
  end.

(** A section with this title is part of the page. *)
Definition has_section (title : string) (w : world) : Prop :=
  In (lit title) (headings_of (children w)).

(** The field is absent or an empty list. *)
Definition absent_or_empty (v : value) : Prop :=
  v = VUndef \/ v = VArr [].

(** The sections a record gives rise to, by title: its field is there
    and, for a list, not empty. *)
Definition announced (d : value) (t : jsstring) : Prop :=
  (t = lit "Professional summary" /\
   exists v, get d "summary" = Ok v /\ truthy v = true) \/
  (t = lit "Skills" /\
   exists x l, get d "skills" = Ok (VArr (x :: l))) \/
  (t = lit "Employment history" /\
   exists x l, get d "experience" = Ok (VArr (x :: l))) \/
  (t = lit "Education" /\
   exists x l, get d "education" = Ok (VArr (x :: l))) \/
  (t = lit "Certifications" /\
   exists x l, get d "certifications" = Ok (VArr (x :: l))).

(** The value is anything but a list with entries: absent, [null], an
    empty list, or not a list at all. *)
Definition holds_no_list (v : value) : Prop :=
  forall x l, v <> VArr (x :: l).

(** A page shows no section for the fields of [d] that hold no data: a
    falsy summary (absent, [null], the empty string), and for the four
    lists anything but a list with entries. *)
Definition omits_missing_sections (d : value) (page : world) : Prop :=
  (forall v, get d "summary" = Ok v -> truthy v = false ->
             ~ has_section "Professional summary" page) /\
  (forall v, get d "skills" = Ok v -> holds_no_list v ->
             ~ has_section "Skills" page) /\
  (forall v, get d "experience" = Ok v -> holds_no_list v ->
             ~ has_section "Employment history" page) /\
  (forall v, get d "education" = Ok v -> holds_no_list v ->
             ~ has_section "Education" page) /\
  (forall v, get d "certifications" = Ok v -> holds_no_list v ->
             ~ has_section "Certifications" page).

(** The summary section over an empty body. *)
Definition empty_summary_section : node :=
  Elem "section" (lit "sec") []
    [Elem "h2" [] [] [Html (lit "Professional summary")];
     Elem "div" (lit "muted") [] []].

(** The three layouts. *)
Definition layouts : list (value -> M unit) :=
  [renderResumeTheme1; renderResumeTheme2; renderResumeTheme3].

(** [l] with every item dropped that occurred earlier. *)
Fixpoint first_seen (seen l : list jsstring) : list jsstring :=
  match l with
  | [] => []
  | x :: l' =>
      if existsb (jseqb x) seen then first_seen seen l'
      else x :: first_seen (x :: seen) l'
  end.

(** The strings of [l] with [sep] between neighbours. *)
Fixpoint intercalate (sep : jsstring) (l : list jsstring) : jsstring :=
  match l with
  | [] => []
  | [x] => x
  | x :: l' => x ++ sep ++ intercalate sep l'
  end.

(** The nodes of [l] with [sep] between neighbours. *)
Fixpoint intersperse (sep : node) (l : list node) : list node :=
  match l with
  | [] => []
  | [x] => [x]
  | x :: l' => x :: sep :: intersperse sep l'
  end.

(** The single-column skills section showing [list]. *)
Definition skills_section (list : jsstring) : node :=
  Elem "section" (lit "sec") []
    [Elem "h2" [] [] [Html (lit "Skills")];
     Elem "div" (lit "muted") [] match list with [] => [] | _ => [Html list] end].

(** A record field read as an optional string. *)
Definition field (o : option jsstring) : value :=
  match o with Some s => VStr s | None => VUndef end.

(** A field that is there and not empty. *)
Definition present (o : option jsstring) : option jsstring :=
  match o with Some ((_ :: _) as s) => Some s | _ => None end.

Record link : Type := Link {
  url : option jsstring;
  label : option jsstring
}.

(** The header fields of a record, read at their documented types. *)
Record contact : Type := Contact {
  name : option jsstring;
  title : option jsstring;
  location : option jsstring;
  phone : option jsstring;
  email : option jsstring;
  links : option (list link)
}.

Definition is_link (v : value) (l : link) : Prop :=
  get v "url" = Ok (field (url l)) /\ get v "label" = Ok (field (label l)).

Definition is_contact (d : value) (c : contact) : Prop :=
  get d "name" = Ok (field (name c)) /\
  get d "title" = Ok (field (title c)) /\
  get d "location" = Ok (field (location c)) /\
  get d "phone" = Ok (field (phone c)) /\
  get d "email" = Ok (field (email c)) /\
  match links c with
  | Some ls => exists vs, get d "links" = Ok (VArr vs) /\ Forall2 is_link vs ls
  | None => get d "links" = Ok VUndef
  end.

(** A link opening in a new tab. *)
Definition anchor (href txt : jsstring) : node :=
  Elem "a" []
    [("href"%string, href); ("target"%string, lit "_blank"); ("rel"%string, lit "noopener")]
    [Text txt].

Definition dot : node := Elem "span" (lit "dot") [] [Html bullet].

Definition link_entry (l : link) : list node :=
  match present (url l) with
  | Some u => [anchor u match present (label l) with Some t => t | None => u end]
  | None => []
  end.

(** The entries of the contact line, in their order. *)
Definition contact_entries (c : contact) : list node :=
  match present (location c) with Some l => [Elem "span" [] [] [Html l]] | None => [] end
  ++ match present (phone c) with Some p => [anchor (lit "tel:" ++ strip_ws p) p] | None => [] end
  ++ match present (email c) with Some e => [anchor (lit "mailto:" ++ e) e] | None => [] end
  ++ match links c with Some ls => flat_map link_entry ls | None => [] end.

(** The separator of the contact line. *)
Definition is_dot (n : node) : bool :=
  match n with
  | Elem tag cls _ _ => String.eqb tag "span" && jseqb cls (lit "dot")
  | _ => false
  end.


(** The record without its [theme] field. *)
Definition without_theme (d : value) : value :=
  match d with
  | VObj props => VObj (filter (fun kv => negb (jseqb (fst kv) (lit "theme"))) props)
  | _ => d
  end.

(** [resumeRoot] with the class [c]. *)
Definition with_class (c : jsstring) (w : world) : world :=
  World (requests w) c (children w) (devNote w).

(** The notice shown, when the page has one. *)
Definition notice_shown (w : world) : world :=
  World (requests w) (className w) (children w)
    match devNote w with Some _ => Some false | None => None end.

(* ================================================================== *)
(** ** Vocabulary for the rest of the script *)

(** What [el.innerHTML = s] leaves in a fresh element. *)
Definition html_of (s : jsstring) : list node :=
  match s with [] => [] | _ => [Html s] end.

(** The fields of [l] that are there and not empty, in order. *)
Definition presents (l : list (option jsstring)) : list jsstring :=
  somes (map present l).

(** The page with the notice hidden, when it has one. *)
Definition notice_hidden (w : world) : world :=
  World (requests w) (className w) (children w)
    match devNote w with Some _ => Some true | None => None end.

(** The computation ended without an exception. *)
Definition succeeded {A} (r : result A) : bool :=
  match r with Ok _ => true | Throw _ => false end.

(** [l1] is the beginning of [l2]. *)
Definition prefix (l1 l2 : list jsstring) : Prop :=
  exists rest, l2 = l1 ++ rest.

(** An entry of [experience], read at its documented types. *)
Record job : Type := Job {
  j_role : option jsstring;
  j_company : option jsstring;
  j_start : option jsstring;
  j_end : option jsstring;
  j_location : option jsstring;
  j_highlights : option (list jsstring)
}.

Definition is_job (v : value) (j : job) : Prop :=
  truthy v = true /\
  get v "role" = Ok (field (j_role j)) /\
  get v "company" = Ok (field (j_company j)) /\
  get v "start" = Ok (field (j_start j)) /\
  get v "end" = Ok (field (j_end j)) /\
  get v "location" = Ok (field (j_location j)) /\
  get v "highlights"
  = Ok match j_highlights j with
       | Some hs => VArr (map VStr hs)
       | None => VUndef
       end.

Definition dot_sep : jsstring := lit " " ++ bullet ++ lit " ".

(** The bullet list of a job. *)
Definition job_highlights (j : job) : list node :=
  match j_highlights j with
  | Some ((_ :: _) as hs) =>
      [Elem "ul" (lit "tight muted") []
         (map (fun h => Elem "li" [] [] (html_of h)) hs)]
  | _ => []
  end.

(** [<div class=cls>s</div>] when [s] is not empty. *)
Definition line (cls : string) (s : jsstring) : list node :=
  match s with [] => [] | _ => [Elem "div" (lit cls) [] [Html s]] end.

(** A job in the single-column default layout: "role, company", then
    "start - end • location", then the highlights. *)
Definition job_item (j : job) : node :=
  let dur := intercalate (lit " - ") (presents [j_start j; j_end j]) in
  Elem "div" (lit "item") []
    ([Elem "div" (lit "role") []
        (html_of (intercalate (lit ", ") (presents [j_role j; j_company j])))]
     ++ line "meta" (intercalate dot_sep (presents [Some dur; j_location j]))
     ++ job_highlights j).

(** A job in the third layout: "role, start - end", then
    "company, location", then the highlights. *)
Definition job_itemT3 (j : job) : node :=
  let dur := intercalate (lit " - ") (presents [j_start j; j_end j]) in
  Elem "div" (lit "item") []
    (line "role" (intercalate (lit ", ") (presents [j_role j; Some dur]))
     ++ line "submeta" (intercalate (lit ", ") (presents [j_company j; j_location j]))
     ++ job_highlights j).

(** An entry of [education], read at its documented types. *)
Record school : Type := School {
  s_degree : option jsstring;
  s_school : option jsstring;
  s_year : option jsstring;
  s_location : option jsstring;
  s_note : option jsstring
}.

Definition is_school (v : value) (s : school) : Prop :=
  get v "degree" = Ok (field (s_degree s)) /\
  get v "school" = Ok (field (s_school s)) /\
  get v "year" = Ok (field (s_year s)) /\
  get v "location" = Ok (field (s_location s)) /\
  get v "note" = Ok (field (s_note s)).

Definition school_note (s : school) : list node :=
  match present (s_note s) with
  | Some n => [Elem "div" [] [] [Html n]]
  | None => []
  end.

(** A school in the default and two-column layouts: "degree — school",
    then "year • location", then the note. *)
Definition school_item (s : school) : node :=
  Elem "div" (lit "item") []
    ([Elem "div" (lit "role") []
        (html_of (intercalate (lit " " ++ emdash ++ lit " ")
                    (presents [s_degree s; s_school s])))]
     ++ line "meta" (intercalate dot_sep (presents [s_year s; s_location s]))
     ++ school_note s).

(** A school in the third layout: "degree, year", then
    "school, location", then the note. *)
Definition school_itemT3 (s : school) : node :=
  Elem "div" (lit "item") []
    (line "role" (intercalate (lit ", ") (presents [s_degree s; s_year s]))
     ++ line "submeta" (intercalate (lit ", ") (presents [s_school s; s_location s]))
     ++ school_note s).

(** An entry of [certifications], read at its documented types. *)
Record cert : Type := Cert {
  c_name : option jsstring;
  c_issuer : option jsstring;
  c_year : option jsstring
}.

Definition is_cert (v : value) (c : cert) : Prop :=
  get v "name" = Ok (field (c_name c)) /\
  get v "issuer" = Ok (field (c_issuer c)) /\
  get v "year" = Ok (field (c_year c)).

(** A certification: its name, then "issuer • year". *)
Definition cert_node (c : cert) : node :=
  Elem "div" (lit "item") []
    ([Elem "div" (lit "role") []
        (html_of match present (c_name c) with Some n => n | None => [] end)]
     ++ line "meta" (intercalate dot_sep (presents [c_issuer c; c_year c]))).

(** The field [k] of [d] holds a list that is not empty. *)
Definition has_list (d : value) (k : string) : bool :=
  match get d k with
  | Ok (VArr (_ :: _)) => true
  | _ => false
  end.

(** The field [k] of [d] holds something truthy. *)
Definition has_text (d : value) (k : string) : bool :=
  match get d k with
  | Ok v => truthy v
  | Throw _ => false
  end.

Definition title_if (b : bool) (t : string) : list jsstring :=
  if b then [lit t] else [].

(** The titles of a single-column page, top to bottom. *)
Definition titles_single (d : value) : list jsstring :=
  title_if (has_text d "summary") "Professional summary"
  ++ title_if (has_list d "skills") "Skills"
  ++ title_if (has_list d "experience") "Employment history"
  ++ title_if (has_list d "education") "Education"
  ++ title_if (has_list d "certifications") "Certifications".

(** The titles of the two-column page: the aside first, then the main
    column. *)
Definition titles_columns (d : value) : list jsstring :=
  title_if (has_list d "skills") "Skills"
  ++ title_if (has_text d "summary") "Professional summary"
  ++ title_if (has_list d "experience") "Employment history"
  ++ title_if (has_list d "education") "Education"
  ++ title_if (has_list d "certifications") "Certifications".

(** One skill of the two-column layout. *)
Definition pill_node (s : jsstring) : node :=
  Elem "span" (lit "pill") [] (html_of s).

(** A section that holds its heading and nothing else. *)
Definition bare_section (t : string) : node :=
  Elem "section" (lit "sec") [] [Elem "h2" [] [] [Html (lit t)]].

(** The name and title block of the header. *)
Definition who_block (c : contact) : node :=
  Elem "div" (lit "who") []
    ([Elem "h1" [] []
        [Html match present (name c) with Some n => n | None => lit "Your Name" end]]
     ++ match present (title c) with
        | Some t => [Elem "div" (lit "title") [] [Html t]]
        | None => []
        end).

Definition deco_block : node :=
  Elem "div" (lit "deco") [("aria-hidden"%string, lit "true")] [Html deco_svg].

(** The header of the third layout: the name and one line of text. *)
Definition headerT3 (c : contact) : node :=
  let sub := intercalate (lit ", ") (presents [location c; phone c; email c]) in
  Elem "div" (lit "hdr") []
    [Elem "div" (lit "who") []
       [Elem "h1" [] []
          [Html match present (name c) with Some n => n | None => lit "Your Name" end];
        Elem "div" (lit "subline") [] match sub with [] => [] | _ => [Text sub] end]].

(** *** Header fields of any primitive type *)












(* ================================================================== *)
(** ** Strings and values: basic facts *)

Lemma jseqb_eq (a b : jsstring) : jseqb a b = true <-> a = b.
Proof.
  revert b; induction a as [|x a IH]; intros [|y b]; simpl; split;
    try congruence; try discriminate; try reflexivity.
  - intros H. apply andb_prop in H as [Hx Hr].
    apply N.eqb_eq in Hx. apply IH in Hr. congruence.
  - intros H. injection H as -> ->.
    rewrite N.eqb_refl. simpl. now apply IH.
Qed.

Lemma jseqb_refl (a : jsstring) : jseqb a a = true.
Proof. now apply jseqb_eq. Qed.

Lemma jseqb_neq (a b : jsstring) : jseqb a b = false <-> a <> b.
Proof.
  split.
  - intros H E. apply jseqb_eq in E. congruence.
  - intros H. destruct (jseqb a b) eqn:E; [|reflexivity].
    apply jseqb_eq in E. contradiction.
Qed.



(* ================================================================== *)
(** ** The loader, turn by turn *)

Section LoaderFacts.
Variable fetch : jsstring -> result response.
Variable JSON_parse : jsstring -> result value.
Variable jsyaml : option (jsstring -> result value).

(** The two copies run the same loop. *)
Lemma loop_same : Part000.loop fetch JSON_parse jsyaml = App.loop fetch JSON_parse jsyaml.
Proof. reflexivity. Qed.

Lemma tryFetch_spec (p : jsstring) (w : world) :
  App.tryFetch fetch p w =
  (Ok match fetch p with
      | Ok res =>
          if ok res
          then match res_text res with Ok t => Some (File p t) | Throw _ => None end
          else None
      | Throw _ => None
      end, logged [p] w).
Proof.
  unfold App.tryFetch, try_catch, mbind, do_fetch, lift, ret, logged.
  destruct (fetch p) as [res|e]; [|reflexivity].
  destruct (ok res); simpl; [|reflexivity].
  now destruct (res_text res).
Qed.

Lemma loop_cons (p : jsstring) (rest : list jsstring) (w : world) :
  App.loop fetch JSON_parse jsyaml (p :: rest) w =
  match outcome fetch JSON_parse jsyaml p with
  | Some v => (Ok v, logged [p] w)
  | None => App.loop fetch JSON_parse jsyaml rest (logged [p] w)
  end.
Proof.
  unfold outcome. cbn [App.loop].
  unfold mbind at 1. rewrite tryFetch_spec.
  destruct (fetch p) as [res|e]; [|reflexivity].
  destruct (ok res); [|reflexivity].
  destruct (res_text res) as [t|e]; [|reflexivity].
  unfold mbind, try_catch, lift, ret.
  destruct (App.parse_file JSON_parse jsyaml p (File p t)) as [[v|]|e];
    reflexivity.
Qed.

Lemma logged_app (ps qs : list jsstring) (w : world) :
  logged qs (logged ps w) = logged (ps ++ qs) w.
Proof. unfold logged. simpl. now rewrite app_assoc. Qed.

(** The loop returns the first outcome and requests exactly the
    candidates up to it. *)
Lemma loop_spec (cands : list jsstring) (w : world) :
  App.loop fetch JSON_parse jsyaml cands w =
  (Ok (first_outcome fetch JSON_parse jsyaml cands),
   logged (attempted fetch JSON_parse jsyaml cands) w).
Proof.
  revert w. induction cands as [|p rest IH]; intros w.
  - unfold logged. cbn [App.loop]. unfold ret. rewrite app_nil_r. now destruct w.
  - rewrite loop_cons. cbn [first_outcome attempted].
    destruct (outcome fetch JSON_parse jsyaml p) as [v|]; [reflexivity|].
    rewrite IH, logged_app. reflexivity.
Qed.

Lemma fails_outcome (p : jsstring) : fails fetch JSON_parse jsyaml p <-> outcome fetch JSON_parse jsyaml p = None.
Proof.
  unfold outcome. split.
  - intros [e H | res H Hok | res e H Hok Ht | res t e H Hok Ht Hp | res t H Hok Ht Hp];
      rewrite H; try rewrite Hok; try rewrite Ht; try rewrite Hp; reflexivity.
  - destruct (fetch p) as [res|e] eqn:H; [|intros _; eapply network_error; eauto].
    destruct (ok res) eqn:Hok; [|intros _; eapply non_success; eauto].
    destruct (res_text res) as [t|e] eqn:Ht; [|intros _; eapply body_error; eauto].
    destruct (App.parse_file JSON_parse jsyaml p (File p t)) as [[v|]|e] eqn:Hp.
    + discriminate.
    + intros _. eapply parser_missing; eauto.
    + intros _. eapply parse_error; eauto.
Qed.

Lemma yields_outcome (p : jsstring) (v : value) :
  yields fetch JSON_parse jsyaml p v <-> outcome fetch JSON_parse jsyaml p = Some v.
Proof.
  unfold outcome, yields. split.
  - intros (res & t & H & Hok & Ht & Hp). now rewrite H, Hok, Ht, Hp.
  - destruct (fetch p) as [res|e] eqn:H; [|discriminate].
    destruct (ok res) eqn:Hok; [|discriminate].
    destruct (res_text res) as [t|e] eqn:Ht; [|discriminate].
    destruct (App.parse_file JSON_parse jsyaml p (File p t)) as [[u|]|e] eqn:Hp;
      try discriminate.
    intros [= ->]. exists res, t. auto.
Qed.

Lemma first_outcome_skip (pre rest : list jsstring) :
  Forall (fun q => outcome fetch JSON_parse jsyaml q = None) pre ->
  first_outcome fetch JSON_parse jsyaml (pre ++ rest)
  = first_outcome fetch JSON_parse jsyaml rest
  /\ attempted fetch JSON_parse jsyaml (pre ++ rest)
     = pre ++ attempted fetch JSON_parse jsyaml rest.
Proof.
  induction 1 as [|q pre Hq _ [IH1 IH2]]; simpl; [auto|].
  rewrite Hq. split; congruence.
Qed.

Lemma first_outcome_null (cands : list jsstring) :
  first_outcome fetch JSON_parse jsyaml cands = VNull ->
  Forall (fun q => outcome fetch JSON_parse jsyaml q = None) cands \/
  exists pre p post,
    cands = pre ++ p :: post /\ Forall (fun q => outcome fetch JSON_parse jsyaml q = None) pre /\
    outcome fetch JSON_parse jsyaml p = Some VNull.
Proof.
  induction cands as [|p rest IH]; simpl; [left; constructor|].
  destruct (outcome fetch JSON_parse jsyaml p) as [v|] eqn:Hp.
  - intros ->. right. exists [], p, rest. auto.
  - intros H. destruct (IH H) as [Hall | (pre & q & post & -> & Hpre & Hq)].
    + left. now constructor.
    + right. exists (p :: pre), q, post. repeat split; auto.
Qed.
End LoaderFacts.

(* ================================================================== *)
(** ** Claims about the loader *)

Import JSONText.

(** C1, as stated, fails: with only [resume.yaml] on the server, holding
    the valid JSON text [42], and js-yaml not on the page, every earlier
    candidate answers 404 and the loader still returns [null], not 42:
    a text that does not start with a brace or a bracket is not parsed as
    JSON at a candidate whose name does not end in [.json]. *)
Lemma C1_counterexample_scalar_json_in_yaml_candidate :
  let fetch := serve [(lit "resume.yaml", lit "42")] in
  fetch (lit "resume.yaml") = Ok (Response 200 (Ok (lit "42"))) /\
  JSON_parse_int (lit "42") = Ok (VNum 42) /\
  (forall q, In q App.candidates -> q <> lit "resume.yaml" ->
             exists res, fetch q = Ok res /\ status res = 404 /\ ok res = false) /\
  fst (App.loadResumeData fetch JSON_parse_int None blank) = Ok VNull /\
  fst (App.loadResumeData fetch JSON_parse_int None blank) <> Ok (VNum 42).
Proof.
  repeat split; try reflexivity; try discriminate.
  intros q Hq Hne. simpl in Hq.
  repeat (destruct Hq as [<- | Hq];
          [first [exfalso; apply Hne; reflexivity
                 | eexists; repeat split; reflexivity] |]).
  contradiction.
Qed.

(** C1 (amended): for every candidate list, if every candidate before [p]
    answers a non-success status and [p] answers its text [t], the loader
    returns the parsed content of [t] and requests nothing after [p],
    provided either [p] ends in [.json] and [t] is valid JSON, or [p] has
    another extension and [t], trimmed, starts with a brace or a bracket
    and parses to a truthy value (an object or an array). *)
Theorem C1_the_existing_json_file_is_returned
  (fetch : jsstring -> result response)
  (JSON_parse : jsstring -> result value)
  (jsyaml : option (jsstring -> result value))
  (pre post : list jsstring) (p t : jsstring) (res : response)
  (v : value) (w : world) :
  Forall (fun q => exists r, fetch q = Ok r /\ ok r = false) pre ->
  fetch p = Ok res -> ok res = true -> res_text res = Ok t ->
  (endsWith p (lit ".json") = true /\ JSON_parse t = Ok v) \/
  (endsWith p (lit ".json") = false /\ looks_like_json t = true /\
   JSON_parse (trim t) = Ok v /\ truthy v = true) ->
  App.loop fetch JSON_parse jsyaml (pre ++ p :: post) w
  = (Ok v, logged (pre ++ [p]) w).
Proof.
  intros Hpre Hf Hok Ht Hparse.
  assert (Hout : outcome fetch JSON_parse jsyaml p = Some v).
  { unfold outcome. rewrite Hf, Hok, Ht. unfold App.parse_file.
    destruct Hparse as [[He Hp] | (He & Hl & Hp & Hv)]; rewrite He.
    - cbn [text]. now rewrite Hp.
    - unfold App.parseMaybeJSON. unfold looks_like_json in Hl.
      cbv zeta. cbn [text]. rewrite Hl, Hp. cbn [rbind]. now rewrite Hv. }
  assert (Hnone : Forall (fun q => outcome fetch JSON_parse jsyaml q = None) pre).
  { eapply Forall_impl; [|exact Hpre]. intros q (r & Hq & Hr).
    unfold outcome. now rewrite Hq, Hr. }
  rewrite loop_spec.
  destruct (first_outcome_skip fetch JSON_parse jsyaml pre (p :: post) Hnone) as [E1 E2].
  rewrite E1, E2. simpl. now rewrite Hout.
Qed.

Lemma C1_witness_yaml_named_json_object :
  App.loadResumeData
    (serve [(lit "/resume.yaml", litq " {'name':'A'} ")]) JSON_parse_int None blank
  = (Ok (VObj [(lit "name", str "A")]),
     logged [lit "resume.json"; lit "/resume.json"; lit "resume.yaml"; lit "/resume.yaml"]
       blank).
Proof.
  apply (C1_the_existing_json_file_is_returned
           (serve [(lit "/resume.yaml", litq " {'name':'A'} ")]) JSON_parse_int None
           [lit "resume.json"; lit "/resume.json"; lit "resume.yaml"]
           [lit "resume.yml"; lit "/resume.yml"]
           (lit "/resume.yaml") (litq " {'name':'A'} ")
           (Response 200 (Ok (litq " {'name':'A'} ")))).
  - repeat constructor; exists (Response 404 (Ok (lit "Not Found"))); split; reflexivity.
  - reflexivity.
  - reflexivity.
  - reflexivity.
  - right. repeat split; reflexivity.
Defined.

(** C2, as stated, fails in its "only when": with [resume.json] holding
    the valid JSON text [null] and [resume.yaml] holding a record, the
    first candidate is fetched and parsed without any failure, the loader
    returns [null] and never asks for the second one. *)
Lemma C2_counterexample_null_document :
  let fetch := serve [(lit "resume.json", lit "null");
                      (lit "resume.yaml", litq "{'name':'A'}")] in
  App.loadResumeData fetch JSON_parse_int None blank
  = (Ok VNull, logged [lit "resume.json"] blank) /\
  ~ fails fetch JSON_parse_int None (lit "resume.json") /\
  ~ fails fetch JSON_parse_int None (lit "resume.yaml").
Proof.
  repeat split.
  - intros H. apply fails_outcome in H. discriminate H.
  - intros H. apply fails_outcome in H. discriminate H.
Qed.

(** C2 (amended): the loader never raises; a candidate that fails (network
    error, non-success status, unreadable body, parse failure, missing
    YAML parser) is skipped and the loop goes on with the next one; when
    every candidate has failed the loader returns [null], having requested
    them all; and it returns [null] only then or when the first candidate
    that does not fail itself parses to [null].  The copy in part_000 runs
    the same loop. *)
Theorem C2_failed_candidates_are_skipped
  (fetch : jsstring -> result response)
  (JSON_parse : jsstring -> result value)
  (jsyaml : option (jsstring -> result value)) :
  let loop := App.loop fetch JSON_parse jsyaml in
  let fails := fails fetch JSON_parse jsyaml in
  (forall cands w, exists v, fst (loop cands w) = Ok v) /\
  (forall p rest w, fails p -> loop (p :: rest) w = loop rest (logged [p] w)) /\
  (forall cands w, Forall fails cands -> loop cands w = (Ok VNull, logged cands w)) /\
  (forall cands w, fst (loop cands w) = Ok VNull ->
     Forall fails cands \/
     exists pre p post,
       cands = pre ++ p :: post /\ Forall fails pre /\
       yields fetch JSON_parse jsyaml p VNull) /\
  Part000.loop fetch JSON_parse jsyaml = loop.
Proof.
  intros loop fails0. subst loop fails0. repeat split.
  - intros cands w. rewrite loop_spec. simpl. eauto.
  - intros p rest w H. rewrite loop_cons.
    apply fails_outcome in H. now rewrite H.
  - intros cands w H.
    assert (Hn : Forall (fun q => outcome fetch JSON_parse jsyaml q = None) cands).
    { eapply Forall_impl; [|exact H]. intros q Hq. now apply fails_outcome. }
    rewrite loop_spec.
    destruct (first_outcome_skip fetch JSON_parse jsyaml cands [] Hn) as [E1 E2].
    rewrite app_nil_r in E1, E2. now rewrite E1, E2, app_nil_r.
  - intros cands w. rewrite loop_spec. simpl. intros [= H].
    destruct (first_outcome_null fetch JSON_parse jsyaml cands H)
      as [Hall | (pre & p & post & E & Hpre & Hp)].
    + left. eapply Forall_impl; [|exact Hall]. intros q. apply fails_outcome.
    + right. exists pre, p, post. repeat split; auto.
      * eapply Forall_impl; [|exact Hpre]. intros q. apply fails_outcome.
      * now apply yields_outcome.
Qed.

Lemma C2_witness_nothing_served :
  App.loadResumeData (serve []) JSON_parse_int None blank
  = (Ok VNull, logged App.candidates blank).
Proof.
  apply (proj1 (proj2 (proj2 (C2_failed_candidates_are_skipped
                                (serve []) JSON_parse_int None)))).
  repeat constructor;
    apply (non_success (serve []) JSON_parse_int None _
             (Response 404 (Ok (lit "Not Found")))); reflexivity.
Defined.

(** C10, as stated, fails: with [resume.json] and [resume.yaml] both on
    the server, app.js asks for [resume.json] first and returns it, while
    part_000 asks for [resume.yaml] first and returns that one; with
    nothing on the server, app.js requests six paths and part_000 three. *)
Lemma C10_counterexample_two_formats_present :
  let fetch := serve [(lit "resume.json", litq "{'name':'A'}");
                      (lit "resume.yaml", litq "{'name':'B'}")] in
  App.loadResumeData fetch JSON_parse_int None blank
  = (Ok (VObj [(lit "name", str "A")]), logged [lit "resume.json"] blank) /\
  Part000.loadResumeData fetch JSON_parse_int None blank
  = (Ok (VObj [(lit "name", str "B")]), logged [lit "resume.yaml"] blank) /\
  requests (snd (App.loadResumeData (serve []) JSON_parse_int None blank))
  = [lit "resume.json"; lit "/resume.json"; lit "resume.yaml";
     lit "/resume.yaml"; lit "resume.yml"; lit "/resume.yml"] /\
  requests (snd (Part000.loadResumeData (serve []) JSON_parse_int None blank))
  = [lit "resume.yaml"; lit "resume.yml"; lit "resume.json"].
Proof. repeat split. Qed.

(** C10 (amended): the two copies run the same loop, over different
    candidate lists.  They return the same value in every environment in
    which the three root-relative paths fail and no two of [resume.json],
    [resume.yaml], [resume.yml] both yield a result; the paths they
    request, and their order, differ. *)
Theorem C10_copies_agree_on_a_single_source
  (fetch : jsstring -> result response)
  (JSON_parse : jsstring -> result value)
  (jsyaml : option (jsstring -> result value))
  (w : world) :
  let fails := fails fetch JSON_parse jsyaml in
  Part000.loop fetch JSON_parse jsyaml = App.loop fetch JSON_parse jsyaml /\
  (fails (lit "/resume.json") -> fails (lit "/resume.yaml") -> fails (lit "/resume.yml") ->
   fails (lit "resume.json") \/ fails (lit "resume.yaml") ->
   fails (lit "resume.json") \/ fails (lit "resume.yml") ->
   fails (lit "resume.yaml") \/ fails (lit "resume.yml") ->
   fst (Part000.loadResumeData fetch JSON_parse jsyaml w)
   = fst (App.loadResumeData fetch JSON_parse jsyaml w)).
Proof.
  intros fails0. subst fails0. split; [reflexivity|].
  unfold Part000.loadResumeData, App.loadResumeData.
  rewrite loop_same, !loop_spec.
  unfold App.candidates, Part000.candidates. cbn [fst first_outcome].
  rewrite !fails_outcome.
  intros -> -> -> H1 H2 H3.
  destruct (outcome fetch JSON_parse jsyaml (lit "resume.json")),
           (outcome fetch JSON_parse jsyaml (lit "resume.yaml")),
           (outcome fetch JSON_parse jsyaml (lit "resume.yml"));
    try reflexivity;
    destruct H1 as [H1|H1]; try discriminate H1;
    destruct H2 as [H2|H2]; try discriminate H2;
    destruct H3 as [H3|H3]; discriminate H3.
Qed.

Lemma C10_witness_only_yml_served :
  fst (Part000.loadResumeData
         (serve [(lit "resume.yml", litq "{'name':'A'}")]) JSON_parse_int None blank)
  = fst (App.loadResumeData
           (serve [(lit "resume.yml", litq "{'name':'A'}")]) JSON_parse_int None blank).
Proof.
  assert (F : forall q, serve [(lit "resume.yml", litq "{'name':'A'}")] q
                        = Ok (Response 404 (Ok (lit "Not Found"))) ->
              fails (serve [(lit "resume.yml", litq "{'name':'A'}")])
                JSON_parse_int None q).
  { intros q H. eapply non_success; [exact H | reflexivity]. }
  apply (proj2 (C10_copies_agree_on_a_single_source
                  (serve [(lit "resume.yml", litq "{'name':'A'}")])
                  JSON_parse_int None blank));
    try (apply F; reflexivity); left; apply F; reflexivity.
Defined.

(* ================================================================== *)
(** ** Theme resolution and dispatch *)

Section ThemeFacts.
Variable urlParams : URLSearchParams.

Lemma renderResume_dispatch (d n : value) (c : jsstring) (w : world) :
  norm urlParams d = Ok n -> to_string n = Ok c ->
  renderResume urlParams d w =
  (if strict_eq_lit n "t2" then renderResumeTheme2 d
   else if strict_eq_lit n "t3" then renderResumeTheme3 d
   else renderResumeTheme1 d) (with_class (lit "resume theme-" ++ c) w).
Proof.
  intros Hn Hc. unfold renderResume, mbind, lift. rewrite Hn, Hc. reflexivity.
Qed.

(** What [th] reads as the record's own theme. *)
Lemma own_theme (d own : value) :
  get d "theme" = Ok own ->
  (if truthy d then get d "theme" else Ok d) = Ok own \/
  (truthy d = false /\ truthy own = false /\
   (if truthy d then get d "theme" else Ok d) = Ok d).
Proof.
  intros H. destruct (truthy d) eqn:Hd; [now left|].
  right. repeat split.
  destruct d; simpl in *; try discriminate; now injection H as <-.
Qed.

Lemma norm_of_truthy_theme (d own : value) :
  get d "theme" = Ok own -> truthy own = true -> norm urlParams d = Ok own.
Proof.
  intros H Ht. unfold norm, th.
  destruct (own_theme d own H) as [-> | (_ & Hf & _)]; [|congruence].
  cbn [rbind]. unfold or_else. rewrite Ht, Ht. cbn [negb]. now rewrite Ht.
Qed.

Lemma norm_of_falsy_theme (d own : value) :
  get d "theme" = Ok own -> truthy own = false ->
  norm urlParams d = Ok (or_else (params_get urlParams (lit "theme")) (str "t1")).
Proof.
  intros H Hf. unfold norm, th.
  assert (E : exists x, (if truthy d then get d "theme" else Ok d) = Ok x
                        /\ truthy x = false).
  { destruct (own_theme d own H) as [E | (Hd & _ & E)]; eauto. }
  destruct E as (x & -> & Hx). cbn [rbind]. unfold or_else. rewrite !Hx.
  destruct (truthy (params_get urlParams (lit "theme"))) eqn:Hq;
    rewrite ?Hq; reflexivity.
Qed.
End ThemeFacts.

Lemma lookup_filter (k t : jsstring) (props : list (jsstring * value)) :
  lookup k (filter (fun kv => negb (jseqb (fst kv) t)) props)
  = if jseqb k t then None else lookup k props.
Proof.
  induction props as [|[k' v] props IH]; cbn [filter lookup fst].
  - now destruct (jseqb k t).
  - destruct (jseqb k' t) eqn:E; cbn [negb lookup].
    + rewrite IH. destruct (jseqb k t) eqn:Ek; [reflexivity|].
      apply jseqb_eq in E. subst k'. now rewrite Ek.
    + rewrite IH. destruct (jseqb k k') eqn:Ek; [|reflexivity].
      apply jseqb_eq in Ek. subst k'. now rewrite E.
Qed.

Lemma get_without_theme (d : value) (k : string) :
  lit k <> lit "theme" -> get (without_theme d) k = get d k.
Proof.
  intros Hk. destruct d as [| | | | | |props]; try reflexivity.
  cbn [without_theme get]. rewrite lookup_filter.
  apply jseqb_neq in Hk. now rewrite Hk.
Qed.

Lemma get_theme_without_theme (d own : value) :
  get d "theme" = Ok own -> get (without_theme d) "theme" = Ok VUndef.
Proof.
  destruct d as [| | | | | |props]; try discriminate; try reflexivity.
  intros _. cbn [without_theme get]. now rewrite lookup_filter, jseqb_refl.
Qed.

Lemma truthy_without_theme (d : value) : truthy (without_theme d) = truthy d.
Proof. now destruct d. Qed.

Ltac same_fields :=
  repeat match goal with
         | |- context [get (without_theme ?d) ?k] =>
             rewrite (get_without_theme d k) by discriminate
         end.

Lemma renderHeader_without_theme (d : value) :
  renderHeader (without_theme d) = renderHeader d.
Proof. unfold renderHeader. same_fields. reflexivity. Qed.

Lemma renderHeaderT3_without_theme (d : value) :
  renderHeaderT3 (without_theme d) = renderHeaderT3 d.
Proof. unfold renderHeaderT3. same_fields. reflexivity. Qed.

Lemma themes_without_theme (d : value) :
  renderResumeTheme1 (without_theme d) = renderResumeTheme1 d /\
  renderResumeTheme2 (without_theme d) = renderResumeTheme2 d /\
  renderResumeTheme3 (without_theme d) = renderResumeTheme3 d.
Proof.
  unfold renderResumeTheme1, renderResumeTheme2, renderResumeTheme3.
  rewrite renderHeader_without_theme, renderHeaderT3_without_theme.
  same_fields. repeat split.
Qed.

(** C3: a record whose theme field is ["t2"] is rendered by
    [renderResumeTheme2], under the class [resume theme-t2], whatever the
    query string asks for; in general the record's own theme, when
    truthy, is the resolved theme, else the query string's [theme], when
    it has one that is not empty, else ["t1"]. *)
Theorem C3_record_theme_beats_query_string
  (urlParams : URLSearchParams) (d : value) (w : world) :
  (get d "theme" = Ok (str "t2") ->
   renderResume urlParams d w
   = renderResumeTheme2 d (with_class (lit "resume theme-t2") w)) /\
  (forall own, get d "theme" = Ok own -> truthy own = true ->
               norm urlParams d = Ok own) /\
  (forall own q, get d "theme" = Ok own -> truthy own = false ->
                 params_get urlParams (lit "theme") = VStr q -> q <> [] ->
                 norm urlParams d = Ok (VStr q)) /\
  (forall own, get d "theme" = Ok own -> truthy own = false ->
               truthy (params_get urlParams (lit "theme")) = false ->
               norm urlParams d = Ok (str "t1")).
Proof.
  repeat split.
  - intros H.
    rewrite (renderResume_dispatch urlParams d (str "t2") (lit "t2") w);
      [reflexivity | now apply norm_of_truthy_theme | reflexivity].
  - intros own H Ht. now apply norm_of_truthy_theme.
  - intros own q H Hf Hq Hne.
    rewrite (norm_of_falsy_theme urlParams d own H Hf), Hq.
    destruct q; [contradiction | reflexivity].
  - intros own H Hf Hq.
    rewrite (norm_of_falsy_theme urlParams d own H Hf).
    unfold or_else. now rewrite Hq.
Qed.

Lemma C3_witness_t2_record_t1_query :
  renderResume [(lit "theme", lit "t1")] (VObj [(lit "theme", str "t2")]) blank
  = renderResumeTheme2 (VObj [(lit "theme", str "t2")])
      (with_class (lit "resume theme-t2") blank).
Proof.
  apply (proj1 (C3_record_theme_beats_query_string
                  [(lit "theme", lit "t1")] (VObj [(lit "theme", str "t2")]) blank)).
  reflexivity.
Defined.

(** C4: when the resolved theme is a string other than ["t2"] and ["t3"],
    for instance ["t9"], [renderResume] sets the class and then does what
    [renderResumeTheme1] does; the dispatch adds no error of its own. *)
Theorem C4_unknown_theme_renders_default_layout
  (urlParams : URLSearchParams) (d : value) (s : jsstring) (w : world) :
  norm urlParams d = Ok (VStr s) -> s <> lit "t2" -> s <> lit "t3" ->
  renderResume urlParams d w
  = renderResumeTheme1 d (with_class (lit "resume theme-" ++ s) w) /\
  (forall e, fst (renderResume urlParams d w) = Throw e ->
             fst (renderResumeTheme1 d (with_class (lit "resume theme-" ++ s) w))
             = Throw e).
Proof.
  intros Hn H2 H3.
  assert (E : renderResume urlParams d w
              = renderResumeTheme1 d (with_class (lit "resume theme-" ++ s) w)).
  { rewrite (renderResume_dispatch urlParams d (VStr s) s w Hn eq_refl).
    unfold strict_eq_lit.
    apply jseqb_neq in H2, H3. now rewrite H2, H3. }
  split; [exact E | now rewrite E].
Qed.

Lemma C4_witness_t9 :
  renderResume [] (VObj [(lit "theme", str "t9"); (lit "name", str "A")]) blank
  = renderResumeTheme1 (VObj [(lit "theme", str "t9"); (lit "name", str "A")])
      (with_class (lit "resume theme-t9") blank)
  /\ fst (renderResume [] (VObj [(lit "theme", str "t9"); (lit "name", str "A")]) blank)
     = Ok tt.
Proof.
  split.
  - apply (C4_unknown_theme_renders_default_layout
             [] (VObj [(lit "theme", str "t9"); (lit "name", str "A")])
             (lit "t9") blank); [reflexivity | discriminate | discriminate].
  - reflexivity.
Defined.

(** C9: a record whose theme field is there but falsy (the empty string,
    [null], [0], [false]) resolves its theme as the same record without
    the field does: to the query string's [theme], else ["t1"]; and it is
    rendered the same. *)
Theorem C9_falsy_theme_is_treated_as_absent
  (urlParams : URLSearchParams) (d own : value) (w : world) :
  get d "theme" = Ok own -> truthy own = false ->
  norm urlParams d
  = Ok (or_else (params_get urlParams (lit "theme")) (str "t1")) /\
  get (without_theme d) "theme" = Ok VUndef /\
  norm urlParams d = norm urlParams (without_theme d) /\
  renderResume urlParams d w = renderResume urlParams (without_theme d) w.
Proof.
  intros H Hf.
  pose proof (norm_of_falsy_theme urlParams d own H Hf) as E1.
  pose proof (get_theme_without_theme d own H) as E2.
  pose proof (norm_of_falsy_theme urlParams (without_theme d) VUndef E2 eq_refl) as E3.
  repeat split; try assumption; try congruence.
  unfold renderResume. rewrite E1, E3.
  destruct (themes_without_theme d) as (-> & -> & ->). reflexivity.
Qed.

Lemma C9_witness_empty_theme :
  norm [(lit "theme", lit "t3")] (VObj [(lit "theme", VStr []); (lit "name", str "A")])
  = Ok (str "t3") /\
  renderResume [(lit "theme", lit "t3")]
    (VObj [(lit "theme", VStr []); (lit "name", str "A")]) blank
  = renderResume [(lit "theme", lit "t3")] (VObj [(lit "name", str "A")]) blank.
Proof.
  pose proof (C9_falsy_theme_is_treated_as_absent
                [(lit "theme", lit "t3")]
                (VObj [(lit "theme", VStr []); (lit "name", str "A")])
                (VStr []) blank eq_refl eq_refl) as (E1 & _ & _ & E4).
  split; [exact E1 | exact E4].
Defined.

(* ================================================================== *)
(** ** The flattened skills list *)

Arguments lit s : simpl never.

Lemma existsb_jseqb (x : jsstring) (l : list jsstring) :
  existsb (jseqb x) l = true <-> In x l.
Proof.
  rewrite existsb_exists. split.
  - intros (y & Hy & E). apply jseqb_eq in E. now subst.
  - intros H. exists x. split; [assumption | apply jseqb_refl].
Qed.

Lemma first_seen_ext (s1 s2 l : list jsstring) :
  (forall y, In y s1 <-> In y s2) -> first_seen s1 l = first_seen s2 l.
Proof.
  revert s1 s2. induction l as [|x l IH]; intros s1 s2 H; [reflexivity|].
  cbn [first_seen].
  assert (E : existsb (jseqb x) s1 = existsb (jseqb x) s2).
  { apply eq_true_iff_eq. rewrite !existsb_jseqb. apply H. }
  rewrite E. destruct (existsb (jseqb x) s2); [now apply IH|].
  f_equal. apply IH. intros y. simpl. rewrite H. tauto.
Qed.

Lemma first_seen_app (s l1 l2 : list jsstring) :
  first_seen s (l1 ++ l2) = first_seen s l1 ++ first_seen (l1 ++ s) l2.
Proof.
  revert s. induction l1 as [|x l1 IH]; intros s; [reflexivity|].
  cbn [app first_seen].
  destruct (existsb (jseqb x) s) eqn:E.
  - rewrite IH. f_equal. apply first_seen_ext. intros y.
    apply existsb_jseqb in E. simpl. rewrite !in_app_iff.
    split; [tauto|]. intros [<- | H]; tauto.
  - cbn [app]. rewrite IH. f_equal. f_equal. apply first_seen_ext. intros y.
    simpl. rewrite !in_app_iff. simpl. tauto.
Qed.

Lemma first_seen_In (s l : list jsstring) (x : jsstring) :
  In x (first_seen s l) <-> In x l /\ ~ In x s.
Proof.
  revert s. induction l as [|y l IH]; intros s; cbn [first_seen].
  - simpl. tauto.
  - destruct (existsb (jseqb y) s) eqn:E.
    + apply existsb_jseqb in E. rewrite IH. simpl.
      split; [tauto|]. intros [[<- | H] Hn]; tauto.
    + assert (Hy : ~ In y s).
      { intros H. apply existsb_jseqb in H. congruence. }
      simpl. rewrite IH. simpl.
      split.
      * intros [<- | [H Hn]]; [tauto|]. tauto.
      * intros [[<- | H] Hn]; [tauto|].
        destruct (jseqb y x) eqn:Eyx.
        -- apply jseqb_eq in Eyx. tauto.
        -- apply jseqb_neq in Eyx. right. tauto.
Qed.

Lemma first_seen_NoDup (s l : list jsstring) : NoDup (first_seen s l).
Proof.
  revert s. induction l as [|y l IH]; intros s; cbn [first_seen].
  - constructor.
  - destruct (existsb (jseqb y) s); [apply IH|].
    constructor; [|apply IH].
    rewrite first_seen_In. simpl. tauto.
Qed.

Lemma new_Set_strings (acc l : list jsstring) :
  fold_left set_add (map VStr l) (map VStr acc)
  = map VStr (acc ++ first_seen acc l).
Proof.
  revert acc. induction l as [|x l IH]; intros acc.
  - simpl. now rewrite app_nil_r.
  - cbn [map fold_left first_seen]. unfold set_add at 2.
    assert (E : existsb (same_value_zero (VStr x)) (map VStr acc)
                = existsb (jseqb x) acc).
    { induction acc as [|a acc IHa]; [reflexivity|].
      simpl. now rewrite IHa. }
    rewrite E. destruct (existsb (jseqb x) acc); [apply IH|].
    change (map VStr acc ++ [VStr x]) with (map VStr acc ++ map VStr [x]).
    rewrite <- map_app, IH, <- app_assoc. cbn [app].
    do 3 f_equal. apply first_seen_ext. intros y.
    rewrite in_app_iff. simpl. tauto.
Qed.

Lemma new_Set_of_strings (l : list jsstring) :
  new_Set (map VStr l) = map VStr (first_seen [] l).
Proof. exact (new_Set_strings [] l). Qed.

Lemma join_from_strings (sep acc : jsstring) (l : list jsstring) :
  join_from join_item sep acc (map VStr l)
  = Ok (acc ++ List.concat (map (fun s => sep ++ s) l)).
Proof.
  revert acc. induction l as [|x l IH]; intros acc; cbn [map join_from List.concat].
  - now rewrite app_nil_r.
  - cbn [join_item to_string]. rewrite IH. now rewrite <- !app_assoc.
Qed.

Lemma intercalate_cons (sep x : jsstring) (l : list jsstring) :
  intercalate sep (x :: l) = x ++ List.concat (map (fun s => sep ++ s) l).
Proof.
  revert x. induction l as [|y l IH]; intros x.
  - simpl. now rewrite app_nil_r.
  - change (intercalate sep (x :: y :: l)) with (x ++ sep ++ intercalate sep (y :: l)).
    rewrite IH. cbn [map List.concat]. now rewrite <- !app_assoc.
Qed.

Lemma join_strings (sep : jsstring) (l : list jsstring) :
  join sep (map VStr l) = Ok (intercalate sep l).
Proof.
  destruct l as [|x l]; [reflexivity|].
  unfold join. cbn [map join_with join_item to_string].
  now rewrite join_from_strings, intercalate_cons.
Qed.

Lemma skill_items_typed (c : value) (its : list jsstring) :
  get c "items" = Ok (VArr (map VStr its)) ->
  skill_items c = Ok (map VStr its).
Proof.
  intros H. unfold skill_items.
  destruct c; try discriminate. cbn [truthy]. now rewrite H.
Qed.

Lemma forEach_skill_items (cats : list value) (its : list (list jsstring)) :
  Forall2 (fun c l => get c "items" = Ok (VArr (map VStr l))) cats its ->
  forEach skill_items cats = Ok (map VStr (List.concat its)).
Proof.
  induction 1 as [|c l cats its H _ IH]; [reflexivity|].
  cbn [forEach List.concat]. rewrite (skill_items_typed c l H), IH.
  cbn [rbind]. now rewrite map_app.
Qed.

Lemma renderSkills_typed (cats : list value) (its : list (list jsstring)) :
  cats <> [] ->
  Forall2 (fun c l => get c "items" = Ok (VArr (map VStr l))) cats its ->
  renderSkills (VArr cats)
  = Ok (Some (skills_section (intercalate (lit ", ") (first_seen [] (List.concat its))))).
Proof.
  intros Hne H. destruct cats as [|c cats]; [contradiction|].
  unfold renderSkills, str. cbn [make rbind].
  rewrite (forEach_skill_items _ _ H). cbn [rbind].
  rewrite new_Set_of_strings, join_strings.
  cbn [rbind set_innerHTML to_string append app]. unfold skills_section, str.
  now destruct (intercalate (lit ", ") (first_seen [] (List.concat its))).
Qed.

(** C5: for the record with skills
    [[{items:["Go","Go","Rust"]}, {items:["Rust"]}]] the single-column
    skills section shows exactly ["Go, Rust"], in both single-column
    themes; in general, for categories whose items are strings, it shows
    the items of all categories, each kept at its first occurrence only,
    joined with [", "]. *)
Theorem C5_skills_list_is_deduplicated_in_first_seen_order :
  let skills := VArr [VObj [(lit "items", VArr [str "Go"; str "Go"; str "Rust"])];
                      VObj [(lit "items", VArr [str "Rust"])]] in
  renderSkills skills = Ok (Some (skills_section (lit "Go, Rust"))) /\
  (exists header,
     children (snd (renderResumeTheme1 (VObj [(lit "skills", skills)]) blank))
     = [header; skills_section (lit "Go, Rust")]) /\
  (exists header,
     children (snd (renderResumeTheme3 (VObj [(lit "skills", skills)]) blank))
     = [header; skills_section (lit "Go, Rust")]) /\
  (forall (cats : list value) (its : list (list jsstring)),
     cats <> [] ->
     Forall2 (fun c l => get c "items" = Ok (VArr (map VStr l))) cats its ->
     let all := List.concat its in
     renderSkills (VArr cats)
     = Ok (Some (skills_section (intercalate (lit ", ") (first_seen [] all)))) /\
     NoDup (first_seen [] all) /\
     (forall x, In x (first_seen [] all) <-> In x all) /\
     (forall l1 x l2, all = l1 ++ x :: l2 -> ~ In x l1 ->
        first_seen [] all = first_seen [] l1 ++ x :: first_seen (x :: l1) l2)).
Proof.
  cbv zeta. split; [reflexivity|].
  split; [eexists; reflexivity|].
  split; [eexists; reflexivity|].
  intros cats its Hne H. repeat split.
  - now apply renderSkills_typed.
  - apply first_seen_NoDup.
  - intros Hx. now apply first_seen_In in Hx.
  - intros Hx. apply first_seen_In. simpl. tauto.
  - intros l1 x l2 -> Hx. rewrite first_seen_app. f_equal.
    cbn [first_seen].
    assert (E : existsb (jseqb x) (l1 ++ []) = false).
    { destruct (existsb (jseqb x) (l1 ++ [])) eqn:E; [|reflexivity].
      apply existsb_jseqb in E. rewrite app_nil_r in E. contradiction. }
    rewrite E. f_equal. apply first_seen_ext. intros y.
    simpl. rewrite app_nil_r. tauto.
Qed.

Lemma C5_witness_three_categories :
  renderSkills
    (VArr [VObj [(lit "category", str "Languages");
                 (lit "items", VArr [str "Go"; str "Rust"])];
           VObj [(lit "items", VArr [])];
           VObj [(lit "items", VArr [str "Rust"; str "SQL"; str "Go"])]])
  = Ok (Some (skills_section (lit "Go, Rust, SQL"))).
Proof.
  apply (proj1 (proj2 (proj2 (proj2
           C5_skills_list_is_deduplicated_in_first_seen_order))
           [VObj [(lit "category", str "Languages");
                  (lit "items", VArr [str "Go"; str "Rust"])];
            VObj [(lit "items", VArr [])];
            VObj [(lit "items", VArr [str "Rust"; str "SQL"; str "Go"])]]
           [[lit "Go"; lit "Rust"]; []; [lit "Rust"; lit "SQL"; lit "Go"]]
           ltac:(discriminate)
           ltac:(repeat constructor))).
Defined.

(* ================================================================== *)
(** ** Headings of what the builders make *)

Lemma rbind_inv {A B} (e : result A) (k : A -> result B) (b : B) :
  rbind e k = Ok b -> exists a, e = Ok a /\ k a = Ok b.
Proof. destruct e as [a|x]; [eauto | discriminate]. Qed.

(** Split a successful chain of binds into its steps. *)
Ltac steps H :=
  repeat (apply rbind_inv in H;
          let a := fresh "x" in
          let Ha := fresh "S" in
          destruct H as (a & Ha & H); cbv beta in H).

Lemma headings_Elem (tag : string) (c : jsstring)
      (a : list (string * jsstring)) (kids : list node) :
  headings (Elem tag c a kids)
  = (if String.eqb tag "h2"
     then match kids with [Html s] => [s] | _ => [] end
     else []) ++ headings_of kids.
Proof.
  cbn [headings].
  assert (E : (fix go (l : list node) : list jsstring :=
                 match l with
                 | [] => []
                 | k :: l' => headings k ++ go l'
                 end) kids = headings_of kids).
  { induction kids as [|k kids IH]; [reflexivity|].
    cbn [headings_of flat_map]. now rewrite IH. }
  rewrite E. destruct (String.eqb tag "h2"); reflexivity.
Qed.

Lemma headings_of_app (l1 l2 : list node) :
  headings_of (l1 ++ l2) = headings_of l1 ++ headings_of l2.
Proof. apply flat_map_app. Qed.

Lemma append_items_quiet (l : list item) (ks : list node) :
  append_items l = Ok ks ->
  (forall m, In (INode m) l -> headings m = []) ->
  headings_of ks = [].
Proof.
  revert ks. induction l as [|c l IH]; intros ks H Hq.
  - now injection H as <-.
  - cbn [append_items] in H. steps H. injection H as <-.
    rewrite headings_of_app, (IH x0 S0); [|intros m Hm; apply Hq; now right].
    rewrite app_nil_r. destruct c as [m|v]; cbn [append_item] in S.
    + injection S as <-. cbn [headings_of flat_map].
      rewrite app_nil_r. apply Hq. now left.
    + destruct (truthy v); [|now injection S as <-].
      steps S. now injection S as <-.
Qed.

Lemma append_items_values (l : list value) (ks : list node) :
  append_items (map IVal l) = Ok ks -> headings_of ks = [].
Proof.
  intros H. apply (append_items_quiet _ _ H).
  intros m Hm. apply in_map_iff in Hm as (v & E & _). discriminate.
Qed.

Lemma set_innerHTML_quiet (v : value) (ks : list node) :
  set_innerHTML v = Ok ks -> headings_of ks = [].
Proof.
  unfold set_innerHTML. intros H. steps H. injection H as <-. now destruct x.
Qed.

Lemma make_shape (tag : string) (cls : option string) (c : content) (n : node) :
  make tag cls c = Ok n ->
  exists kids,
    n = Elem tag match cls with Some s => lit s | None => [] end [] kids /\
    (quiet c -> headings_of kids = []).
Proof.
  unfold make. intros H. steps H. injection H as <-.
  exists x. split; [reflexivity|]. intros Hq.
  destruct c as [|l|m|v].
  - now injection S as <-.
  - now apply (append_items_quiet l).
  - injection S as <-. cbn [headings_of flat_map]. now rewrite app_nil_r.
  - destruct v; try (now apply (set_innerHTML_quiet _ _ S)).
    + now injection S as <-.
    + now apply (append_items_values items).
Qed.

(** An element other than a heading, made from quiet content, is quiet. *)
Lemma make_quiet (tag : string) (cls : option string) (c : content) (n : node) :
  make tag cls c = Ok n -> String.eqb tag "h2" = false -> quiet c ->
  headings n = [].
Proof.
  intros H Ht Hq. apply make_shape in H as (kids & -> & Hk).
  now rewrite headings_Elem, Ht, (Hk Hq).
Qed.

(** ... and stays quiet when quiet nodes are appended to it. *)
Lemma make_append_quiet (tag : string) (cls : option string) (c : content)
      (n : node) (new : list node) :
  make tag cls c = Ok n -> String.eqb tag "h2" = false -> quiet c ->
  headings_of new = [] ->
  headings (append n new) = [].
Proof.
  intros H Ht Hq Hn. apply make_shape in H as (kids & -> & Hk).
  cbn [append]. now rewrite headings_Elem, Ht, headings_of_app, (Hk Hq), Hn.
Qed.

Lemma headings_of_cons (n : node) (l : list node) :
  headings_of (n :: l) = headings n ++ headings_of l.
Proof. reflexivity. Qed.

Lemma headings_of_one (n : node) : headings_of [n] = headings n.
Proof. cbn [headings_of flat_map]. apply app_nil_r. Qed.

Lemma forEach_quiet {A} (f : A -> result (list node)) (l : list A) (ks : list node) :
  (forall x r, f x = Ok r -> headings_of r = []) ->
  forEach f l = Ok ks -> headings_of ks = [].
Proof.
  intros Hf. revert ks. induction l as [|x l IH]; intros ks H.
  - now injection H as <-.
  - cbn [forEach] in H. steps H. injection H as <-.
    now rewrite headings_of_app, (Hf _ _ S), (IH _ S0).
Qed.

Lemma div_if_quiet (cls : string) (x : jsstring) (r : list node) :
  div_if cls x = Ok r -> headings_of r = [].
Proof.
  unfold div_if. destruct x as [|c x]; intros H; [now injection H as <-|].
  steps H. injection H as <-. rewrite headings_of_one.
  now apply (make_quiet _ _ _ _ S).
Qed.

Lemma highlight_quiet (h : value) (r : list node) :
  highlight h = Ok r -> headings_of r = [].
Proof.
  unfold highlight. intros H. steps H. injection H as <-.
  rewrite headings_of_one. now apply (make_quiet _ _ _ _ S).
Qed.

Lemma highlights_of_quiet (j : value) (r : list node) :
  highlights_of j = Ok r -> headings_of r = [].
Proof.
  unfold highlights_of. intros H. steps H.
  destruct x as [| | | | |[|h l]|]; try (now injection H as <-).
  steps H. injection H as <-. rewrite headings_of_one.
  apply (make_append_quiet _ _ _ _ _ S0); [reflexivity | exact I |].
  exact (forEach_quiet _ _ _ highlight_quiet S1).
Qed.

Lemma note_of_quiet (e : value) (r : list node) :
  note_of e = Ok r -> headings_of r = [].
Proof.
  unfold note_of. intros H. steps H.
  destruct (truthy x); [|now injection H as <-].
  steps H. injection H as <-. rewrite headings_of_one.
  now apply (make_quiet _ _ _ _ S0).
Qed.

(** Close the goal [headings_of (l1 ++ ... ++ ln) = []] from the facts
    gathered about the parts. *)
Ltac quiet_parts :=
  repeat (rewrite headings_of_cons || rewrite headings_of_app);
  repeat match goal with
         | H : make _ _ _ = Ok ?n |- context [headings ?n] =>
             rewrite (make_quiet _ _ _ _ H) by (reflexivity || exact I)
         | H : div_if _ _ = Ok ?r |- context [headings_of ?r] =>
             rewrite (div_if_quiet _ _ _ H)
         | H : highlights_of _ = Ok ?r |- context [headings_of ?r] =>
             rewrite (highlights_of_quiet _ _ H)
         | H : note_of _ = Ok ?r |- context [headings_of ?r] =>
             rewrite (note_of_quiet _ _ H)
         end;
  reflexivity.

(** An item of a section: a [div.item] with quiet parts appended. *)
Ltac quiet_item H :=
  steps H; injection H as <-; rewrite headings_of_one;
  match goal with
  | S : make "div" (Some "item"%string) NoContent = Ok ?x |- _ =>
      apply (make_append_quiet _ _ _ _ _ S); [reflexivity | exact I |]
  end;
  quiet_parts.

Lemma experience_item_quiet (j : value) (r : list node) :
  experience_item j = Ok r -> headings_of r = [].
Proof.
  unfold experience_item. intros H.
  destruct (negb (truthy j)); [now injection H as <-|]. quiet_item H.
Qed.

Lemma experience_itemT3_quiet (j : value) (r : list node) :
  experience_itemT3 j = Ok r -> headings_of r = [].
Proof.
  unfold experience_itemT3. intros H.
  destruct (negb (truthy j)); [now injection H as <-|]. quiet_item H.
Qed.

Lemma education_item_quiet (e : value) (r : list node) :
  education_item e = Ok r -> headings_of r = [].
Proof. unfold education_item. intros H. quiet_item H. Qed.

Lemma education_itemT3_quiet (e : value) (r : list node) :
  education_itemT3 e = Ok r -> headings_of r = [].
Proof. unfold education_itemT3. intros H. quiet_item H. Qed.

Lemma cert_item_quiet (c : value) (r : list node) :
  cert_item c = Ok r -> headings_of r = [].
Proof. unfold cert_item. intros H. quiet_item H. Qed.

Lemma pill_quiet (it : value) (r : list node) :
  pill it = Ok r -> headings_of r = [].
Proof.
  unfold pill. intros H. steps H. injection H as <-.
  rewrite headings_of_one. now apply (make_quiet _ _ _ _ S).
Qed.

Lemma skill_pills_quiet (s : value) (r : list node) :
  skill_pills s = Ok r -> headings_of r = [].
Proof.
  unfold skill_pills. intros H. steps H.
  exact (forEach_quiet _ _ _ pill_quiet H).
Qed.

Lemma make_h2 (T : string) :
  T <> ""%string ->
  make "h2" None (Data (str T)) = Ok (Elem "h2" [] [] [Html (lit T)]).
Proof. destruct T; [contradiction | reflexivity]. Qed.

Lemma section_heading (cls : option string) (sec : node) (T : string)
      (items : list node) :
  make "section" cls NoContent = Ok sec -> T <> ""%string ->
  headings_of items = [] ->
  headings (append (append sec [Elem "h2" [] [] [Html (lit T)]]) items) = [lit T].
Proof.
  intros H HT Hi. apply make_shape in H as (kids & -> & Hk).
  cbn [append]. rewrite headings_Elem, !headings_of_app, (Hk I), Hi.
  rewrite headings_of_one, headings_Elem. reflexivity.
Qed.

(** Bring a successful list-section builder to its last step. *)
Ltac open_section H v :=
  destruct v as [| | | | |[|? ?]|]; try (now injection H as <-);
  steps H; injection H as <-;
  match goal with
  | S : make "h2" None _ = Ok _ |- _ =>
      rewrite make_h2 in S by discriminate; injection S as <-
  end;
  split; [|eauto];
  match goal with
  | S : make "section" _ NoContent = Ok _ |- _ =>
      apply (section_heading _ _ _ _ S); [discriminate|]
  end.

Lemma renderSkills_titled (v : value) (o : option node) :
  renderSkills v = Ok o -> titled "Skills" v o.
Proof.
  unfold renderSkills. intros H. open_section H v. quiet_parts.
Qed.

Lemma renderSkillsPills_titled (v : value) (o : option node) :
  renderSkillsPills v = Ok o -> titled "Skills" v o.
Proof.
  unfold renderSkillsPills. intros H. open_section H v.
  rewrite headings_of_one.
  match goal with
  | S : make "div" _ NoContent = Ok _ |- _ =>
      apply (make_append_quiet _ _ _ _ _ S); [reflexivity | exact I |]
  end.
  match goal with
  | S : forEach skill_pills _ = Ok _ |- _ =>
      exact (forEach_quiet _ _ _ skill_pills_quiet S)
  end.
Qed.

Lemma renderExperience_titled (v : value) (o : option node) :
  renderExperience v = Ok o -> titled "Employment history" v o.
Proof.
  unfold renderExperience. intros H. open_section H v.
  match goal with
  | S : forEach _ _ = Ok _ |- _ => exact (forEach_quiet _ _ _ experience_item_quiet S)
  end.
Qed.

Lemma renderExperienceT3_titled (v : value) (o : option node) :
  renderExperienceT3 v = Ok o -> titled "Employment history" v o.
Proof.
  unfold renderExperienceT3. intros H. open_section H v.
  match goal with
  | S : forEach _ _ = Ok _ |- _ => exact (forEach_quiet _ _ _ experience_itemT3_quiet S)
  end.
Qed.

Lemma renderEducation_titled (v : value) (o : option node) :
  renderEducation v = Ok o -> titled "Education" v o.
Proof.
  unfold renderEducation. intros H. open_section H v.
  match goal with
  | S : forEach _ _ = Ok _ |- _ => exact (forEach_quiet _ _ _ education_item_quiet S)
  end.
Qed.

Lemma renderEducationT3_titled (v : value) (o : option node) :
  renderEducationT3 v = Ok o -> titled "Education" v o.
Proof.
  unfold renderEducationT3. intros H. open_section H v.
  match goal with
  | S : forEach _ _ = Ok _ |- _ => exact (forEach_quiet _ _ _ education_itemT3_quiet S)
  end.
Qed.

Lemma renderCerts_titled (v : value) (o : option node) :
  renderCerts v = Ok o -> titled "Certifications" v o.
Proof.
  unfold renderCerts. intros H. open_section H v.
  match goal with
  | S : forEach _ _ = Ok _ |- _ => exact (forEach_quiet _ _ _ cert_item_quiet S)
  end.
Qed.

Lemma renderSummary_titled (v : value) (o : option node) :
  renderSummary v = Ok o ->
  match o with
  | Some sec => headings sec = [lit "Professional summary"] /\ truthy v = true
  | None => True
  end.
Proof.
  unfold renderSummary. intros H.
  destruct (truthy v); [|now injection H as <-]. cbn [negb] in H.
  steps H. injection H as <-.
  rewrite make_h2 in S0 by discriminate. injection S0 as <-.
  split; [|reflexivity].
  apply (section_heading _ _ _ _ S); [discriminate|]. quiet_parts.
Qed.

Lemma linkify_quiet (u l : value) (o : option node) :
  linkify u l = Ok o -> headings_of (opt_list o) = [].
Proof.
  unfold linkify. destruct (negb (truthy u)); intros H; [now injection H as <-|].
  steps H. injection H as <-. cbn [opt_list]. rewrite headings_of_one, headings_Elem.
  cbn [String.eqb Ascii.eqb Bool.eqb app].
  unfold set_textContent in S0. steps S0. injection S0 as <-. now destruct x1.
Qed.

Lemma push_link_quiet (l : value) (r : list node) :
  push_link l = Ok r -> headings_of r = [].
Proof.
  unfold push_link. intros H. steps H. injection H as <-.
  now apply (linkify_quiet _ _ _ S1).
Qed.

Lemma contacts_loop_quiet (i : nat) (bits r : list node) :
  contacts_loop i bits = Ok r -> headings_of bits = [] -> headings_of r = [].
Proof.
  revert i r. induction bits as [|b bits IH]; intros i r H Hq.
  - now injection H as <-.
  - cbn [contacts_loop] in H. steps H. injection H as <-.
    rewrite headings_of_cons in Hq. apply app_eq_nil in Hq as [Hb Hbits].
    rewrite headings_of_app, headings_of_cons, Hb, (IH _ _ S0 Hbits), app_nil_r.
    destruct (0 <? i)%nat; [|now injection S as <-].
    steps S. injection S as <-. rewrite headings_of_one.
    now apply (make_quiet _ _ _ _ S1).
Qed.

Lemma setAttribute_headings (n : node) (k : string) (v : jsstring) :
  headings (setAttribute n k v) = headings n.
Proof. destruct n; reflexivity. Qed.

Lemma h1_quiet (v : value) (n : node) :
  make "h1" None (Data v) = Ok n -> headings n = [].
Proof. intros H. now apply (make_quiet _ _ _ _ H). Qed.

Lemma renderHeader_quiet (d : value) (h : node) :
  renderHeader d = Ok h -> headings h = [].
Proof.
  unfold renderHeader. intros H. steps H. injection H as <-.
  assert (Q2 : headings_of (somes [Some x0; x2]) = []).
  { destruct (truthy x1).
    - steps S2. injection S2 as <-. cbn [somes].
      rewrite !headings_of_cons, (h1_quiet _ _ S0).
      rewrite (make_quiet _ _ _ _ S16) by (reflexivity || exact I). reflexivity.
    - injection S2 as <-. cbn [somes]. now rewrite headings_of_one, (h1_quiet _ _ S0). }
  assert (Q3 : headings x3 = []).
  { apply (make_quiet _ _ _ _ S3); [reflexivity|].
    intros m Hm. apply in_map_iff in Hm as (m' & [= ->] & Hm).
    revert Q2 Hm. generalize (somes [Some x0; x2]). intros l.
    induction l as [|a l IH]; [contradiction|].
    rewrite headings_of_cons. intros E. apply app_eq_nil in E as [Ea El].
    intros [<- | Hm]; [assumption | now apply IH]. }
  assert (Q6 : headings_of x6 = []).
  { destruct (truthy x5); [|now injection S6 as <-].
    steps S6. injection S6 as <-. rewrite headings_of_one.
    now apply (make_quiet _ _ _ _ S16). }
  assert (Q8 : headings_of x8 = []).
  { destruct (truthy x7); [|now injection S8 as <-].
    steps S8. injection S8 as <-.
    now rewrite headings_of_app, Q6, (linkify_quiet _ _ _ S17). }
  assert (Q10 : headings_of x10 = []).
  { destruct (truthy x9); [|now injection S10 as <-].
    steps S10. injection S10 as <-.
    now rewrite headings_of_app, Q8, (linkify_quiet _ _ _ S17). }
  assert (Q12 : headings_of x12 = []).
  { destruct x11; try (now injection S12 as <-).
    steps S12. injection S12 as <-.
    now rewrite headings_of_app, Q10, (forEach_quiet _ _ _ push_link_quiet S16). }
  pose proof (contacts_loop_quiet _ _ _ S13 Q12) as Q13.
  apply (make_append_quiet _ _ _ _ _ S14); [reflexivity | |].
  - intros m [[= <-] | [[= <-] | []]]; [assumption|].
    now apply (make_append_quiet _ _ _ _ _ S4).
  - rewrite headings_of_one, setAttribute_headings.
    now apply (make_quiet _ _ _ _ S15).
Qed.

Lemma renderHeaderT3_quiet (d : value) (h : node) :
  renderHeaderT3 d = Ok h -> headings h = [].
Proof.
  unfold renderHeaderT3. intros H. steps H.
  assert (Q5 : headings x5 = []).
  { apply (make_quiet _ _ _ _ S5); [reflexivity|].
    intros m [[=] | []]. }
  assert (Q6 : headings x6 = []).
  { apply (make_quiet _ _ _ _ S6); [reflexivity|].
    intros m [[= <-] | [[= <-] | []]]; [|assumption].
    now apply (h1_quiet _ _ S0). }
  injection H as <-. rewrite headings_Elem.
  rewrite (append_items_quiet _ _ S7); [reflexivity|].
  intros m [[= <-] | []]. assumption.
Qed.

(* ================================================================== *)
(** ** The sections of a rendered page *)

Lemma Ok_inj {A} (a b : A) : Ok a = Ok b -> a = b.
Proof. congruence. Qed.

Lemma root_append_all_spec (l : list node) (w : world) :
  root_append_all l w
  = (Ok tt, World (requests w) (className w) (children w ++ l) (devNote w)).
Proof.
  revert w. induction l as [|n l IH]; intros w.
  - cbn [root_append_all]. unfold ret. rewrite app_nil_r. now destruct w.
  - cbn [root_append_all]. unfold mbind, root_append. rewrite IH.
    cbn [requests className children devNote]. now rewrite <- app_assoc.
Qed.

Lemma in_somes_headings (t : jsstring) (l : list (option node)) :
  In t (headings_of (somes l)) ->
  exists sec, In (Some sec) l /\ In t (headings sec).
Proof.
  induction l as [|[sec|] l IH]; cbn [somes]; [contradiction| |].
  - rewrite headings_of_cons, in_app_iff. intros [H | H].
    + exists sec. split; [now left | assumption].
    + destruct (IH H) as (s & Hs & Ht). exists s. split; [now right | assumption].
  - intros H. destruct (IH H) as (s & Hs & Ht). exists s. split; [now right | assumption].
Qed.

Lemma field_section (d : value) (k T : string)
      (render : value -> result (option node)) (sec : node) (t : jsstring) :
  (forall v o, render v = Ok o -> titled T v o) ->
  rbind (get d k) render = Ok (Some sec) -> In t (headings sec) ->
  t = lit T /\ exists x l, get d k = Ok (VArr (x :: l)).
Proof.
  intros Hr H Ht. apply rbind_inv in H as (v & Hv & H).
  destruct (Hr _ _ H) as [E (x & l & ->)]. rewrite E in Ht.
  destruct Ht as [<- | []]. eauto.
Qed.

Lemma summary_section (d : value) (sec : node) (t : jsstring) :
  rbind (get d "summary") renderSummary = Ok (Some sec) -> In t (headings sec) ->
  t = lit "Professional summary" /\
  exists v, get d "summary" = Ok v /\ truthy v = true.
Proof.
  intros H Ht. apply rbind_inv in H as (v & Hv & H).
  destruct (renderSummary_titled _ _ H) as [E Hs]. rewrite E in Ht.
  destruct Ht as [<- | []]. eauto.
Qed.

(** Decide which builder a section came from and use what is known of it. *)
Ltac which_section :=
  match goal with
  | H : In (Some _) _ |- _ =>
      cbn [In] in H;
      repeat (destruct H as [H | H]; [subst | ]); try contradiction
  end;
  unfold announced;
  match goal with
  | S : rbind (get _ "summary") _ = Ok (Some ?sec), Ht : In _ (headings ?sec) |- _ =>
      left; exact (summary_section _ _ _ S Ht)
  | S : rbind (get _ "skills") renderSkills = Ok (Some ?sec), Ht : In _ (headings ?sec) |- _ =>
      right; left; exact (field_section _ _ _ _ _ _ renderSkills_titled S Ht)
  | S : rbind (get _ "skills") renderSkillsPills = Ok (Some ?sec),
        Ht : In _ (headings ?sec) |- _ =>
      right; left; exact (field_section _ _ _ _ _ _ renderSkillsPills_titled S Ht)
  | S : rbind (get _ "experience") renderExperience = Ok (Some ?sec),
        Ht : In _ (headings ?sec) |- _ =>
      do 2 right; left; exact (field_section _ _ _ _ _ _ renderExperience_titled S Ht)
  | S : rbind (get _ "experience") renderExperienceT3 = Ok (Some ?sec),
        Ht : In _ (headings ?sec) |- _ =>
      do 2 right; left; exact (field_section _ _ _ _ _ _ renderExperienceT3_titled S Ht)
  | S : rbind (get _ "education") renderEducation = Ok (Some ?sec),
        Ht : In _ (headings ?sec) |- _ =>
      do 3 right; left; exact (field_section _ _ _ _ _ _ renderEducation_titled S Ht)
  | S : rbind (get _ "education") renderEducationT3 = Ok (Some ?sec),
        Ht : In _ (headings ?sec) |- _ =>
      do 3 right; left; exact (field_section _ _ _ _ _ _ renderEducationT3_titled S Ht)
  | S : rbind (get _ "certifications") renderCerts = Ok (Some ?sec),
        Ht : In _ (headings ?sec) |- _ =>
      do 4 right; exact (field_section _ _ _ _ _ _ renderCerts_titled S Ht)
  end.

Lemma theme1_sections (d : value) (w : world) (t : jsstring) :
  In t (headings_of (children (snd (renderResumeTheme1 d w)))) -> announced d t.
Proof.
  unfold renderResumeTheme1, mbind, clear_root, lift, root_append.
  destruct (renderHeader d) as [h|e] eqn:Hh; [|contradiction].
  cbn [children requests className devNote app].
  match goal with
  | |- context [match ?r with Ok _ => _ | Throw _ => _ end] =>
      destruct r as [secs|e] eqn:Hs
  end.
  - rewrite root_append_all_spec. cbn [snd children app].
    rewrite headings_of_cons, (renderHeader_quiet _ _ Hh). cbn [app].
    steps Hs. apply Ok_inj in Hs. subst secs. intros Ht.
    apply in_somes_headings in Ht as (sec & Hin & Ht). which_section.
  - cbn [snd children]. rewrite headings_of_one, (renderHeader_quiet _ _ Hh).
    contradiction.
Qed.

Lemma theme3_sections (d : value) (w : world) (t : jsstring) :
  In t (headings_of (children (snd (renderResumeTheme3 d w)))) -> announced d t.
Proof.
  unfold renderResumeTheme3, mbind, clear_root, lift, root_append.
  destruct (renderHeaderT3 d) as [h|e] eqn:Hh; [|contradiction].
  cbn [children requests className devNote app].
  match goal with
  | |- context [match ?r with Ok _ => _ | Throw _ => _ end] =>
      destruct r as [secs|e] eqn:Hs
  end.
  - rewrite root_append_all_spec. cbn [snd children app].
    rewrite headings_of_cons, (renderHeaderT3_quiet _ _ Hh). cbn [app].
    steps Hs. apply Ok_inj in Hs. subst secs. intros Ht.
    apply in_somes_headings in Ht as (sec & Hin & Ht). which_section.
  - cbn [snd children]. rewrite headings_of_one, (renderHeaderT3_quiet _ _ Hh).
    contradiction.
Qed.

Lemma theme2_sections (d : value) (w : world) (t : jsstring) :
  In t (headings_of (children (snd (renderResumeTheme2 d w)))) -> announced d t.
Proof.
  unfold renderResumeTheme2, mbind, clear_root, lift, root_append.
  destruct (renderHeader d) as [h|e] eqn:Hh; [|contradiction].
  cbn [children requests className devNote app].
  match goal with
  | |- context [match ?r with Ok _ => _ | Throw _ => _ end] =>
      destruct r as [body|e] eqn:Hs
  end.
  - cbn [snd children app].
    rewrite !headings_of_cons, (renderHeader_quiet _ _ Hh). cbn [app headings_of flat_map].
    rewrite app_nil_r.
    cbn [make rbind] in Hs. steps Hs. apply Ok_inj in Hs. subst body.
    cbn [append app]. rewrite !headings_Elem. cbn [String.eqb Ascii.eqb Bool.eqb app].
    rewrite !headings_of_cons, !headings_Elem. cbn [String.eqb Ascii.eqb Bool.eqb app].
    cbn [headings_of flat_map]. rewrite !app_nil_r.
    fold (headings_of (somes [x])). fold (headings_of (somes [x0; x1; x2; x3])).
    rewrite in_app_iff.
    intros [Ht | Ht]; apply in_somes_headings in Ht as (sec & Hin & Ht); which_section.
  - cbn [snd children]. rewrite headings_of_one, (renderHeader_quiet _ _ Hh).
    contradiction.
Qed.

Lemma layout_sections (layout : value -> M unit) (d : value) (w : world)
      (t : jsstring) :
  In layout layouts ->
  In t (headings_of (children (snd (layout d w)))) -> announced d t.
Proof.
  intros [<- | [<- | [<- | []]]].
  - apply theme1_sections.
  - apply theme2_sections.
  - apply theme3_sections.
Qed.

Lemma announced_omits (d : value) (page : world) :
  (forall t, In t (headings_of (children page)) -> announced d t) ->
  omits_missing_sections d page.
Proof.
  intros H. unfold omits_missing_sections, has_section.
  repeat split; intros v Hv Hm Hin; apply H in Hin;
    destruct Hin as [[E X] | [[E X] | [[E X] | [[E X] | [E X]]]]];
    try (vm_compute in E; discriminate E);
    try (destruct X as (u & Hu & Ht); congruence);
    destruct X as (x & l & Hx); apply (Hm x l); congruence.
Qed.

Lemma renderResume_layout (urlParams : URLSearchParams) (d n : value)
      (c : jsstring) (w : world) :
  norm urlParams d = Ok n -> to_string n = Ok c ->
  exists layout,
    In layout layouts /\
    renderResume urlParams d w = layout d (with_class (lit "resume theme-" ++ c) w).
Proof.
  intros Hn Hc. rewrite (renderResume_dispatch urlParams d n c w Hn Hc).
  unfold layouts.
  destruct (strict_eq_lit n "t2"); [|destruct (strict_eq_lit n "t3")];
    eexists; (split; [|reflexivity]); simpl; tauto.
Qed.

Lemma renderResume_ok (urlParams : URLSearchParams) (d : value) (w : world) :
  fst (renderResume urlParams d w) = Ok tt ->
  exists n c, norm urlParams d = Ok n /\ to_string n = Ok c.
Proof.
  unfold renderResume, mbind, lift.
  destruct (norm urlParams d) as [n|e]; [|discriminate].
  destruct (to_string n) as [c|e] eqn:Hc; [|discriminate].
  intros _. exists n, c. split; [reflexivity | exact Hc].
Qed.

Lemma absent_or_empty_no_list (v : value) : absent_or_empty v -> holds_no_list v.
Proof. intros [-> | ->] x l; discriminate. Qed.

(** C7, as stated, fails for the summary: a summary that is an empty
    list is absent-or-empty in the claim's sense, but [[]] is truthy, so
    [renderSummary] builds the section: the page shows the heading
    "Professional summary" over an empty body. *)
Lemma C7_counterexample_empty_list_summary :
  let d := VObj [(lit "summary", VArr [])] in
  get d "summary" = Ok (VArr []) /\
  absent_or_empty (VArr []) /\
  renderSummary (VArr []) = Ok (Some empty_summary_section) /\
  fst (renderResume [] d blank) = Ok tt /\
  has_section "Professional summary" (snd (renderResume [] d blank)) /\
  (exists header,
     children (snd (renderResume [] d blank)) = [header; empty_summary_section]).
Proof.
  cbv zeta. split; [reflexivity|]. split; [now right|].
  split; [reflexivity|]. split; [reflexivity|].
  split; [vm_compute; tauto|]. eexists. reflexivity.
Qed.

(** C7 (amended): in each of the three layouts, and so in every page
    [renderResume] has rendered, a record whose summary is falsy
    (absent, [null] or the empty string) gets no "Professional summary"
    section, and a record whose skills, experience, education or
    certifications are absent, [null], an empty list or not a list at
    all gets no section of that title: no heading is made for them.
    This holds as soon as the layout has been entered, whether or not
    rendering then stops on an exception.  A summary that is an empty
    list is truthy and is rendered: the heading over an empty body. *)
Theorem C7_sections_without_data_are_omitted
  (urlParams : URLSearchParams) (d : value) (w : world) :
  (forall layout, In layout layouts ->
                  omits_missing_sections d (snd (layout d w))) /\
  (forall n c, norm urlParams d = Ok n -> to_string n = Ok c ->
               omits_missing_sections d (snd (renderResume urlParams d w))) /\
  (fst (renderResume urlParams d w) = Ok tt ->
   omits_missing_sections d (snd (renderResume urlParams d w))) /\
  (forall v, absent_or_empty v -> holds_no_list v) /\
  holds_no_list VNull /\
  truthy (VArr []) = true /\
  renderSummary (VArr []) = Ok (Some empty_summary_section).
Proof.
  assert (A : forall n c, norm urlParams d = Ok n -> to_string n = Ok c ->
                          omits_missing_sections d (snd (renderResume urlParams d w))).
  { intros n c Hn Hc.
    destruct (renderResume_layout urlParams d n c w Hn Hc) as (layout & Hl & ->).
    apply announced_omits. intros t. now apply layout_sections. }
  split; [|split; [|split; [|split; [|split; [|split]]]]].
  - intros layout Hl. apply announced_omits. intros t.
    now apply layout_sections.
  - exact A.
  - intros Hok. destruct (renderResume_ok urlParams d w Hok) as (n & c & Hn & Hc).
    exact (A n c Hn Hc).
  - exact absent_or_empty_no_list.
  - intros x l. discriminate.
  - reflexivity.
  - reflexivity.
Qed.

Lemma C7_witness_no_summary_empty_skills :
  let d := VObj [(lit "name", str "A"); (lit "skills", VArr []);
                 (lit "education", VNull);
                 (lit "experience", VArr [VObj [(lit "role", str "Dev")]])] in
  ~ has_section "Professional summary" (snd (renderResume [] d blank)) /\
  ~ has_section "Skills" (snd (renderResume [] d blank)) /\
  ~ has_section "Education" (snd (renderResume [] d blank)) /\
  has_section "Employment history" (snd (renderResume [] d blank)).
Proof.
  cbv zeta.
  pose proof (proj1 (proj2 (proj2 (C7_sections_without_data_are_omitted
                       []
                       (VObj [(lit "name", str "A"); (lit "skills", VArr []);
                              (lit "education", VNull);
                              (lit "experience", VArr [VObj [(lit "role", str "Dev")]])])
                       blank))) eq_refl) as (H1 & H2 & _ & H4 & _).
  split; [exact (H1 VUndef eq_refl eq_refl)|].
  split; [exact (H2 (VArr []) eq_refl ltac:(intros x l E; discriminate E))|].
  split; [exact (H4 VNull eq_refl ltac:(intros x l E; discriminate E))|].
  vm_compute. tauto.
Defined.

(* ================================================================== *)
(** ** Exceptions while rendering *)

(** C6, as stated, fails: with [resume.json] holding
    [{"name":"A","summary":"S","education":[null]}], rendering throws a
    TypeError on the [null] entry after the header has been appended.
    app.js catches it and shows the notice, but the header stays in the
    résumé container, without any of the sections.  part_000 has no
    [try]: the exception leaves [bootstrap] and the notice stays hidden. *)
Lemma C6_counterexample_header_stays_after_exception :
  let fetch := serve [(lit "resume.json",
                       litq "{'name':'A','summary':'S','education':[null]}")] in
  let data := VObj [(lit "name", str "A"); (lit "summary", str "S");
                    (lit "education", VArr [VNull])] in
  JSON_parse_int (litq "{'name':'A','summary':'S','education':[null]}") = Ok data /\
  fst (renderResume [] data blank) = Throw TypeError /\
  (exists header,
     renderHeader data = Ok header /\
     App.bootstrap fetch JSON_parse_int None [] blank
     = (Ok tt, World [lit "resume.json"] (lit "resume theme-t1") [header] (Some false)) /\
     Part000.bootstrap fetch JSON_parse_int None [] blank
     = (Throw TypeError,
        World [lit "resume.yaml"; lit "resume.yml"; lit "resume.json"]
          (lit "resume theme-t1") [header] (Some true))).
Proof.
  cbv zeta. split; [reflexivity|]. split; [reflexivity|].
  eexists. split; [reflexivity|]. split; reflexivity.
Qed.

(** C6 (amended): in app.js, [bootstrap] never raises; when rendering
    throws, the exception is caught and the notice, if the page has one,
    is shown, while the résumé container keeps what had been rendered up
    to the exception.  In part_000 the same exception leaves [bootstrap]
    and the notice is not touched. *)
Theorem C6_render_exception_shows_notice_keeps_page
  (fetch : jsstring -> result response)
  (JSON_parse : jsstring -> result value)
  (jsyaml : option (jsstring -> result value))
  (urlParams : URLSearchParams) (w : world) :
  (exists w', App.bootstrap fetch JSON_parse jsyaml urlParams w = (Ok tt, w')) /\
  (forall data w1 e w2,
     App.loadResumeData fetch JSON_parse jsyaml w = (Ok data, w1) ->
     truthy data = true ->
     renderResume urlParams data w1 = (Throw e, w2) ->
     App.bootstrap fetch JSON_parse jsyaml urlParams w = (Ok tt, notice_shown w2)) /\
  (forall data w1 e w2,
     Part000.loadResumeData fetch JSON_parse jsyaml w = (Ok data, w1) ->
     truthy data = true ->
     renderResume urlParams data w1 = (Throw e, w2) ->
     Part000.bootstrap fetch JSON_parse jsyaml urlParams w = (Throw e, w2)).
Proof.
  repeat split.
  - unfold App.bootstrap, App.loadResumeData, try_catch, mbind.
    rewrite loop_spec.
    destruct (truthy (first_outcome fetch JSON_parse jsyaml App.candidates)).
    + destruct (renderResume urlParams _ _) as [[[]|e] w2];
        unfold set_hidden_if_present; eauto.
    + unfold set_hidden_if_present; eauto.
  - intros data w1 e w2 Hl Ht Hr.
    unfold App.bootstrap, try_catch, mbind. rewrite Hl, Ht, Hr.
    unfold set_hidden_if_present, notice_shown. now destruct w2 as [? ? ? [|]].
  - intros data w1 e w2 Hl Ht Hr.
    unfold Part000.bootstrap, mbind. now rewrite Hl, Ht, Hr.
Qed.

Lemma C6_witness_null_education_entry :
  App.bootstrap
    (serve [(lit "resume.json", litq "{'education':[null]}")]) JSON_parse_int None []
    blank
  = (Ok tt,
     notice_shown
       (snd (renderResume [] (VObj [(lit "education", VArr [VNull])])
               (logged [lit "resume.json"] blank)))).
Proof.
  apply (proj1 (proj2 (C6_render_exception_shows_notice_keeps_page
                         (serve [(lit "resume.json", litq "{'education':[null]}")])
                         JSON_parse_int None [] blank))
           (VObj [(lit "education", VArr [VNull])])
           (logged [lit "resume.json"] blank) TypeError).
  - reflexivity.
  - reflexivity.
  - reflexivity.
Defined.

(* ================================================================== *)
(** ** The contact line *)

Lemma contacts_loop_next (i : nat) (bits : list node) :
  contacts_loop (S i) bits = Ok (flat_map (fun b => [dot; b]) bits).
Proof.
  revert i. induction bits as [|b bits IH]; intros i; [reflexivity|].
  cbn [contacts_loop]. rewrite IH. reflexivity.
Qed.

Lemma intersperse_cons (sep b : node) (bits : list node) :
  intersperse sep (b :: bits) = b :: flat_map (fun x => [sep; x]) bits.
Proof.
  revert b. induction bits as [|x bits IH]; intros b; [reflexivity|].
  change (intersperse sep (b :: x :: bits)) with (b :: sep :: intersperse sep (x :: bits)).
  now rewrite IH.
Qed.

Lemma contacts_loop_spec (bits : list node) :
  contacts_loop 0 bits = Ok (intersperse dot bits).
Proof.
  destruct bits as [|b bits]; [reflexivity|].
  cbn [contacts_loop]. rewrite contacts_loop_next, intersperse_cons. reflexivity.
Qed.


Lemma append_items_nodes (l : list node) : append_items (map INode l) = Ok l.
Proof.
  induction l as [|n l IH]; [reflexivity|].
  cbn [map append_items append_item rbind]. now rewrite IH.
Qed.

Lemma h1_total (o : option jsstring) :
  exists h, make "h1" None (Data (or_else (field o) (str "Your Name"))) = Ok h.
Proof. destruct o as [[|x s]|]; eexists; reflexivity. Qed.

Lemma title_total (o : option jsstring) :
  exists t,
    (if truthy (field o)
     then t <- make "div" (Some "title"%string) (Data (field o)) ;; Ok (Some t)
     else Ok None) = Ok t.
Proof. destruct o as [[|x s]|]; eexists; reflexivity. Qed.

Lemma location_entry (o : option jsstring) :
  (if truthy (field o)
   then sp <- make "span" (Some ""%string) (Data (field o)) ;; Ok [sp]
   else Ok [])
  = Ok match present o with
       | Some l => [Elem "span" [] [] [Html l]]
       | None => []
       end.
Proof. destruct o as [[|x s]|]; reflexivity. Qed.

Lemma phone_entry (o : option jsstring) (bits : list node) :
  (if truthy (field o)
   then
     p <- to_string (field o) ;;
     a <- linkify (VStr (lit "tel:" ++ strip_ws p)) (field o) ;;
     Ok (bits ++ opt_list a)
   else Ok bits)
  = Ok (bits ++ match present o with
                | Some p => [anchor (lit "tel:" ++ strip_ws p) p]
                | None => []
                end).
Proof.
  destruct o as [[|x s]|]; cbn [field truthy present]; try now rewrite app_nil_r.
  reflexivity.
Qed.

Lemma email_entry (o : option jsstring) (bits : list node) :
  (if truthy (field o)
   then
     e <- to_string (field o) ;;
     a <- linkify (VStr (lit "mailto:" ++ e)) (field o) ;;
     Ok (bits ++ opt_list a)
   else Ok bits)
  = Ok (bits ++ match present o with
                | Some e => [anchor (lit "mailto:" ++ e) e]
                | None => []
                end).
Proof.
  destruct o as [[|x s]|]; cbn [field truthy present]; try now rewrite app_nil_r.
  reflexivity.
Qed.

Lemma push_link_typed (v : value) (l : link) :
  is_link v l -> push_link v = Ok (link_entry l).
Proof.
  intros [Hu Hl]. unfold push_link, link_entry. rewrite Hu, Hl. cbn [rbind].
  destruct l as [[[|x s]|] [[|y t]|]]; reflexivity.
Qed.

Lemma links_typed (vs : list value) (ls : list link) :
  Forall2 is_link vs ls -> forEach push_link vs = Ok (flat_map link_entry ls).
Proof.
  induction 1 as [|v l vs ls H _ IH]; [reflexivity|].
  cbn [forEach flat_map]. now rewrite (push_link_typed v l H), IH.
Qed.

Lemma link_entry_not_dot (l : link) :
  Forall (fun n => is_dot n = false) (link_entry l).
Proof.
  unfold link_entry. destruct (present (url l)); repeat constructor.
Qed.

Lemma contact_entries_not_dot (c : contact) :
  Forall (fun n => is_dot n = false) (contact_entries c).
Proof.
  unfold contact_entries. rewrite !Forall_app. repeat split.
  - destruct (present (location c)); repeat constructor.
  - destruct (present (phone c)); repeat constructor.
  - destruct (present (email c)); repeat constructor.
  - destruct (links c) as [ls|]; [|constructor].
    induction ls as [|l ls IH]; [constructor|].
    cbn [flat_map]. apply Forall_app. split; [apply link_entry_not_dot | exact IH].
Qed.

Lemma renderHeader_typed (d : value) (c : contact) :
  is_contact d c ->
  exists who deco,
    renderHeader d
    = Ok (Elem "div" (lit "hdr") []
            [who;
             Elem "div" (lit "contacts-line") [] (intersperse dot (contact_entries c));
             deco]).
Proof.
  intros (Hn & Ht & Hl & Hp & He & Hk). unfold renderHeader.
  rewrite Hn, Ht, Hl, Hp, He. cbn [rbind].
  destruct (h1_total (name c)) as [h1 ->]. cbn [rbind].
  destruct (title_total (title c)) as [t ->]. cbn [rbind].
  unfold make at 1. rewrite append_items_nodes. cbn [rbind].
  cbn [make rbind]. rewrite location_entry. cbn [rbind].
  rewrite phone_entry. cbn [rbind]. rewrite email_entry. cbn [rbind].
  unfold contact_entries. destruct (links c) as [ls|].
  - destruct Hk as (vs & -> & Hls). cbn [rbind].
    rewrite (links_typed vs ls Hls). cbn [rbind].
    rewrite contacts_loop_spec. cbn [rbind append_items append_item append app].
    rewrite <- !app_assoc. do 2 eexists. reflexivity.
  - rewrite Hk. cbn [rbind].
    rewrite contacts_loop_spec. cbn [rbind append_items append_item append app].
    rewrite <- !app_assoc, !app_nil_r. do 2 eexists. reflexivity.
Qed.





















(* ================================================================== *)
(** ** More about the loader *)

Section LoaderMore.
Variable fetch : jsstring -> result response.
Variable JSON_parse : jsstring -> result value.
Variable jsyaml : option (jsstring -> result value).

Lemma attempted_prefix (cands : list jsstring) :
  prefix (attempted fetch JSON_parse jsyaml cands) cands.
Proof.
  induction cands as [|p rest [tl IH]]; [now exists []|].
  cbn [attempted]. destruct (outcome fetch JSON_parse jsyaml p).
  - now exists rest.
  - exists tl. cbn [app]. now rewrite <- IH.
Qed.

Lemma attempted_failed (cands : list jsstring) (q : jsstring) :
  In q (removelast (attempted fetch JSON_parse jsyaml cands)) ->
  outcome fetch JSON_parse jsyaml q = None.
Proof.
  induction cands as [|p rest IH]; [contradiction|].
  cbn [attempted]. destruct (outcome fetch JSON_parse jsyaml p) eqn:Hp.
  - contradiction.
  - destruct (attempted fetch JSON_parse jsyaml rest) as [|a tl] eqn:E.
    + contradiction.
    + change (removelast (p :: a :: tl)) with (p :: removelast (a :: tl)).
      intros [<- | H]; [exact Hp | now apply IH].
Qed.

Lemma prefix_length (l1 l2 : list jsstring) :
  prefix l1 l2 -> (List.length l1 <= List.length l2)%nat.
Proof. intros [rest ->]. rewrite length_app. lia. Qed.
End LoaderMore.

(** X1: whatever the servers answer, the loader asks for candidates in
    list order, each at most once, and stops asking at the first one
    that yields a result: the paths it requests are a beginning of the
    candidate list, and every requested path but the last has failed.
    It changes nothing on the page. *)
Theorem X1_loader_requests_a_prefix_and_leaves_the_page
  (fetch : jsstring -> result response)
  (JSON_parse : jsstring -> result value)
  (jsyaml : option (jsstring -> result value))
  (cands : list jsstring) (w : world) :
  let w' := snd (App.loop fetch JSON_parse jsyaml cands w) in
  (exists asked,
     requests w' = requests w ++ asked /\
     prefix asked cands /\
     (List.length asked <= List.length cands)%nat /\
     forall q, In q (removelast asked) -> fails fetch JSON_parse jsyaml q) /\
  className w' = className w /\
  children w' = children w /\
  devNote w' = devNote w.
Proof.
  cbv zeta. rewrite loop_spec. cbn [snd logged requests className children devNote].
  repeat split.
  exists (attempted fetch JSON_parse jsyaml cands). repeat split.
  - apply attempted_prefix.
  - apply prefix_length, attempted_prefix.
  - intros q Hq. apply fails_outcome. now apply attempted_failed in Hq.
Qed.

(** X2: a candidate whose name ends in [.json] is parsed by [JSON.parse]
    alone, on the text as it came: the loader returns what [JSON.parse]
    returns, whatever it is, and skips the candidate when [JSON.parse]
    throws; js-yaml is never tried on it. *)
Theorem X2_json_candidate_is_parsed_by_JSON_parse_alone
  (fetch : jsstring -> result response)
  (JSON_parse : jsstring -> result value)
  (jsyaml : option (jsstring -> result value))
  (p t : jsstring) (res : response) :
  endsWith p (lit ".json") = true ->
  fetch p = Ok res -> ok res = true -> res_text res = Ok t ->
  outcome fetch JSON_parse jsyaml p
  = match JSON_parse t with Ok v => Some v | Throw _ => None end.
Proof.
  intros He Hf Hok Ht. unfold outcome, App.parse_file.
  rewrite Hf, Hok, Ht, He. cbn [text]. now destruct (JSON_parse t).
Qed.

Lemma X2_witness_malformed_json_not_sent_to_yaml :
  outcome (serve [(lit "resume.json", lit "name: A")]) JSON_parse_int
    (Some (fun _ => Ok (VObj [(lit "name", str "A")]))) (lit "resume.json")
  = None.
Proof.
  apply (X2_json_candidate_is_parsed_by_JSON_parse_alone
           (serve [(lit "resume.json", lit "name: A")]) JSON_parse_int
           (Some (fun _ => Ok (VObj [(lit "name", str "A")])))
           (lit "resume.json") (lit "name: A") (Response 200 (Ok (lit "name: A"))));
    reflexivity.
Defined.

(** X3: at a candidate with another extension, a text that starts with a
    brace or a bracket once trimmed is JSON or nothing: when [JSON.parse]
    throws on it the candidate is skipped, js-yaml loaded or not.  A YAML
    flow mapping such as [{name: A}] is therefore never read. *)
Theorem X3_brace_text_is_never_handed_to_yaml
  (fetch : jsstring -> result response)
  (JSON_parse : jsstring -> result value)
  (jsyaml : option (jsstring -> result value))
  (p t : jsstring) (res : response) (e : exn) :
  endsWith p (lit ".json") = false ->
  fetch p = Ok res -> ok res = true -> res_text res = Ok t ->
  looks_like_json t = true -> JSON_parse (trim t) = Throw e ->
  fails fetch JSON_parse jsyaml p.
Proof.
  intros He Hf Hok Ht Hl Hp.
  apply (parse_error fetch JSON_parse jsyaml p res t e Hf Hok Ht).
  unfold App.parse_file, App.parseMaybeJSON. rewrite He. cbv zeta. cbn [text].
  unfold looks_like_json in Hl. now rewrite Hl, Hp.
Qed.

Lemma X3_witness_yaml_flow_mapping :
  fails (serve [(lit "resume.yaml", lit "{name: A}")]) JSON_parse_int
    (Some (fun _ => Ok (VObj [(lit "name", str "A")]))) (lit "resume.yaml").
Proof.
  apply (X3_brace_text_is_never_handed_to_yaml
           (serve [(lit "resume.yaml", lit "{name: A}")]) JSON_parse_int
           (Some (fun _ => Ok (VObj [(lit "name", str "A")])))
           (lit "resume.yaml") (lit "{name: A}")
           (Response 200 (Ok (lit "{name: A}"))) SyntaxError);
    reflexivity.
Defined.

(** X4: at a candidate with another extension, a text that does not start
    with a brace or a bracket is handed, untrimmed, to js-yaml when it is
    on the page: the loader returns whatever [load] returns, be it
    [null] or [undefined], and skips the candidate when [load] throws;
    without js-yaml the candidate is skipped. *)
Theorem X4_other_text_goes_to_yaml
  (fetch : jsstring -> result response)
  (JSON_parse : jsstring -> result value)
  (jsyaml : option (jsstring -> result value))
  (p t : jsstring) (res : response) :
  endsWith p (lit ".json") = false ->
  fetch p = Ok res -> ok res = true -> res_text res = Ok t ->
  looks_like_json t = false ->
  outcome fetch JSON_parse jsyaml p
  = match jsyaml with
    | Some load => match load t with Ok y => Some y | Throw _ => None end
    | None => None
    end.
Proof.
  intros He Hf Hok Ht Hl. unfold outcome, App.parse_file, App.parseMaybeJSON.
  rewrite Hf, Hok, Ht, He. cbv zeta. cbn [text].
  unfold looks_like_json in Hl. rewrite Hl. cbn [rbind truthy].
  destruct jsyaml as [load|]; [|reflexivity]. now destruct (load t).
Qed.

Lemma X4_witness_empty_yaml_document :
  App.loadResumeData
    (serve [(lit "resume.yaml", lit "# nothing yet");
            (lit "resume.yml", lit "name: A")])
    JSON_parse_int (Some (fun _ => Ok VUndef)) blank
  = (Ok VUndef,
     logged [lit "resume.json"; lit "/resume.json"; lit "resume.yaml"] blank).
Proof.
  pose proof (X4_other_text_goes_to_yaml
                (serve [(lit "resume.yaml", lit "# nothing yet");
                        (lit "resume.yml", lit "name: A")])
                JSON_parse_int (Some (fun _ => Ok VUndef))
                (lit "resume.yaml") (lit "# nothing yet")
                (Response 200 (Ok (lit "# nothing yet")))
                eq_refl eq_refl eq_refl eq_refl eq_refl) as H.
  unfold App.loadResumeData. rewrite loop_spec.
  unfold App.candidates. cbn [first_outcome attempted].
  rewrite H. reflexivity.
Defined.

Lemma trimStart_ws (a s : jsstring) :
  Forall (fun c => is_ws c = true) a -> trimStart (a ++ s) = trimStart s.
Proof.
  induction 1 as [|c a Hc _ IH]; [reflexivity|].
  cbn [app trimStart]. now rewrite Hc.
Qed.

Lemma trimStart_app (s b : jsstring) :
  trimStart s <> [] -> trimStart (s ++ b) = trimStart s ++ b.
Proof.
  induction s as [|c s IH]; [contradiction|].
  cbn [app trimStart]. destruct (is_ws c); [exact IH | reflexivity].
Qed.

Lemma trimStart_all_ws (s : jsstring) :
  trimStart s = [] -> Forall (fun c => is_ws c = true) s.
Proof.
  induction s as [|c s IH]; [constructor|].
  cbn [trimStart]. destruct (is_ws c) eqn:E; [|discriminate].
  intros H. constructor; auto.
Qed.

Lemma trim_ws_around (a t b : jsstring) :
  Forall (fun c => is_ws c = true) a -> Forall (fun c => is_ws c = true) b ->
  trim (a ++ t ++ b) = trim t.
Proof.
  intros Ha Hb. unfold trim. f_equal. rewrite (trimStart_ws a _ Ha).
  assert (Hrb : Forall (fun c => is_ws c = true) (rev b)).
  { apply Forall_forall. intros c Hc. apply in_rev in Hc.
    rewrite Forall_forall in Hb. now apply Hb. }
  destruct (trimStart t) as [|c s] eqn:E.
  - apply trimStart_all_ws in E.
    rewrite <- (app_nil_r (t ++ b)), trimStart_ws; [reflexivity|].
    apply Forall_app. now split.
  - rewrite trimStart_app by (rewrite E; discriminate).
    rewrite E, rev_app_distr. now apply trimStart_ws.
Qed.

(** X5: whitespace around the text never matters to [parseMaybeJSON]:
    spaces, tabs, line ends and the other characters [trim] strips may
    be put before and after a text without changing what it parses to,
    or whether it is taken for JSON at all. *)
Theorem X5_parseMaybeJSON_ignores_surrounding_whitespace
  (JSON_parse : jsstring -> result value) (a t b : jsstring) :
  Forall (fun c => is_ws c = true) a -> Forall (fun c => is_ws c = true) b ->
  App.parseMaybeJSON JSON_parse (a ++ t ++ b) = App.parseMaybeJSON JSON_parse t /\
  Part000.parseMaybeJSON JSON_parse (a ++ t ++ b) = Part000.parseMaybeJSON JSON_parse t /\
  looks_like_json (a ++ t ++ b) = looks_like_json t.
Proof.
  intros Ha Hb.
  unfold App.parseMaybeJSON, Part000.parseMaybeJSON, looks_like_json. cbv zeta.
  now rewrite (trim_ws_around a t b Ha Hb).
Qed.

Lemma X5_witness_padded_object :
  App.parseMaybeJSON JSON_parse_int
    ([10; 9; 32]%N ++ litq "{'name':'A'}" ++ [32; 160; 10]%N)
  = Ok (VObj [(lit "name", str "A")]).
Proof.
  rewrite (proj1 (X5_parseMaybeJSON_ignores_surrounding_whitespace
                    JSON_parse_int [10; 9; 32]%N (litq "{'name':'A'}") [32; 160; 10]%N
                    ltac:(repeat constructor) ltac:(repeat constructor))).
  reflexivity.
Defined.

(** X6: app.js prefers JSON, part_000 prefers YAML.  In app.js, as soon
    as [resume.json] yields a result it is returned after a single
    request, whatever else is on the server; in part_000 the same holds
    for [resume.yaml], and [resume.json] is only asked for after both
    YAML names have failed. *)
Theorem X6_each_copy_has_its_preferred_file
  (fetch : jsstring -> result response)
  (JSON_parse : jsstring -> result value)
  (jsyaml : option (jsstring -> result value))
  (v : value) (w : world) :
  (yields fetch JSON_parse jsyaml (lit "resume.json") v ->
   App.loadResumeData fetch JSON_parse jsyaml w
   = (Ok v, logged [lit "resume.json"] w)) /\
  (yields fetch JSON_parse jsyaml (lit "resume.yaml") v ->
   Part000.loadResumeData fetch JSON_parse jsyaml w
   = (Ok v, logged [lit "resume.yaml"] w)) /\
  (In (lit "resume.json") (attempted fetch JSON_parse jsyaml Part000.candidates) ->
   fails fetch JSON_parse jsyaml (lit "resume.yaml") /\
   fails fetch JSON_parse jsyaml (lit "resume.yml")).
Proof.
  unfold App.loadResumeData, Part000.loadResumeData.
  change (Part000.loop fetch JSON_parse jsyaml) with (App.loop fetch JSON_parse jsyaml).
  rewrite !loop_spec.
  unfold App.candidates, Part000.candidates. cbn [first_outcome attempted].
  repeat split.
  - intros H. apply yields_outcome in H. now rewrite H.
  - intros H. apply yields_outcome in H. now rewrite H.
  - revert H.
    destruct (outcome fetch JSON_parse jsyaml (lit "resume.yaml")) eqn:E.
    + intros [H | []]. vm_compute in H. discriminate H.
    + intros _. now apply fails_outcome.
  - revert H.
    destruct (outcome fetch JSON_parse jsyaml (lit "resume.yaml")) eqn:E.
    + intros [H | []]. vm_compute in H. discriminate H.
    + destruct (outcome fetch JSON_parse jsyaml (lit "resume.yml")) eqn:E2.
      * intros [H | [H | []]]; vm_compute in H; discriminate H.
      * intros _. now apply fails_outcome.
Qed.

Lemma X6_witness_both_formats_served :
  App.loadResumeData
    (serve [(lit "resume.yaml", litq "{'name':'B'}");
            (lit "resume.json", litq "{'name':'A'}")]) JSON_parse_int None blank
  = (Ok (VObj [(lit "name", str "A")]), logged [lit "resume.json"] blank).
Proof.
  apply (proj1 (X6_each_copy_has_its_preferred_file
                  (serve [(lit "resume.yaml", litq "{'name':'B'}");
                          (lit "resume.json", litq "{'name':'A'}")])
                  JSON_parse_int None (VObj [(lit "name", str "A")]) blank)).
  exists (Response 200 (Ok (litq "{'name':'A'}"))), (litq "{'name':'A'}").
  repeat split.
Defined.

(* ================================================================== *)
(** ** What rendering touches *)

(** A layout answers and builds the same whatever page it starts from,
    and leaves the request log, the class and the notice alone. *)
Lemma theme1_shape (d : value) :
  exists r kids, forall w,
    renderResumeTheme1 d w = (r, World (requests w) (className w) kids (devNote w)).
Proof.
  unfold renderResumeTheme1, mbind, clear_root, lift, root_append.
  destruct (renderHeader d) as [h|e]; [|now exists (Throw e), []].
  match goal with
  | |- context [match ?r with Ok _ => _ | Throw _ => _ end] =>
      destruct r as [secs|e]
  end.
  - exists (Ok tt), ([h] ++ secs). intros w. now rewrite root_append_all_spec.
  - now exists (Throw e), [h].
Qed.

Lemma theme3_shape (d : value) :
  exists r kids, forall w,
    renderResumeTheme3 d w = (r, World (requests w) (className w) kids (devNote w)).
Proof.
  unfold renderResumeTheme3, mbind, clear_root, lift, root_append.
  destruct (renderHeaderT3 d) as [h|e]; [|now exists (Throw e), []].
  match goal with
  | |- context [match ?r with Ok _ => _ | Throw _ => _ end] =>
      destruct r as [secs|e]
  end.
  - exists (Ok tt), ([h] ++ secs). intros w. now rewrite root_append_all_spec.
  - now exists (Throw e), [h].
Qed.

Lemma theme2_shape (d : value) :
  exists r kids, forall w,
    renderResumeTheme2 d w = (r, World (requests w) (className w) kids (devNote w)).
Proof.
  unfold renderResumeTheme2, mbind, clear_root, lift, root_append.
  destruct (renderHeader d) as [h|e]; [|now exists (Throw e), []].
  match goal with
  | |- context [match ?r with Ok _ => _ | Throw _ => _ end] =>
      destruct r as [body|e]
  end.
  - now exists (Ok tt), [h; body].
  - now exists (Throw e), [h].
Qed.

Lemma layout_shape (layout : value -> M unit) (d : value) :
  In layout layouts ->
  exists r kids, forall w,
    layout d w = (r, World (requests w) (className w) kids (devNote w)).
Proof.
  intros [<- | [<- | [<- | []]]].
  - apply theme1_shape.
  - apply theme2_shape.
  - apply theme3_shape.
Qed.

Lemma norm_total (urlParams : URLSearchParams) (d : value) :
  exists n, norm urlParams d = Ok n /\ truthy n = true.
Proof.
  unfold norm, th.
  assert (E : exists own, (if truthy d then get d "theme" else Ok d) = Ok own).
  { destruct d; cbn [truthy get]; try destruct b; try destruct (negb _);
      try destruct s; eauto. }
  destruct E as [own ->]. cbn [rbind]. eexists. split; [reflexivity|].
  unfold or_else.
  destruct (truthy own) eqn:H1; rewrite ?H1; cbn [negb]; [exact H1|].
  destruct (truthy (params_get urlParams (lit "theme"))) eqn:H2;
    rewrite ?H2; cbn [negb]; [exact H2 | reflexivity].
Qed.

Lemma renderResume_shape (urlParams : URLSearchParams) (d : value) :
  (exists e, forall w, renderResume urlParams d w = (Throw e, w)) \/
  (exists r c kids, forall w,
     renderResume urlParams d w = (r, World (requests w) c kids (devNote w))).
Proof.
  destruct (norm_total urlParams d) as (n & Hn & _).
  destruct (to_string n) as [c|e] eqn:Hc.
  - right.
    destruct (renderResume_layout urlParams d n c (World [] [] [] None) Hn Hc)
      as (layout & Hl & _).
    assert (E : forall w, renderResume urlParams d w
                          = (if strict_eq_lit n "t2" then renderResumeTheme2 d
                             else if strict_eq_lit n "t3" then renderResumeTheme3 d
                             else renderResumeTheme1 d)
                              (with_class (lit "resume theme-" ++ c) w)).
    { intros w. now apply renderResume_dispatch. }
    assert (S : exists r kids, forall w,
               (if strict_eq_lit n "t2" then renderResumeTheme2 d
                else if strict_eq_lit n "t3" then renderResumeTheme3 d
                else renderResumeTheme1 d) w
               = (r, World (requests w) (className w) kids (devNote w))).
    { destruct (strict_eq_lit n "t2"); [apply theme2_shape|].
      destruct (strict_eq_lit n "t3"); [apply theme3_shape | apply theme1_shape]. }
    destruct S as (r & kids & S).
    exists r, (lit "resume theme-" ++ c), kids. intros w. now rewrite E, S.
  - left. exists e. intros w. unfold renderResume, mbind, lift. now rewrite Hn, Hc.
Qed.

(** X7: rendering never asks the network for anything and never touches
    the notice; and rendering the same record a second time gives the
    same answer and leaves the page as the first time. *)
Theorem X7_rendering_keeps_log_and_notice_and_is_idempotent
  (urlParams : URLSearchParams) (d : value) (w : world) :
  let w1 := snd (renderResume urlParams d w) in
  requests w1 = requests w /\
  devNote w1 = devNote w /\
  renderResume urlParams d w1 = renderResume urlParams d w.
Proof.
  cbv zeta.
  destruct (renderResume_shape urlParams d) as [(e & H) | (r & c & kids & H)].
  - rewrite (H w). cbn [snd]. now rewrite (H w).
  - rewrite (H w). cbn [snd requests devNote]. now rewrite (H _).
Qed.

(** X8: a layout replaces the contents of the container: what the
    container holds after a layout has run, and whether the layout threw,
    depends on the record only, not on what the container held before;
    the class is left as it was set. *)
Theorem X8_layout_replaces_the_container
  (layout : value -> M unit) (d : value) (w1 w2 : world) :
  In layout layouts ->
  fst (layout d w1) = fst (layout d w2) /\
  children (snd (layout d w1)) = children (snd (layout d w2)) /\
  className (snd (layout d w1)) = className w1.
Proof.
  intros Hl. destruct (layout_shape layout d Hl) as (r & kids & H).
  now rewrite (H w1), (H w2).
Qed.

Lemma X8_witness_second_record_replaces_first :
  children (snd (renderResumeTheme1 (VObj [(lit "name", str "B")])
                   (snd (renderResumeTheme1
                           (VObj [(lit "name", str "A"); (lit "summary", str "S")]) blank))))
  = children (snd (renderResumeTheme1 (VObj [(lit "name", str "B")]) blank)).
Proof.
  apply (X8_layout_replaces_the_container renderResumeTheme1
           (VObj [(lit "name", str "B")])
           (snd (renderResumeTheme1
                   (VObj [(lit "name", str "A"); (lit "summary", str "S")]) blank))
           blank).
  now left.
Defined.

(* ================================================================== *)
(** ** Bootstrap, end to end *)

Lemma renderResume_frame (urlParams : URLSearchParams) (d : value) (w : world) :
  requests (snd (renderResume urlParams d w)) = requests w /\
  devNote (snd (renderResume urlParams d w)) = devNote w.
Proof.
  destruct (renderResume_shape urlParams d) as [(e & H) | (r & c & kids & H)];
    now rewrite (H w).
Qed.

Lemma loop_all_fail
  (fetch : jsstring -> result response)
  (JSON_parse : jsstring -> result value)
  (jsyaml : option (jsstring -> result value))
  (cands : list jsstring) (w : world) :
  Forall (fails fetch JSON_parse jsyaml) cands ->
  App.loop fetch JSON_parse jsyaml cands w = (Ok VNull, logged cands w).
Proof.
  intros H.
  assert (Hn : Forall (fun q => outcome fetch JSON_parse jsyaml q = None) cands).
  { eapply Forall_impl; [|exact H]. intros q Hq. now apply fails_outcome. }
  rewrite loop_spec.
  destruct (first_outcome_skip fetch JSON_parse jsyaml cands [] Hn) as [E1 E2].
  rewrite app_nil_r in E1, E2. now rewrite E1, E2, app_nil_r.
Qed.

(** X9: when every candidate has failed, [bootstrap] in app.js has
    requested all six paths, rendered nothing (the container and its
    class are as before) and shown the notice; part_000 does the same
    with its three paths on a page that has the notice element. *)
Theorem X9_no_data_shows_the_notice_and_renders_nothing
  (fetch : jsstring -> result response)
  (JSON_parse : jsstring -> result value)
  (jsyaml : option (jsstring -> result value))
  (urlParams : URLSearchParams) (w : world) :
  (Forall (fails fetch JSON_parse jsyaml) App.candidates ->
   App.bootstrap fetch JSON_parse jsyaml urlParams w
   = (Ok tt, notice_shown (logged App.candidates w))) /\
  (Forall (fails fetch JSON_parse jsyaml) Part000.candidates ->
   devNote w <> None ->
   Part000.bootstrap fetch JSON_parse jsyaml urlParams w
   = (Ok tt, notice_shown (logged Part000.candidates w))).
Proof.
  split.
  - intros H. unfold App.bootstrap, App.loadResumeData, try_catch, mbind.
    rewrite (loop_all_fail _ _ _ _ w H). cbn [truthy].
    unfold set_hidden_if_present, notice_shown, logged.
    cbn [requests className children devNote]. now destruct (devNote w).
  - intros H Hn. unfold Part000.bootstrap, Part000.loadResumeData, mbind.
    change (Part000.loop fetch JSON_parse jsyaml) with (App.loop fetch JSON_parse jsyaml).
    rewrite (loop_all_fail _ _ _ _ w H). cbn [truthy].
    unfold set_hidden, notice_shown, logged.
    cbn [requests className children devNote].
    destruct (devNote w); [reflexivity | contradiction].
Qed.

Lemma X9_witness_empty_server :
  App.bootstrap (serve []) JSON_parse_int None [] blank
  = (Ok tt, notice_shown (logged App.candidates blank)).
Proof.
  apply (proj1 (X9_no_data_shows_the_notice_and_renders_nothing
                  (serve []) JSON_parse_int None [] blank)).
  repeat constructor;
    apply (non_success (serve []) JSON_parse_int None _
             (Response 404 (Ok (lit "Not Found")))); reflexivity.
Defined.

(** X10: a document that parses to something falsy ([null], [0],
    [false], the empty string) counts as no data: when [resume.json]
    yields such a value, app.js asks for no other candidate, renders
    nothing and shows the notice. *)
Theorem X10_falsy_document_counts_as_no_data
  (fetch : jsstring -> result response)
  (JSON_parse : jsstring -> result value)
  (jsyaml : option (jsstring -> result value))
  (urlParams : URLSearchParams) (v : value) (w : world) :
  yields fetch JSON_parse jsyaml (lit "resume.json") v -> truthy v = false ->
  App.bootstrap fetch JSON_parse jsyaml urlParams w
  = (Ok tt, notice_shown (logged [lit "resume.json"] w)).
Proof.
  intros Hy Hv. apply yields_outcome in Hy.
  unfold App.bootstrap, App.loadResumeData, try_catch, mbind.
  rewrite loop_spec. unfold App.candidates. cbn [first_outcome attempted].
  rewrite Hy, Hv.
  unfold set_hidden_if_present, notice_shown, logged.
  cbn [requests className children devNote]. now destruct (devNote w).
Qed.

Lemma X10_witness_zero_document :
  App.bootstrap
    (serve [(lit "resume.json", lit "0"); (lit "resume.yaml", litq "{'name':'A'}")])
    JSON_parse_int None [] blank
  = (Ok tt, notice_shown (logged [lit "resume.json"] blank)).
Proof.
  apply (X10_falsy_document_counts_as_no_data
           (serve [(lit "resume.json", lit "0"); (lit "resume.yaml", litq "{'name':'A'}")])
           JSON_parse_int None [] (VNum 0) blank).
  - exists (Response 200 (Ok (lit "0"))), (lit "0"). repeat split.
  - reflexivity.
Defined.

(** X11: on a page that has the notice element, app.js leaves the notice
    hidden exactly when a truthy document was loaded and rendered without
    an exception, and shown in every other case; the requests made are
    those of the loader, and [bootstrap] itself never raises. *)
Theorem X11_notice_is_hidden_exactly_after_a_successful_render
  (fetch : jsstring -> result response)
  (JSON_parse : jsstring -> result value)
  (jsyaml : option (jsstring -> result value))
  (urlParams : URLSearchParams) (w : world) (b : bool) :
  devNote w = Some b ->
  let data := first_outcome fetch JSON_parse jsyaml App.candidates in
  let asked := attempted fetch JSON_parse jsyaml App.candidates in
  let rendered := succeeded (fst (renderResume urlParams data (logged asked w))) in
  fst (App.bootstrap fetch JSON_parse jsyaml urlParams w) = Ok tt /\
  devNote (snd (App.bootstrap fetch JSON_parse jsyaml urlParams w))
  = Some (truthy data && rendered) /\
  requests (snd (App.bootstrap fetch JSON_parse jsyaml urlParams w))
  = requests w ++ asked.
Proof.
  intros Hb. cbv zeta.
  unfold App.bootstrap, App.loadResumeData, try_catch, mbind.
  rewrite loop_spec.
  destruct (truthy (first_outcome fetch JSON_parse jsyaml App.candidates)).
  - pose proof (renderResume_frame urlParams
                  (first_outcome fetch JSON_parse jsyaml App.candidates)
                  (logged (attempted fetch JSON_parse jsyaml App.candidates) w))
      as [Fr Fd].
    destruct (renderResume urlParams _ _) as [[[]|e] w2];
      cbn [fst snd succeeded andb] in *;
      unfold set_hidden_if_present; rewrite Fd;
      cbn [logged devNote]; rewrite Hb; cbn [fst snd devNote requests];
      rewrite Fr; repeat split.
  - unfold set_hidden_if_present. cbn [logged devNote]. rewrite Hb.
    repeat split.
Qed.

Lemma X11_witness_rendered_record :
  devNote (snd (App.bootstrap
                  (serve [(lit "resume.json", litq "{'name':'A'}")])
                  JSON_parse_int None [] (World [] [] [] (Some false))))
  = Some true.
Proof.
  exact (proj1 (proj2 (X11_notice_is_hidden_exactly_after_a_successful_render
                         (serve [(lit "resume.json", litq "{'name':'A'}")])
                         JSON_parse_int None [] (World [] [] [] (Some false)) false
                         eq_refl))).
Defined.

(** X12: part_000 needs the notice element, app.js does not.  On a page
    without [#dev-note], [bootstrap] of part_000 always ends in an
    exception, even after the résumé has been rendered, because it sets
    [devNote.hidden] unguarded; app.js ends normally and the page still
    has no notice. *)
Theorem X12_part000_needs_the_notice_element
  (fetch : jsstring -> result response)
  (JSON_parse : jsstring -> result value)
  (jsyaml : option (jsstring -> result value))
  (urlParams : URLSearchParams) (w : world) :
  devNote w = None ->
  (exists e, fst (Part000.bootstrap fetch JSON_parse jsyaml urlParams w) = Throw e) /\
  fst (App.bootstrap fetch JSON_parse jsyaml urlParams w) = Ok tt /\
  devNote (snd (App.bootstrap fetch JSON_parse jsyaml urlParams w)) = None.
Proof.
  intros Hn. split.
  - unfold Part000.bootstrap, Part000.loadResumeData, mbind.
    change (Part000.loop fetch JSON_parse jsyaml) with (App.loop fetch JSON_parse jsyaml).
    rewrite loop_spec.
    destruct (truthy (first_outcome fetch JSON_parse jsyaml Part000.candidates)).
    + pose proof (renderResume_frame urlParams
                    (first_outcome fetch JSON_parse jsyaml Part000.candidates)
                    (logged (attempted fetch JSON_parse jsyaml Part000.candidates) w))
        as [_ Fd].
      destruct (renderResume urlParams _ _) as [[[]|e] w2]; cbn [fst snd] in *.
      * unfold set_hidden. rewrite Fd. cbn [logged devNote]. rewrite Hn.
        now exists TypeError.
      * now exists e.
    + unfold set_hidden. cbn [logged devNote]. rewrite Hn. now exists TypeError.
  - unfold App.bootstrap, App.loadResumeData, try_catch, mbind.
    rewrite loop_spec.
    destruct (truthy (first_outcome fetch JSON_parse jsyaml App.candidates)).
    + pose proof (renderResume_frame urlParams
                    (first_outcome fetch JSON_parse jsyaml App.candidates)
                    (logged (attempted fetch JSON_parse jsyaml App.candidates) w))
        as [_ Fd].
      destruct (renderResume urlParams _ _) as [[[]|e] w2]; cbn [fst snd] in *;
        unfold set_hidden_if_present; rewrite Fd; cbn [logged devNote];
        rewrite Hn; cbn [fst snd]; now rewrite Fd.
    + unfold set_hidden_if_present. cbn [logged devNote]. rewrite Hn.
      cbn [fst snd logged devNote]. auto.
Qed.

Lemma X12_witness_page_without_notice :
  exists e,
    fst (Part000.bootstrap
           (serve [(lit "resume.json", litq "{'name':'A'}")])
           JSON_parse_int None [] (World [] [] [] None)) = Throw e.
Proof.
  exact (proj1 (X12_part000_needs_the_notice_element
                  (serve [(lit "resume.json", litq "{'name':'A'}")])
                  JSON_parse_int None [] (World [] [] [] None) eq_refl)).
Defined.

(* ================================================================== *)
(** ** Which sections a page shows, and in which order *)

Lemma somes_cons {A} (o : option A) (l : list (option A)) :
  somes (o :: l) = somes [o] ++ somes l.
Proof. now destruct o. Qed.

Lemma list_section_title (d : value) (k T : string)
      (render : value -> result (option node)) (o : option node) :
  (forall v o, render v = Ok o -> titled T v o) ->
  (forall x l, render (VArr (x :: l)) <> Ok None) ->
  rbind (get d k) render = Ok o ->
  headings_of (somes [o]) = title_if (has_list d k) T.
Proof.
  intros Ht Hs H. apply rbind_inv in H as (v & Hv & H).
  unfold has_list. rewrite Hv. destruct o as [sec|].
  - destruct (Ht _ _ H) as [E (x & l & ->)].
    cbn [somes]. now rewrite headings_of_one, E.
  - destruct v as [| | | | |[|x l]|]; try reflexivity.
    now apply Hs in H.
Qed.

Lemma summary_title (d : value) (o : option node) :
  rbind (get d "summary") renderSummary = Ok o ->
  headings_of (somes [o]) = title_if (has_text d "summary") "Professional summary".
Proof.
  intros H. apply rbind_inv in H as (v & Hv & H).
  unfold has_text. rewrite Hv. destruct o as [sec|].
  - destruct (renderSummary_titled _ _ H) as [E ->].
    cbn [somes]. now rewrite headings_of_one, E.
  - unfold renderSummary in H. destruct (truthy v); [|reflexivity].
    cbn [negb] in H. steps H. discriminate H.
Qed.

(** A list builder answers a section for every list that is not empty. *)
Ltac never_none :=
  let H := fresh in
  intros ? ? H; cbv beta delta [renderSkills renderSkillsPills renderExperience
    renderExperienceT3 renderEducation renderEducationT3 renderCerts] in H;
  steps H; discriminate H.

Lemma renderSkills_some x l : renderSkills (VArr (x :: l)) <> Ok None.
Proof. revert x l. never_none. Qed.
Lemma renderSkillsPills_some x l : renderSkillsPills (VArr (x :: l)) <> Ok None.
Proof. revert x l. never_none. Qed.
Lemma renderExperience_some x l : renderExperience (VArr (x :: l)) <> Ok None.
Proof. revert x l. never_none. Qed.
Lemma renderExperienceT3_some x l : renderExperienceT3 (VArr (x :: l)) <> Ok None.
Proof. revert x l. never_none. Qed.
Lemma renderEducation_some x l : renderEducation (VArr (x :: l)) <> Ok None.
Proof. revert x l. never_none. Qed.
Lemma renderEducationT3_some x l : renderEducationT3 (VArr (x :: l)) <> Ok None.
Proof. revert x l. never_none. Qed.
Lemma renderCerts_some x l : renderCerts (VArr (x :: l)) <> Ok None.
Proof. revert x l. never_none. Qed.

(** Name the title each built section contributes. *)
Ltac title_of S :=
  match type of S with
  | rbind (get _ "summary") _ = _ => apply summary_title in S
  | rbind (get _ "skills") renderSkills = _ =>
      apply (list_section_title _ _ "Skills" _ _ renderSkills_titled renderSkills_some) in S
  | rbind (get _ "skills") renderSkillsPills = _ =>
      apply (list_section_title _ _ "Skills" _ _ renderSkillsPills_titled
               renderSkillsPills_some) in S
  | rbind (get _ "experience") renderExperience = _ =>
      apply (list_section_title _ _ "Employment history" _ _ renderExperience_titled
               renderExperience_some) in S
  | rbind (get _ "experience") renderExperienceT3 = _ =>
      apply (list_section_title _ _ "Employment history" _ _ renderExperienceT3_titled
               renderExperienceT3_some) in S
  | rbind (get _ "education") renderEducation = _ =>
      apply (list_section_title _ _ "Education" _ _ renderEducation_titled
               renderEducation_some) in S
  | rbind (get _ "education") renderEducationT3 = _ =>
      apply (list_section_title _ _ "Education" _ _ renderEducationT3_titled
               renderEducationT3_some) in S
  | rbind (get _ "certifications") renderCerts = _ =>
      apply (list_section_title _ _ "Certifications" _ _ renderCerts_titled
               renderCerts_some) in S
  end.

Ltac all_titles :=
  repeat match goal with
         | S : rbind (get _ _) _ = Ok _ |- _ => title_of S
         end.

Lemma theme1_titles (d : value) (w : world) :
  fst (renderResumeTheme1 d w) = Ok tt ->
  headings_of (children (snd (renderResumeTheme1 d w))) = titles_single d.
Proof.
  unfold renderResumeTheme1, mbind, clear_root, lift, root_append.
  destruct (renderHeader d) as [h|e] eqn:Hh; [|discriminate].
  cbn [children requests className devNote app].
  match goal with
  | |- context [match ?r with Ok _ => _ | Throw _ => _ end] =>
      destruct r as [secs|e] eqn:Hs
  end; [|discriminate].
  intros _. rewrite root_append_all_spec. cbn [snd children app].
  rewrite headings_of_cons, (renderHeader_quiet _ _ Hh). cbn [app].
  steps Hs. apply Ok_inj in Hs. subst secs.
  rewrite (somes_cons x), (somes_cons x0), (somes_cons x1), (somes_cons x2).
  rewrite !headings_of_app. all_titles. unfold titles_single. congruence.
Qed.

Lemma theme3_titles (d : value) (w : world) :
  fst (renderResumeTheme3 d w) = Ok tt ->
  headings_of (children (snd (renderResumeTheme3 d w))) = titles_single d.
Proof.
  unfold renderResumeTheme3, mbind, clear_root, lift, root_append.
  destruct (renderHeaderT3 d) as [h|e] eqn:Hh; [|discriminate].
  cbn [children requests className devNote app].
  match goal with
  | |- context [match ?r with Ok _ => _ | Throw _ => _ end] =>
      destruct r as [secs|e] eqn:Hs
  end; [|discriminate].
  intros _. rewrite root_append_all_spec. cbn [snd children app].
  rewrite headings_of_cons, (renderHeaderT3_quiet _ _ Hh). cbn [app].
  steps Hs. apply Ok_inj in Hs. subst secs.
  rewrite (somes_cons x), (somes_cons x0), (somes_cons x1), (somes_cons x2).
  rewrite !headings_of_app. all_titles. unfold titles_single. congruence.
Qed.

Lemma theme2_titles (d : value) (w : world) :
  fst (renderResumeTheme2 d w) = Ok tt ->
  headings_of (children (snd (renderResumeTheme2 d w))) = titles_columns d.
Proof.
  unfold renderResumeTheme2, mbind, clear_root, lift, root_append.
  destruct (renderHeader d) as [h|e] eqn:Hh; [|discriminate].
  cbn [children requests className devNote app].
  match goal with
  | |- context [match ?r with Ok _ => _ | Throw _ => _ end] =>
      destruct r as [body|e] eqn:Hs
  end; [|discriminate].
  intros _. cbn [snd children app].
  rewrite !headings_of_cons, (renderHeader_quiet _ _ Hh). cbn [app headings_of flat_map].
  rewrite app_nil_r.
  cbn [make rbind] in Hs. steps Hs. apply Ok_inj in Hs. subst body.
  cbn [append app]. rewrite !headings_Elem. cbn [String.eqb Ascii.eqb Bool.eqb app].
  rewrite !headings_of_cons, !headings_Elem. cbn [String.eqb Ascii.eqb Bool.eqb app].
  cbn [headings_of flat_map]. rewrite !app_nil_r.
  fold (headings_of (somes [x])). fold (headings_of (somes [x0; x1; x2; x3])).
  rewrite !headings_Elem. cbn [String.eqb Ascii.eqb Bool.eqb app].
  rewrite (somes_cons x0), (somes_cons x1), (somes_cons x2).
  rewrite !headings_of_app. all_titles. unfold titles_columns. congruence.
Qed.

(** X13: a page that was rendered without an exception shows a section
    for exactly the fields that hold data (a truthy summary, a list that
    is not empty), each once, in a fixed order: summary, skills,
    employment history, education, certifications in the two
    single-column layouts; skills first, then the others, in the
    two-column layout. *)
Theorem X13_sections_appear_once_in_fixed_order (d : value) (w : world) :
  (fst (renderResumeTheme1 d w) = Ok tt ->
   headings_of (children (snd (renderResumeTheme1 d w))) = titles_single d) /\
  (fst (renderResumeTheme3 d w) = Ok tt ->
   headings_of (children (snd (renderResumeTheme3 d w))) = titles_single d) /\
  (fst (renderResumeTheme2 d w) = Ok tt ->
   headings_of (children (snd (renderResumeTheme2 d w))) = titles_columns d).
Proof.
  repeat split.
  - apply theme1_titles.
  - apply theme3_titles.
  - apply theme2_titles.
Qed.

Lemma X13_witness_three_sections :
  headings_of
    (children
       (snd (renderResumeTheme2
               (VObj [(lit "certifications", VArr [VObj [(lit "name", str "C")]]);
                      (lit "summary", str "S");
                      (lit "education", VArr []);
                      (lit "skills", VArr [VObj [(lit "items", VArr [str "Go"])]])])
               blank)))
  = [lit "Skills"; lit "Professional summary"; lit "Certifications"].
Proof.
  exact (proj2 (proj2 (X13_sections_appear_once_in_fixed_order
           (VObj [(lit "certifications", VArr [VObj [(lit "name", str "C")]]);
                  (lit "summary", str "S");
                  (lit "education", VArr []);
                  (lit "skills", VArr [VObj [(lit "items", VArr [str "Go"])]])])
           blank)) eq_refl).
Defined.

(* ================================================================== *)
(** ** Headers, entry by entry *)

Lemma h1_exact (o : option jsstring) :
  make "h1" None (Data (or_else (field o) (str "Your Name")))
  = Ok (Elem "h1" [] []
          [Html match present o with Some n => n | None => lit "Your Name" end]).
Proof. destruct o as [[|x s]|]; reflexivity. Qed.

Lemma title_exact (o : option jsstring) :
  (if truthy (field o)
   then t <- make "div" (Some "title"%string) (Data (field o)) ;; Ok (Some t)
   else Ok None)
  = Ok match present o with
       | Some t => Some (Elem "div" (lit "title") [] [Html t])
       | None => None
       end.
Proof. destruct o as [[|x s]|]; reflexivity. Qed.

(** X14: for a record whose header fields have their documented types,
    the header of the default and two-column layouts is made of exactly
    three blocks: the name (or the placeholder "Your Name" when the name
    is missing or empty) with the title below it only when there is one,
    the contact line, and the decoration, which is hidden from
    assistive technology. *)
Theorem X14_header_is_name_block_contact_line_decoration
  (d : value) (c : contact) :
  is_contact d c ->
  renderHeader d
  = Ok (Elem "div" (lit "hdr") []
          [who_block c;
           Elem "div" (lit "contacts-line") [] (intersperse dot (contact_entries c));
           deco_block]).
Proof.
  intros (Hn & Ht & Hl & Hp & He & Hk). unfold renderHeader.
  rewrite Hn, Ht, Hl, Hp, He. cbn [rbind].
  rewrite h1_exact. cbn [rbind]. rewrite title_exact. cbn [rbind].
  unfold make at 1. rewrite append_items_nodes. cbn [rbind].
  cbn [make rbind]. rewrite location_entry. cbn [rbind].
  rewrite phone_entry. cbn [rbind]. rewrite email_entry. cbn [rbind].
  unfold contact_entries, who_block, deco_block. destruct (links c) as [ls|].
  - destruct Hk as (vs & -> & Hls). cbn [rbind].
    rewrite (links_typed vs ls Hls). cbn [rbind].
    rewrite contacts_loop_spec. cbn [rbind append_items append_item append app].
    rewrite <- !app_assoc. now destruct (present (title c)).
  - rewrite Hk. cbn [rbind].
    rewrite contacts_loop_spec. cbn [rbind append_items append_item append app].
    rewrite <- !app_assoc, !app_nil_r. now destruct (present (title c)).
Qed.

Lemma X14_witness_nameless_record :
  renderHeader (VObj [(lit "name", VStr []); (lit "email", str "a@x.com")])
  = Ok (Elem "div" (lit "hdr") []
          [Elem "div" (lit "who") [] [Elem "h1" [] [] [Html (lit "Your Name")]];
           Elem "div" (lit "contacts-line") []
             [anchor (lit "mailto:a@x.com") (lit "a@x.com")];
           deco_block]).
Proof.
  apply (X14_header_is_name_block_contact_line_decoration
           (VObj [(lit "name", VStr []); (lit "email", str "a@x.com")])
           (Contact (Some []) None None None (Some (lit "a@x.com")) None)).
  repeat split.
Defined.

Lemma filter_fields (l : list (option jsstring)) :
  filter truthy (map field l) = map VStr (presents l).
Proof.
  unfold presents. induction l as [|o l IH]; [reflexivity|].
  cbn [map]. destruct o as [[|x s]|]; cbn [filter field truthy present somes map];
    now rewrite IH.
Qed.

Lemma join_fields (sep : jsstring) (l : list (option jsstring)) :
  join sep (filter truthy (map field l)) = Ok (intercalate sep (presents l)).
Proof. now rewrite filter_fields, join_strings. Qed.

(** X15: the header of the third layout holds the name (or the
    placeholder) and one line with the location, phone and email that
    are there, joined with ", ".  That line is appended as text, not as
    markup, holds no link and never shows the record's links or title. *)
Theorem X15_third_layout_header_is_name_and_one_text_line
  (d : value) (c : contact) :
  get d "name" = Ok (field (name c)) ->
  get d "location" = Ok (field (location c)) ->
  get d "phone" = Ok (field (phone c)) ->
  get d "email" = Ok (field (email c)) ->
  renderHeaderT3 d = Ok (headerT3 c).
Proof.
  intros Hn Hl Hp He. unfold renderHeaderT3.
  rewrite Hn, Hl, Hp, He. cbn [rbind]. rewrite h1_exact. cbn [rbind].
  change [field (location c); field (phone c); field (email c)]
    with (map field [location c; phone c; email c]).
  rewrite join_fields. cbn [rbind]. unfold headerT3. cbv zeta.
  destruct (intercalate (lit ", ") (presents [location c; phone c; email c]));
    reflexivity.
Qed.

Lemma X15_witness_markup_in_location :
  renderHeaderT3 (VObj [(lit "name", str "A"); (lit "location", str "<b>Pune</b>");
                        (lit "email", str "a@x.com");
                        (lit "links", VArr [VObj [(lit "url", str "https://a.dev")]])])
  = Ok (Elem "div" (lit "hdr") []
          [Elem "div" (lit "who") []
             [Elem "h1" [] [] [Html (lit "A")];
              Elem "div" (lit "subline") [] [Text (lit "<b>Pune</b>, a@x.com")]]]).
Proof.
  apply (X15_third_layout_header_is_name_and_one_text_line
           (VObj [(lit "name", str "A"); (lit "location", str "<b>Pune</b>");
                  (lit "email", str "a@x.com");
                  (lit "links", VArr [VObj [(lit "url", str "https://a.dev")]])])
           (Contact (Some (lit "A")) None (Some (lit "<b>Pune</b>")) None
              (Some (lit "a@x.com")) None)); reflexivity.
Defined.

(* ================================================================== *)
(** ** Lists of entries *)

Lemma make_html (tag cls : string) (s : jsstring) :
  make tag (Some cls) (Data (VStr s)) = Ok (Elem tag (lit cls) [] (html_of s)).
Proof. unfold make. cbn [set_innerHTML to_string rbind]. now destruct s. Qed.

Lemma make_html_plain (tag : string) (s : jsstring) :
  make tag None (Data (VStr s)) = Ok (Elem tag [] [] (html_of s)).
Proof. unfold make. cbn [set_innerHTML to_string rbind]. now destruct s. Qed.

Lemma forEach_pill (its : list jsstring) :
  forEach pill (map VStr its) = Ok (map pill_node its).
Proof.
  induction its as [|s its IH]; [reflexivity|].
  cbn [map forEach]. unfold pill at 1. rewrite make_html. cbn [rbind].
  now rewrite IH.
Qed.

Lemma forEach_skill_pills (cats : list value) (its : list (list jsstring)) :
  Forall2 (fun c l => get c "items" = Ok (VArr (map VStr l))) cats its ->
  forEach skill_pills cats = Ok (map pill_node (List.concat its)).
Proof.
  induction 1 as [|c l cats its H _ IH]; [reflexivity|].
  cbn [forEach List.concat]. unfold skill_pills at 1.
  rewrite (skill_items_typed c l H). cbn [rbind].
  rewrite forEach_pill, IH. cbn [rbind]. now rewrite map_app.
Qed.

(** X16: the skills of the two-column layout are not de-duplicated: for
    categories whose items are strings, the section holds one pill per
    item, repeated items included, in the order of the categories and of
    their items. *)
Theorem X16_skill_pills_keep_every_item
  (cats : list value) (its : list (list jsstring)) :
  cats <> [] ->
  Forall2 (fun c l => get c "items" = Ok (VArr (map VStr l))) cats its ->
  renderSkillsPills (VArr cats)
  = Ok (Some (Elem "section" (lit "sec skills-pills") []
                [Elem "h2" [] [] [Html (lit "Skills")];
                 Elem "div" [] [] (map pill_node (List.concat its))])) /\
  List.length (map pill_node (List.concat its))
  = list_sum (map (@List.length jsstring) its).
Proof.
  intros Hne H. split.
  - destruct cats as [|c cats]; [contradiction|].
    unfold renderSkillsPills, str. cbn [make rbind].
    rewrite (forEach_skill_pills _ _ H). reflexivity.
  - rewrite length_map. clear. induction its as [|l its IH]; [reflexivity|].
    cbn [List.concat map list_sum]. now rewrite length_app, IH.
Qed.

Lemma X16_witness_repeated_skill :
  renderSkillsPills
    (VArr [VObj [(lit "items", VArr [str "Go"; str "Go"])];
           VObj [(lit "items", VArr [str "Go"])]])
  = Ok (Some (Elem "section" (lit "sec skills-pills") []
                [Elem "h2" [] [] [Html (lit "Skills")];
                 Elem "div" [] []
                   [pill_node (lit "Go"); pill_node (lit "Go"); pill_node (lit "Go")]])).
Proof.
  apply (proj1 (X16_skill_pills_keep_every_item
                  [VObj [(lit "items", VArr [str "Go"; str "Go"])];
                   VObj [(lit "items", VArr [str "Go"])]]
                  [[lit "Go"; lit "Go"]; [lit "Go"]]
                  ltac:(discriminate) ltac:(repeat constructor))).
Defined.

Lemma forEach_skip {A} (f : A -> result (list node)) (keep : A -> bool) (l : list A) :
  (forall x, keep x = false -> f x = Ok []) ->
  forEach f l = forEach f (filter keep l).
Proof.
  intros H. induction l as [|x l IH]; [reflexivity|].
  cbn [forEach filter]. destruct (keep x) eqn:E.
  - cbn [forEach]. now rewrite IH.
  - rewrite (H x E). cbn [rbind]. rewrite IH.
    now destruct (forEach f (filter keep l)).
Qed.

(** X17: falsy entries of [experience] ([null], [0], the empty string)
    are skipped without an error, in both renderings of the section: the
    items are those of the list without them.  The heading itself only
    depends on the list not being empty, so a list of nothing but such
    entries gives a section with its heading and no item. *)
Theorem X17_falsy_jobs_are_skipped (x : value) (l : list value) :
  forEach experience_item (x :: l)
  = forEach experience_item (filter truthy (x :: l)) /\
  forEach experience_itemT3 (x :: l)
  = forEach experience_itemT3 (filter truthy (x :: l)) /\
  (Forall (fun j => truthy j = false) (x :: l) ->
   renderExperience (VArr (x :: l)) = Ok (Some (bare_section "Employment history")) /\
   renderExperienceT3 (VArr (x :: l)) = Ok (Some (bare_section "Employment history"))).
Proof.
  assert (S1 : forall j, truthy j = false -> experience_item j = Ok []).
  { intros j Hj. unfold experience_item. now rewrite Hj. }
  assert (S3 : forall j, truthy j = false -> experience_itemT3 j = Ok []).
  { intros j Hj. unfold experience_itemT3. now rewrite Hj. }
  split; [now apply forEach_skip|]. split; [now apply forEach_skip|].
  intros H.
  assert (E : filter truthy (x :: l) = []).
  { induction H as [|j js Hj _ IH]; [reflexivity|]. cbn [filter]. now rewrite Hj. }
  unfold renderExperience, renderExperienceT3, str. cbn [make rbind].
  rewrite (forEach_skip experience_item truthy (x :: l) S1).
  rewrite (forEach_skip experience_itemT3 truthy (x :: l) S3).
  rewrite E. split; reflexivity.
Qed.

Lemma X17_witness_only_null_jobs :
  renderExperience (VArr [VNull; VNum 0])
  = Ok (Some (bare_section "Employment history")).
Proof.
  apply (proj1 (proj2 (proj2 (X17_falsy_jobs_are_skipped VNull [VNum 0]))
                  ltac:(repeat constructor))).
Defined.

Lemma forEach_throws {A B} (f : A -> result (list B)) (l : list A) (x : A) :
  In x l -> (forall r, f x <> Ok r) -> forall r, forEach f l <> Ok r.
Proof.
  intros Hin Hx. induction l as [|y l IH]; [contradiction|].
  intros r H. cbn [forEach] in H. steps H.
  destruct Hin as [-> | Hin]; [now apply (Hx x0) | now apply (IH Hin x1)].
Qed.

Lemma not_ok_throws {A} (r : result A) :
  (forall a, r <> Ok a) -> exists e, r = Throw e.
Proof. destruct r as [a|e]; [intros H; now destruct (H a) | eauto]. Qed.

(** X18: unlike [experience], the lists [education], [certifications]
    and [links] do not tolerate a [null] (or [undefined]) entry: the
    builder reads a field of it and throws, so no section, and for
    [links] no header, is built at all. *)
Theorem X18_null_entries_make_the_builders_throw (l : list value) (d : value) :
  In VNull l ->
  (exists e, renderEducation (VArr l) = Throw e) /\
  (exists e, renderEducationT3 (VArr l) = Throw e) /\
  (exists e, renderCerts (VArr l) = Throw e) /\
  (get d "links" = Ok (VArr l) -> exists e, renderHeader d = Throw e).
Proof.
  intros Hin.
  assert (Hl : exists x l', l = x :: l') by (destruct l; [contradiction | eauto]).
  destruct Hl as (x & l' & ->).
  repeat split.
  - apply not_ok_throws. intros o H. unfold renderEducation in H. steps H.
    apply (forEach_throws education_item _ VNull Hin) in S1; [exact S1|].
    intros r Hr. unfold education_item in Hr. steps Hr.
    match goal with
    | G : get VNull _ = Ok _ |- _ => discriminate G
    end.
  - apply not_ok_throws. intros o H. unfold renderEducationT3 in H. steps H.
    apply (forEach_throws education_itemT3 _ VNull Hin) in S1; [exact S1|].
    intros r Hr. unfold education_itemT3 in Hr. steps Hr.
    match goal with
    | G : get VNull _ = Ok _ |- _ => discriminate G
    end.
  - apply not_ok_throws. intros o H. unfold renderCerts in H. steps H.
    apply (forEach_throws cert_item _ VNull Hin) in S1; [exact S1|].
    intros r Hr. unfold cert_item in Hr. steps Hr.
    match goal with
    | G : get VNull _ = Ok _ |- _ => discriminate G
    end.
  - intros Hk. apply not_ok_throws. intros h H. unfold renderHeader in H.
    steps H.
    match goal with
    | G : get d "links" = Ok ?v |- _ =>
        rewrite Hk in G; apply Ok_inj in G; subst v
    end.
    match goal with
    | G : rbind (forEach push_link _) _ = Ok _ |- _ => steps G
    end.
    match goal with
    | F : forEach push_link _ = Ok _ |- _ =>
        apply (forEach_throws push_link _ VNull Hin) in F; [exact F|]
    end.
    intros r Hr. unfold push_link in Hr. steps Hr.
    match goal with
    | G : get VNull _ = Ok _ |- _ => discriminate G
    end.
Qed.

Lemma X18_witness_null_certificate :
  exists e,
    renderCerts (VArr [VObj [(lit "name", str "AWS")]; VNull]) = Throw e.
Proof.
  exact (proj1 (proj2 (proj2 (X18_null_entries_make_the_builders_throw
                                [VObj [(lit "name", str "AWS")]; VNull] VNull
                                ltac:(right; left; reflexivity))))).
Defined.

Lemma div_if_line (cls : string) (s : jsstring) : div_if cls s = Ok (line cls s).
Proof.
  unfold div_if, line. destruct s as [|c s]; [reflexivity|].
  now rewrite make_html.
Qed.

Lemma forEach_highlight (hs : list jsstring) :
  forEach highlight (map VStr hs)
  = Ok (map (fun h => Elem "li" [] [] (html_of h)) hs).
Proof.
  induction hs as [|h hs IH]; [reflexivity|].
  cbn [map forEach]. unfold highlight at 1. rewrite make_html_plain. cbn [rbind].
  now rewrite IH.
Qed.

Lemma highlights_typed (v : value) (j : job) :
  get v "highlights"
  = Ok match j_highlights j with Some hs => VArr (map VStr hs) | None => VUndef end ->
  highlights_of v = Ok (job_highlights j).
Proof.
  intros H. unfold highlights_of, job_highlights. rewrite H. cbn [rbind].
  destruct (j_highlights j) as [[|h hs]|]; try reflexivity.
  change (VArr (map VStr (h :: hs))) with (VArr (VStr h :: map VStr hs)).
  cbv iota beta. cbn [make rbind].
  change (VStr h :: map VStr hs) with (map VStr (h :: hs)).
  now rewrite forEach_highlight.
Qed.

(** X19: a job whose fields have their documented types is rendered, in
    the default and two-column layouts, as one item holding "role,
    company", then "start - end • location" when any of the three is
    there, then the list of highlights when it is not empty.  Missing or
    empty fields leave no separator behind; the role line is there even
    when it is empty. *)
Theorem X19_job_lines_of_the_default_layout (v : value) (j : job) :
  is_job v j -> experience_item v = Ok [job_item j].
Proof.
  intros (Hv & Hr & Hc & Hs & He & Hl & Hh). unfold experience_item.
  rewrite Hv. cbn [negb make rbind]. rewrite Hr, Hc. cbn [rbind].
  change [field (j_role j); field (j_company j)]
    with (map field [j_role j; j_company j]).
  rewrite join_fields. cbn [rbind]. rewrite make_html. cbn [rbind].
  rewrite Hs, He. cbn [rbind].
  change [field (j_start j); field (j_end j)] with (map field [j_start j; j_end j]).
  rewrite join_fields. cbn [rbind]. rewrite Hl. cbn [rbind].
  change [VStr ?x; field (j_location j)]
    with (map field [Some x; j_location j]).
  fold dot_sep. rewrite join_fields. cbn [rbind].
  rewrite div_if_line. cbn [rbind]. rewrite (highlights_typed v j Hh).
  reflexivity.
Qed.

Lemma X19_witness_job_without_end :
  experience_item
    (VObj [(lit "role", str "Eng"); (lit "start", str "2019");
           (lit "location", str "NYC"); (lit "highlights", VArr [])])
  = Ok [Elem "div" (lit "item") []
          [Elem "div" (lit "role") [] [Html (lit "Eng")];
           Elem "div" (lit "meta") [] [Html (lit "2019" ++ dot_sep ++ lit "NYC")]]].
Proof.
  apply (X19_job_lines_of_the_default_layout
           (VObj [(lit "role", str "Eng"); (lit "start", str "2019");
                  (lit "location", str "NYC"); (lit "highlights", VArr [])])
           (Job (Some (lit "Eng")) None (Some (lit "2019")) None
              (Some (lit "NYC")) (Some []))).
  repeat split.
Defined.

(** X20: the third layout arranges the same job differently: "role,
    start - end" on the first line and "company, location" on the
    second, each line only when it is not empty, then the highlights. *)
Theorem X20_job_lines_of_the_third_layout (v : value) (j : job) :
  is_job v j -> experience_itemT3 v = Ok [job_itemT3 j].
Proof.
  intros (Hv & Hr & Hc & Hs & He & Hl & Hh). unfold experience_itemT3.
  rewrite Hv. cbn [negb make rbind]. rewrite Hs, He. cbn [rbind].
  change [field (j_start j); field (j_end j)] with (map field [j_start j; j_end j]).
  rewrite join_fields. cbn [rbind]. rewrite Hr. cbn [rbind].
  change [field (j_role j); VStr ?x] with (map field [j_role j; Some x]).
  rewrite join_fields. cbn [rbind]. rewrite div_if_line. cbn [rbind].
  rewrite Hc, Hl. cbn [rbind].
  change [field (j_company j); field (j_location j)]
    with (map field [j_company j; j_location j]).
  rewrite join_fields. cbn [rbind]. rewrite div_if_line. cbn [rbind].
  rewrite (highlights_typed v j Hh). reflexivity.
Qed.

Lemma X20_witness_job_with_company_only :
  experience_itemT3 (VObj [(lit "company", str "Solo")])
  = Ok [Elem "div" (lit "item") []
          [Elem "div" (lit "submeta") [] [Html (lit "Solo")]]].
Proof.
  apply (X20_job_lines_of_the_third_layout
           (VObj [(lit "company", str "Solo")])
           (Job None (Some (lit "Solo")) None None None None)).
  repeat split.
Defined.

Lemma params_get_prints (qs : URLSearchParams) (k : jsstring) :
  exists c, to_string (params_get qs k) = Ok c.
Proof.
  induction qs as [|[k' v] qs IH]; cbn [params_get]; [eexists; reflexivity|].
  destruct (jseqb k k'); [eexists; reflexivity | exact IH].
Qed.

(** X21: [renderResume] called on [null] or [undefined] resolves the
    theme from the query string alone, sets the class, empties the
    container and then throws a TypeError when the header reads the
    name: the container is left empty. *)
Theorem X21_rendering_no_record_empties_the_container
  (urlParams : URLSearchParams) (d : value) (w : world) :
  d = VNull \/ d = VUndef ->
  exists c,
    to_string (or_else (params_get urlParams (lit "theme")) (str "t1")) = Ok c /\
    renderResume urlParams d w
    = (Throw TypeError,
       World (requests w) (lit "resume theme-" ++ c) [] (devNote w)).
Proof.
  intros Hd.
  assert (Hn : norm urlParams d
               = Ok (or_else (params_get urlParams (lit "theme")) (str "t1"))).
  { unfold norm, th. destruct Hd as [-> | ->]; cbn [truthy rbind];
      unfold or_else; cbn [truthy];
      destruct (truthy (params_get urlParams (lit "theme"))) eqn:E;
      rewrite ?E; reflexivity. }
  assert (Hc : exists c,
             to_string (or_else (params_get urlParams (lit "theme")) (str "t1")) = Ok c).
  { unfold or_else.
    destruct (truthy (params_get urlParams (lit "theme"))); [|eexists; reflexivity].
    apply params_get_prints. }
  destruct Hc as [c Hc]. exists c. split; [exact Hc|].
  rewrite (renderResume_dispatch urlParams d _ c w Hn Hc).
  destruct Hd as [-> | ->];
    destruct (strict_eq_lit _ "t2"); try destruct (strict_eq_lit _ "t3");
    reflexivity.
Qed.

Lemma X21_witness_null_record_t2_query :
  renderResume [(lit "theme", lit "t2")] VNull
    (World [] [] [Text (lit "old")] (Some true))
  = (Throw TypeError, World [] (lit "resume theme-t2") [] (Some true)).
Proof.
  destruct (X21_rendering_no_record_empties_the_container
              [(lit "theme", lit "t2")] VNull
              (World [] [] [Text (lit "old")] (Some true)) (or_introl eq_refl))
    as (c & Hc & H).
  injection Hc as <-. exact H.
Defined.

Lemma note_typed (v : value) (s : school) :
  get v "note" = Ok (field (s_note s)) -> note_of v = Ok (school_note s).
Proof.
  intros H. unfold note_of, school_note. rewrite H. cbn [rbind].
  destruct (s_note s) as [[|x n]|]; reflexivity.
Qed.

(** X22: a school whose fields have their documented types is rendered
    as "degree — school", then "year • location" when either is there,
    then the note when there is one; the third layout shows
    "degree, year" and "school, location" instead, each line only when
    it is not empty.  Missing fields leave no separator behind. *)
Theorem X22_school_lines_in_both_arrangements (v : value) (s : school) :
  is_school v s ->
  education_item v = Ok [school_item s] /\
  education_itemT3 v = Ok [school_itemT3 s].
Proof.
  intros (Hd & Hs & Hy & Hl & Hn). split.
  - unfold education_item. cbn [make rbind]. rewrite Hd, Hs. cbn [rbind].
    change [field (s_degree s); field (s_school s)]
      with (map field [s_degree s; s_school s]).
    rewrite join_fields. cbn [rbind]. rewrite make_html. cbn [rbind].
    rewrite Hy, Hl. cbn [rbind].
    change [field (s_year s); field (s_location s)]
      with (map field [s_year s; s_location s]).
    fold dot_sep. rewrite join_fields. cbn [rbind]. rewrite div_if_line. cbn [rbind].
    rewrite (note_typed v s Hn). reflexivity.
  - unfold education_itemT3. cbn [make rbind]. rewrite Hd, Hy. cbn [rbind].
    change [field (s_degree s); field (s_year s)]
      with (map field [s_degree s; s_year s]).
    rewrite join_fields. cbn [rbind]. rewrite div_if_line. cbn [rbind].
    rewrite Hs, Hl. cbn [rbind].
    change [field (s_school s); field (s_location s)]
      with (map field [s_school s; s_location s]).
    rewrite join_fields. cbn [rbind]. rewrite div_if_line. cbn [rbind].
    rewrite (note_typed v s Hn). reflexivity.
Qed.

Lemma X22_witness_school_without_degree :
  education_item (VObj [(lit "school", str "MIT"); (lit "year", str "2015")])
  = Ok [Elem "div" (lit "item") []
          [Elem "div" (lit "role") [] [Html (lit "MIT")];
           Elem "div" (lit "meta") [] [Html (lit "2015")]]].
Proof.
  apply (proj1 (X22_school_lines_in_both_arrangements
                  (VObj [(lit "school", str "MIT"); (lit "year", str "2015")])
                  (School None (Some (lit "MIT")) (Some (lit "2015")) None None)
                  ltac:(repeat split))).
Defined.

(** X23: a certification whose fields have their documented types is
    rendered as its name, then "issuer • year" when either is there; an
    entry without a name still gives an item, with an empty name line. *)
Theorem X23_certification_lines (v : value) (c : cert) :
  is_cert v c -> cert_item v = Ok [cert_node c].
Proof.
  intros (Hn & Hi & Hy). unfold cert_item. cbn [make rbind].
  rewrite Hn. cbn [rbind].
  assert (E : make "div" (Some "role"%string) (Data (or_else (field (c_name c)) (VStr [])))
              = Ok (Elem "div" (lit "role") []
                      (html_of match present (c_name c) with Some n => n | None => [] end))).
  { destruct (c_name c) as [[|x n]|]; reflexivity. }
  rewrite E. cbn [rbind]. rewrite Hi, Hy. cbn [rbind].
  change [field (c_issuer c); field (c_year c)]
    with (map field [c_issuer c; c_year c]).
  fold dot_sep. rewrite join_fields. cbn [rbind]. rewrite div_if_line. reflexivity.
Qed.

Lemma X23_witness_empty_certification :
  cert_item (VObj []) = Ok [Elem "div" (lit "item") [] [Elem "div" (lit "role") [] []]].
Proof.
  apply (X23_certification_lines (VObj []) (Cert None None None)).
  repeat split.
Defined.

(** X24: a two-column page that was rendered without an exception holds
    exactly the header and one body section with two columns: the aside
    holds the skills and nothing else, the main column holds the summary,
    employment history, education and certifications, in that order. *)
Theorem X24_two_column_page_splits_aside_and_main (d : value) (w : world) :
  fst (renderResumeTheme2 d w) = Ok tt ->
  exists header left right,
    renderHeader d = Ok header /\
    children (snd (renderResumeTheme2 d w))
    = [header;
       Elem "section" (lit "sec") []
         [Elem "div" (lit "columns") []
            [Elem "aside" (lit "aside") [] left;
             Elem "div" (lit "main") [] right]]] /\
    headings_of left = title_if (has_list d "skills") "Skills" /\
    headings_of right
    = title_if (has_text d "summary") "Professional summary"
      ++ title_if (has_list d "experience") "Employment history"
      ++ title_if (has_list d "education") "Education"
      ++ title_if (has_list d "certifications") "Certifications".
Proof.
  unfold renderResumeTheme2, mbind, clear_root, lift, root_append.
  destruct (renderHeader d) as [h|e] eqn:Hh; [|discriminate].
  cbn [children requests className devNote app].
  match goal with
  | |- context [match ?r with Ok _ => _ | Throw _ => _ end] =>
      destruct r as [body|e] eqn:Hs
  end; [|discriminate].
  intros _. cbn [snd children app].
  cbn [make rbind] in Hs. steps Hs. apply Ok_inj in Hs. subst body.
  cbn [append app].
  exists h, (somes [x]), (somes [x0; x1; x2; x3]).
  split; [reflexivity|]. split; [reflexivity|].
  rewrite (somes_cons x0), (somes_cons x1), (somes_cons x2).
  rewrite !headings_of_app. all_titles. split; congruence.
Qed.

Lemma X24_witness_skills_and_summary :
  exists header left right,
    renderHeader (VObj [(lit "summary", str "S");
                        (lit "skills", VArr [VObj [(lit "items", VArr [str "Go"])]])])
    = Ok header /\
    children
      (snd (renderResumeTheme2
              (VObj [(lit "summary", str "S");
                     (lit "skills", VArr [VObj [(lit "items", VArr [str "Go"])]])])
              blank))
    = [header;
       Elem "section" (lit "sec") []
         [Elem "div" (lit "columns") []
            [Elem "aside" (lit "aside") [] left;
             Elem "div" (lit "main") [] right]]] /\
    headings_of left = [lit "Skills"] /\
    headings_of right = [lit "Professional summary"].
Proof.
  exact (X24_two_column_page_splits_aside_and_main
           (VObj [(lit "summary", str "S");
                  (lit "skills", VArr [VObj [(lit "items", VArr [str "Go"])]])])
           blank eq_refl).
Defined.
